(** * dspy-star-history: the detection ensemble and the correlation engine

    A shallow embedding of the three analysis scripts

      - [scripts/analyze_fake_real_correlation.py]  (class [CorrelationAnalyzer])
      - [scripts/create_star_timeline_graph.py]     (class [StarTimelineVisualizer])
      - [scripts/run_advanced_on_collected.py]      (class [AdvancedAnalyzer])

    Python sets of usernames are [gset string], [defaultdict(int)] is a
    [gmap] read with default [0], exceptions are the [Raise] branch of
    [result], and [for] loops thread their mutable locals as explicit state. *)

From Stdlib Require Import ZArith QArith Lia.
From stdpp Require Import gmap strings list sorting.

Local Open Scope string_scope.
Local Open Scope Z_scope.

Set Warnings "-clear-no-such-hyp".

(** ** Exceptions *)

Inductive exn : Type :=
  | KeyError (key : string)
  | IndexError
  | ZeroDivisionError.

Inductive result (A : Type) : Type :=
  | OK (a : A)
  | Raise (e : exn).
Arguments OK {A} a.
Arguments Raise {A} e.

Global Instance result_ret : MRet result := λ A a, OK a.
Global Instance result_bind : MBind result := λ A B f m,
  match m with
  | OK a => f a
  | Raise e => Raise e
  end.

(** [for x in xs: s = body(s, x)], leaving the loop at the first exception. *)
Fixpoint for_each {A S : Type} (body : S → A → result S) (xs : list A) (s : S)
  : result S :=
  match xs with
  | [] => OK s
  | x :: rest => s' ← body s x; for_each body rest s'
  end.

(** ** [datetime]

    [datetime.fromisoformat(s.replace('Z', '+00:00'))] gives an aware UTC
    datetime.  The record holds its fields; ordinals follow CPython's
    [_ymd2ord]. *)

Record datetime : Type := mk_datetime {
  year : Z; month : Z; day : Z;
  hour : Z; minute : Z; second : Z; microsecond : Z
}.

Global Instance datetime_eq_dec : EqDecision datetime.
Proof. solve_decision. Defined.

Definition is_leap (y : Z) : bool :=
  (y mod 4 =? 0) && (negb (y mod 100 =? 0) || (y mod 400 =? 0)).

Definition days_before_year (y : Z) : Z :=
  let y' := y - 1 in y' * 365 + y' / 4 - y' / 100 + y' / 400.

Definition DAYS_BEFORE_MONTH : list Z :=
  [-1; 0; 31; 59; 90; 120; 151; 181; 212; 243; 273; 304; 334].

Definition days_before_month (y m : Z) : Z :=
  nth (Z.to_nat m) DAYS_BEFORE_MONTH 0
  + (if (2 <? m) && is_leap y then 1 else 0).

Definition ymd2ord (y m d : Z) : Z :=
  days_before_year y + days_before_month y m + d.

Definition toordinal (t : datetime) : Z := ymd2ord (year t) (month t) (day t).

(** Microseconds since the start of ordinal day 0: the instant of a UTC
    datetime, on which subtraction and comparison are defined. *)
Definition to_us (t : datetime) : Z :=
  (((toordinal t * 24 + hour t) * 60 + minute t) * 60 + second t) * 1000000
  + microsecond t.

(** A [timedelta] is its length in microseconds. *)
Definition timedelta : Type := Z.

Definition dt_sub (a b : datetime) : timedelta := to_us a - to_us b.

(** [td.days]: timedelta normalises with [0 <= seconds < 86400], so [days]
    is the floor. *)
Definition days (td : timedelta) : Z := td / (86400 * 1000000).

(** [td.total_seconds()] *)
Definition total_seconds (td : timedelta) : Q := td # 1000000.

(** ** Account records

    One JSON object per line of the enriched file.  [username] and
    [starred_at] are read with [acc[...]] everywhere; the other keys may be
    missing, which is [None] here. *)

Record account : Type := mk_account {
  username : string;
  starred_at : datetime;
  account_created : option datetime;
  status : option string;
  is_suspicious : option bool;
  public_repos : option Z;
  followers : option Z;
  following : option Z
}.

Global Instance account_eq_dec : EqDecision account.
Proof. solve_decision. Defined.

(** [acc.get(key)] used as a condition *)
Definition truthy (o : option bool) : bool :=
  match o with Some true => true | _ => false end.

(** [acc.get(key, 0)] *)
Definition get0 (o : option Z) : Z := default 0 o.

(** [acc.get('status') == 'deleted'] *)
Definition status_deleted (acc : account) : bool :=
  bool_decide (status acc = Some "deleted").

(** [acc.get('is_suspicious') or acc.get('status') == 'deleted'] *)
Definition basic_flagged (acc : account) : bool :=
  truthy (is_suspicious acc) || status_deleted acc.

(** [acc['account_created']] *)
Definition get_account_created (acc : account) : result datetime :=
  match account_created acc with
  | Some c => OK c
  | None => Raise (KeyError "account_created")
  end.

(** [s.add(u)] *)
Definition add (u : string) (s : gset string) : gset string := {[u]} ∪ s.

(** [list.sort(key=...)]: stable, ascending. *)
Fixpoint insert_by {A : Type} (key : A → Z) (x : A) (l : list A) : list A :=
  match l with
  | [] => [x]
  | y :: l' => if key x <=? key y then x :: l else y :: insert_by key x l'
  end.

Fixpoint sort_by {A : Type} (key : A → Z) (l : list A) : list A :=
  match l with
  | [] => []
  | x :: l' => insert_by key x (sort_by key l')
  end.

(** [l[i]], negative indices counting from the end. *)
Definition index {A : Type} (l : list A) (i : Z) : result A :=
  let n := Z.of_nat (length l) in
  let j := if i <? 0 then i + n else i in
  if (0 <=? j) && (j <? n)
  then match l !! Z.to_nat j with Some x => OK x | None => Raise IndexError end
  else Raise IndexError.

(** [l[a:b]] for [0 <= a <= b], the only slices taken. *)
Definition slice {A : Type} (l : list A) (a b : Z) : list A :=
  take (Z.to_nat b - Z.to_nat a) (drop (Z.to_nat a) l).

(** [range(a, b)] *)
Definition range (a b : Z) : list Z :=
  (λ k, a + Z.of_nat k) <$> seq 0 (Z.to_nat (b - a)).

(** [len(l)] *)
Definition len {A : Type} (l : list A) : Z := Z.of_nat (length l).

(** Strict comparison of rationals as a boolean. *)
Definition Qlt_bool (x y : Q) : bool := negb (Qle_bool y x).

(** A timestamped username, the tuples of the clustering loop. *)
Definition stamp : Type := string * datetime.

(** [for u, _ in cluster: suspicious.add(u)] *)
Definition add_all (cluster : list stamp) (suspicious : gset string)
  : gset string :=
  fold_left (λ s x, add (fst x) s) cluster suspicious.

(** [(ts - last_ts).total_seconds() / 60] *)
Definition diff_minutes (ts last_ts : datetime) : Q :=
  total_seconds (dt_sub ts last_ts) / 60.

(** ** Calendar keys *)

(** A [date] is compared as the tuple [(year, month, day)]. *)
Definition date : Type := Z * Z * Z.

(** [dt.date()] *)
Definition date_of (t : datetime) : date := (year t, month t, day t).

Definition date_le (a b : date) : Prop :=
  let '(y1, m1, d1) := a in
  let '(y2, m2, d2) := b in
  y1 < y2 ∨ (y1 = y2 ∧ (m1 < m2 ∨ (m1 = m2 ∧ d1 ≤ d2))).

Global Instance date_le_dec : RelDecision date_le.
Proof. intros [[y1 m1] d1] [[y2 m2] d2]; unfold date_le; apply _. Defined.

(** CPython's [_isoweek1monday] and [date.isocalendar]. *)
Definition isoweek1monday (y : Z) : Z :=
  let firstday := ymd2ord y 1 1 in
  let firstweekday := (firstday + 6) mod 7 in
  let week1monday := firstday - firstweekday in
  if 3 <? firstweekday then week1monday + 7 else week1monday.

Definition isocalendar (d : date) : Z * Z * Z :=
  let '(y, m, dd) := d in
  let week1monday := isoweek1monday y in
  let today := ymd2ord y m dd in
  let week := (today - week1monday) / 7 in
  let wday := (today - week1monday) mod 7 in
  if week <? 0 then
    let y := y - 1 in
    let week1monday := isoweek1monday y in
    (y, (today - week1monday) / 7 + 1, (today - week1monday) mod 7 + 1)
  else if (52 <=? week) && (isoweek1monday (y + 1) <=? today) then
    (y + 1, 1, wday + 1)
  else (y, week + 1, wday + 1).

(** Decimal formatting, [f"{n}"] and [f"{n:02d}"]. *)
Definition digit (d : Z) : Ascii.ascii := Ascii.ascii_of_nat (Z.to_nat (48 + d)).

Fixpoint digits_go (fuel : nat) (n : Z) (acc : string) : string :=
  match fuel with
  | O => acc
  | S fuel' =>
      let acc' := String (digit (n mod 10)) acc in
      if n / 10 =? 0 then acc' else digits_go fuel' (n / 10) acc'
  end.

Definition str_nonneg (n : Z) : string :=
  digits_go (S (Z.to_nat (Z.log2 n))) n "".

Definition format_d (n : Z) : string :=
  if n <? 0 then "-" ++ str_nonneg (- n) else str_nonneg n.

Definition format_02d (n : Z) : string :=
  let s := format_d n in
  if (String.length s <? 2)%nat then "0" ++ s else s.

(** [sum(...)] of integers *)
Definition sum_of (l : list Z) : Z := fold_left Z.add l 0.

(** [a < b] on dates *)
Definition date_lt (a b : date) : Prop :=
  let '(y1, m1, d1) := a in
  let '(y2, m2, d2) := b in
  y1 < y2 ∨ (y1 = y2 ∧ (m1 < m2 ∨ (m1 = m2 ∧ d1 < d2))).

Global Instance date_lt_dec : RelDecision date_lt.
Proof. intros [[y1 m1] d1] [[y2 m2] d2]; unfold date_lt; apply _. Defined.

(** [n / d] on integers, a float *)
Definition true_div (n d : Z) : result Q :=
  if d =? 0 then Raise ZeroDivisionError else OK (inject_Z n / inject_Z d)%Q.

(** [x / y] on floats *)
Definition float_div (x y : Q) : result Q :=
  if Qeq_bool y 0 then Raise ZeroDivisionError else OK (x / y)%Q.

(** ** Counting dictionaries and period buckets

    The grouping loops of [analyze_weekly_correlation] (by ISO week) and of
    [create_timeline_graph] (by day) have one shape; [key] is the period
    key computed from an account and [le] the order [sorted] uses on keys. *)

Section Bucketing.
Context {K : Type} `{Countable K}.
Variable key : account → K.
Variable le : relation K.
Context `{!RelDecision le}.

(** [d[k]] on a [defaultdict(int)] *)
Definition dd_get (d : gmap K Z) (k : K) : Z := default 0 (d !! k).

(** [d[k] += 1] *)
Definition incr (k : K) (d : gmap K Z) : gmap K Z := <[k := dd_get d k + 1]> d.

(** The loop state is the pair of dictionaries [(real, fake)]. *)
Definition count_body (fake_usernames : gset string)
    (st : gmap K Z * gmap K Z) (acc : account) : gmap K Z * gmap K Z :=
  let '(real, fake) := st in
  let k := key acc in
  if bool_decide (username acc ∈ fake_usernames)
  then (real, incr k fake)
  else (incr k real, fake).

Definition group_counts (accounts : list account) (fake_usernames : gset string)
  : gmap K Z * gmap K Z :=
  fold_left (count_body fake_usernames) accounts (∅, ∅).

(** [sorted(set(list(real.keys()) + list(fake.keys())))] *)
Definition sorted_keys (real fake : gmap K Z) : list K :=
  merge_sort le (elements (dom real ∪ dom fake)).

(** The loop that builds the aligned count arrays.  Reading a missing
    key of a [defaultdict] stores the default [0]; the entry it adds is
    never distinguished from an absent one afterwards. *)
Definition counts_for (d : gmap K Z) (periods : list K) : list Z :=
  dd_get d <$> periods.

End Bucketing.

(** ** [analyze_fake_real_correlation.py] *)

Module CorrelationAnalyzer.

(** The basic block of [apply_full_detection]. *)
Definition basic_fake (accounts : list account) : gset string :=
  fold_left (λ s acc, if basic_flagged acc then add (username acc) s else s)
            accounts ∅.

Definition dormant_body (suspicious : gset string) (acc : account)
  : result (gset string) :=
  if status_deleted acc || truthy (is_suspicious acc) then OK suspicious
  else
    created ← get_account_created acc;
    let starred := starred_at acc in
    let account_age_days := days (dt_sub starred created) in
    if (365 <? account_age_days) && (get0 (public_repos acc) <? 3)
    then OK (add (username acc) suspicious)
    else OK suspicious.

Definition detect_dormant_accounts (accounts : list account)
  : result (gset string) :=
  for_each dormant_body accounts ∅.

Definition low_activity_body (suspicious : gset string) (acc : account)
  : gset string :=
  if status_deleted acc || truthy (is_suspicious acc) then suspicious
  else
    let repos := get0 (public_repos acc) in
    let followers := get0 (followers acc) in
    let following := get0 (following acc) in
    if (repos =? 0) && (followers <? 5) && (following <? 10)
    then add (username acc) suspicious
    else suspicious.

Definition detect_low_activity (accounts : list account) : gset string :=
  fold_left low_activity_body accounts ∅.

(** The list comprehension and sort that open [detect_temporal_clustering]. *)
Definition timestamps_of (accounts : list account) : list stamp :=
  let timestamps :=
    (λ acc, (username acc, starred_at acc)) <$>
    filter (λ acc, negb (truthy (is_suspicious acc)) && negb (status_deleted acc) = true)
           accounts in
  sort_by (λ x, to_us (snd x)) timestamps.

(** The body of [for username, ts in timestamps[1:]]; the loop state is
    [(current_cluster, suspicious)]. *)
Definition cluster_body (threshold_minutes : Z)
    (st : list stamp * gset string) (x : stamp)
  : result (list stamp * gset string) :=
  let '(current_cluster, suspicious) := st in
  let '(username, ts) := x in
  last_item ← index current_cluster (-1);
  let last_ts := snd last_item in
  if Qle_bool (diff_minutes ts last_ts) (inject_Z threshold_minutes)
  then OK ((current_cluster ++ [(username, ts)])%list, suspicious)
  else
    let suspicious :=
      if 10 <=? len current_cluster
      then add_all current_cluster suspicious else suspicious in
    OK ([(username, ts)], suspicious).

Definition detect_temporal_clustering_with (threshold_minutes : Z)
    (accounts : list account) : result (gset string) :=
  let timestamps := timestamps_of accounts in
  let suspicious := ∅ in
  match timestamps with
  | [] => OK suspicious
  | first :: rest =>
      '(current_cluster, suspicious) ←
        for_each (cluster_body threshold_minutes) rest ([first], suspicious);
      if 10 <=? len current_cluster
      then OK (add_all current_cluster suspicious)
      else OK suspicious
  end.

(** The default [threshold_minutes=60]. *)
Definition detect_temporal_clustering : list account → result (gset string) :=
  detect_temporal_clustering_with 60.

(** [len(all_fake)/len(self.accounts)*100] of the summary line. *)
Definition percent (n d : Z) : result Q :=
  if d =? 0 then Raise ZeroDivisionError
  else OK (inject_Z n / inject_Z d * 100)%Q.

Definition apply_full_detection (accounts : list account)
  : result (gset string) :=
  let basic_fake := basic_fake accounts in
  temporal_fake ← detect_temporal_clustering accounts;
  dormant_fake ← detect_dormant_accounts accounts;
  let low_activity := detect_low_activity accounts in
  let all_fake := basic_fake ∪ temporal_fake ∪ dormant_fake ∪ low_activity in
  _ ← percent (Z.of_nat (size all_fake)) (len accounts);
  OK all_fake.

(** The ISO-week key [f"{iso_week[0]}-W{iso_week[1]:02d}"]. *)
Definition week_key (acc : account) : string :=
  let date := date_of (starred_at acc) in
  let iso_week := isocalendar date in
  format_d iso_week.1.1 ++ "-W" ++ format_02d iso_week.1.2.

(** [stats.pearsonr(x, y)] returns floating-point [(r, p)]; the value
    here records the call and its arguments. *)
Inductive pearson : Type := pearsonr (x y : list Z).

(** [np.mean] of a list of integers *)
Definition mean (l : list Z) : Q :=
  let total := foldr Z.add 0 l in
  (inject_Z total / inject_Z (len l))%Q.

(** Body of [for i in range(1, len(weeks_2024))]; the state is
    [(inverse_weeks, same_direction_weeks)]. *)
Definition week_change_body (real_2024 fake_2024 : list Z)
    (st : Z * Z) (i : Z) : result (Z * Z) :=
  let '(inverse_weeks, same_direction_weeks) := st in
  prev_real ← index real_2024 (i - 1);
  curr_real ← index real_2024 i;
  prev_fake ← index fake_2024 (i - 1);
  curr_fake ← index fake_2024 i;
  let real_change := curr_real - prev_real in
  let fake_change := curr_fake - prev_fake in
  if (real_change <? 0) && (0 <? fake_change)
     || (0 <? real_change) && (fake_change <? 0)
  then OK (inverse_weeks + 1, same_direction_weeks)
  else if (5 <? Z.abs real_change) || (5 <? Z.abs fake_change)
  then OK (inverse_weeks, same_direction_weeks + 1)
  else OK (inverse_weeks, same_direction_weeks).

(** [inverse_weeks / total_weeks * 100 if total_weeks > 0 else 0] *)
Definition inverse_percentage (inverse_weeks total_weeks : Z) : Q :=
  if 0 <? total_weeks
  then (inject_Z inverse_weeks / inject_Z total_weeks * 100)%Q
  else 0%Q.

(** What the moving-average block prints for a flagged week. *)
Record spike : Type := mk_spike {
  spike_week : string;
  spike_real : Z; spike_real_ma : Q; spike_real_dev : Q;
  spike_fake : Z; spike_fake_ma : Q; spike_fake_dev : Q
}.

(** Body of [for i in range(window, len(weeks_2024))]; the state is the
    list of weeks printed so far. *)
Definition moving_average_body (window : Z) (weeks_2024 : list string)
    (real_2024 fake_2024 : list Z) (printed : list spike) (i : Z)
  : result (list spike) :=
  let real_ma := mean (slice real_2024 (i - window) i) in
  let fake_ma := mean (slice fake_2024 (i - window) i) in
  curr_real ← index real_2024 i;
  curr_fake ← index fake_2024 i;
  let real_dev := (inject_Z curr_real - real_ma)%Q in
  let fake_dev := (inject_Z curr_fake - fake_ma)%Q in
  if Qlt_bool real_dev (-5) && Qlt_bool 10 fake_dev
  then
    week ← index weeks_2024 i;
    OK (printed ++ [mk_spike week curr_real real_ma real_dev
                                  curr_fake fake_ma fake_dev])%list
  else OK printed.

(** The returned dictionary. *)
Record correlation_data : Type := mk_correlation_data {
  all_weeks : list string;
  real_counts : list Z;
  fake_counts : list Z;
  correlation : option pearson;
  correlation_2024 : option pearson;
  inverse_weeks_2024 : Z;
  inverse_pct_2024 : Q
}.

(** The 2024 block under [if len(weeks_2024) > 4]: the sub-range
    correlation and the week-over-week counts
    [(correlation_2024, inverse_weeks, inverse_pct)]. *)
Definition analyze_2024 (weeks_2024 : list string) (real_2024 fake_2024 : list Z)
  : result (pearson * Z * Q) :=
  let correlation_2024 := pearsonr real_2024 fake_2024 in
  '(inverse_weeks, same_direction_weeks) ←
    for_each (week_change_body real_2024 fake_2024)
             (range 1 (len weeks_2024)) (0, 0);
  let total_weeks := len weeks_2024 - 1 in
  let inverse_pct := inverse_percentage inverse_weeks total_weeks in
  OK (correlation_2024, inverse_weeks, inverse_pct).

(** The block under [if len(weeks_2024) >= 8]. *)
Definition moving_average_analysis (weeks_2024 : list string)
    (real_2024 fake_2024 : list Z) : result (list spike) :=
  let window := 4 in
  for_each (moving_average_body window weeks_2024 real_2024 fake_2024)
           (range window (len weeks_2024)) [].

(** Everything after the week list is built; the pair returned is the
    dictionary and the weeks printed by the moving-average block. *)
Definition analyze_series (all_weeks : list string)
    (weekly_real weekly_fake : gmap string Z)
  : result (correlation_data * list spike) :=
  let real_counts := counts_for weekly_real all_weeks in
  let fake_counts := counts_for weekly_fake all_weeks in
  let correlation :=
    if 2 <? len real_counts then Some (pearsonr real_counts fake_counts)
    else None in
  let weeks_2024 := filter (λ w, String.prefix "2024" w = true) all_weeks in
  let real_2024 := counts_for weekly_real weeks_2024 in
  let fake_2024 := counts_for weekly_fake weeks_2024 in
  block ←
    (if 4 <? len weeks_2024
     then r ← analyze_2024 weeks_2024 real_2024 fake_2024; OK (Some r)
     else OK None);
  printed ←
    (if 8 <=? len weeks_2024
     then moving_average_analysis weeks_2024 real_2024 fake_2024
     else OK []);
  OK (mk_correlation_data all_weeks real_counts fake_counts correlation
        (match block with Some (c, _, _) => Some c | None => None end)
        (match block with Some (_, n, _) => n | None => 0 end)
        (match block with Some (_, _, p) => p | None => 0%Q end),
      printed).

Definition analyze_weekly_correlation (accounts : list account)
    (fake_usernames : gset string) : result (correlation_data * list spike) :=
  let '(weekly_real, weekly_fake) :=
    group_counts week_key accounts fake_usernames in
  let all_weeks := sorted_keys String.le weekly_real weekly_fake in
  analyze_series all_weeks weekly_real weekly_fake.

End CorrelationAnalyzer.

(** ** [create_star_timeline_graph.py] *)

Module StarTimelineVisualizer.

(** The three detector methods are textual copies of those of
    [CorrelationAnalyzer]. *)
Definition detect_temporal_clustering : list account → result (gset string) :=
  CorrelationAnalyzer.detect_temporal_clustering_with 60.

Definition detect_dormant_accounts (accounts : list account)
  : result (gset string) :=
  for_each CorrelationAnalyzer.dormant_body accounts ∅.

Definition detect_low_activity (accounts : list account) : gset string :=
  fold_left CorrelationAnalyzer.low_activity_body accounts ∅.

Definition apply_advanced_detection (accounts : list account)
  : result (gset string) :=
  let basic_fake_usernames :=
    fold_left (λ s acc, if basic_flagged acc then add (username acc) s else s)
              accounts ∅ in
  temporal_fake ← detect_temporal_clustering accounts;
  dormant_fake ← detect_dormant_accounts accounts;
  let low_activity_fake := detect_low_activity accounts in
  let all_fake_usernames :=
    basic_fake_usernames ∪ temporal_fake ∪ dormant_fake ∪ low_activity_fake in
  _ ← CorrelationAnalyzer.percent (Z.of_nat (size all_fake_usernames))
                                  (len accounts);
  OK all_fake_usernames.

(** The day key of [create_timeline_graph]. *)
Definition day_key (acc : account) : date := date_of (starred_at acc).

(** The series [create_timeline_graph] plots: [(dates, real_counts,
    fake_counts)]. *)
Definition create_timeline_graph (accounts : list account)
    (fake_usernames : gset string) : list date * list Z * list Z :=
  let '(daily_real, daily_fake) :=
    group_counts day_key accounts fake_usernames in
  let all_dates := sorted_keys date_le daily_real daily_fake in
  (all_dates, counts_for daily_real all_dates, counts_for daily_fake all_dates).

(** What [create_summary_stats] prints for one period. *)
Record period_stats : Type := mk_period_stats {
  duration : Z;
  total_stars : Z;
  real_stars : Z; real_pct : Q;
  fake_stars : Z; fake_pct : Q;
  avg_per_day : Q
}.

Record summary_stats : Type := mk_summary_stats {
  pre_spike_stats : period_stats;
  spike_stats : period_stats;
  velocity_increase : Q;
  post_spike_stats : period_stats
}.

(** The five lines printed for one period. *)
Definition print_period (days : list date) (real fake : Z) : result period_stats :=
  let total := real + fake in
  real_percent ← CorrelationAnalyzer.percent real total;
  fake_percent ← CorrelationAnalyzer.percent fake total;
  avg ← true_div total (len days);
  OK (mk_period_stats (len days) total real real_percent fake fake_percent avg).

Definition create_summary_stats (dates : list date)
    (daily_real daily_fake : gmap date Z) (spike_start spike_end : date)
  : result summary_stats :=
  let pre_spike := filter (λ d, date_lt d spike_start) dates in
  let pre_real := sum_of (dd_get daily_real <$> pre_spike) in
  let pre_fake := sum_of (dd_get daily_fake <$> pre_spike) in
  let pre_total := pre_real + pre_fake in
  let spike_dates :=
    filter (λ d, date_le spike_start d ∧ date_le d spike_end) dates in
  let spike_real := sum_of (dd_get daily_real <$> spike_dates) in
  let spike_fake := sum_of (dd_get daily_fake <$> spike_dates) in
  let spike_total := spike_real + spike_fake in
  let post_spike := filter (λ d, date_lt spike_end d) dates in
  let post_real := sum_of (dd_get daily_real <$> post_spike) in
  let post_fake := sum_of (dd_get daily_fake <$> post_spike) in
  pre ← print_period pre_spike pre_real pre_fake;
  spike ← print_period spike_dates spike_real spike_fake;
  spike_avg ← true_div spike_total (len spike_dates);
  pre_avg ← true_div pre_total (len pre_spike);
  velocity ← float_div spike_avg pre_avg;
  post ← print_period post_spike post_real post_fake;
  OK (mk_summary_stats pre spike velocity post).

End StarTimelineVisualizer.

(** ** [run_advanced_on_collected.py] *)

Module AdvancedAnalyzer.

(** The two partitions computed by [__init__]. *)
Definition basic_fake (accounts : list account) : list account :=
  filter (λ a, truthy (is_suspicious a) || status_deleted a = true) accounts.

Definition basic_legit (accounts : list account) : list account :=
  filter (λ a, negb (truthy (is_suspicious a)) && negb (status_deleted a) = true)
         accounts.

Record temporal_result : Type := mk_temporal_result {
  clusters : list (list stamp);
  temporal_suspicious_count : Z;
  temporal_suspicious_accounts : list string
}.

(** Loop body of [analyze_temporal_clustering]; the state is
    [(current_cluster, clusters)]. *)
Definition cluster_body (threshold_minutes : Z)
    (st : list stamp * list (list stamp)) (x : stamp)
  : result (list stamp * list (list stamp)) :=
  let '(current_cluster, clusters) := st in
  let '(username, ts) := x in
  last_item ← index current_cluster (-1);
  let last_ts := snd last_item in
  if Qle_bool (diff_minutes ts last_ts) (inject_Z threshold_minutes)
  then OK ((current_cluster ++ [(username, ts)])%list, clusters)
  else
    let clusters :=
      if 10 <=? len current_cluster
      then (clusters ++ [current_cluster])%list else clusters in
    OK ([(username, ts)], clusters).

Definition find_clusters (threshold_minutes : Z) (timestamps : list stamp)
  : result (list (list stamp)) :=
  match timestamps with
  | [] => OK []
  | first :: rest =>
      '(current_cluster, clusters) ←
        for_each (cluster_body threshold_minutes) rest ([first], []);
      if 10 <=? len current_cluster
      then OK (clusters ++ [current_cluster])%list
      else OK clusters
  end.

Definition analyze_temporal_clustering_with (threshold_minutes : Z)
    (accounts : list account) : result temporal_result :=
  let timestamps :=
    (λ account, (username account, starred_at account)) <$> basic_legit accounts in
  let timestamps := sort_by (λ x, to_us (snd x)) timestamps in
  clusters ← find_clusters threshold_minutes timestamps;
  let suspicious_accounts :=
    fold_left (λ s cluster, add_all cluster s) clusters ∅ in
  OK (mk_temporal_result clusters (Z.of_nat (size suspicious_accounts))
                         (elements suspicious_accounts)).

Definition analyze_temporal_clustering : list account → result temporal_result :=
  analyze_temporal_clustering_with 60.

Record dormant_detail : Type := mk_dormant_detail {
  dd_username : string;
  dd_account_age_days : Z;
  dd_public_repos : Z;
  dd_followers : Z;
  dd_following : Z
}.

Record dormant_result : Type := mk_dormant_result {
  dormant_suspicious_count : Z;
  dormant_suspicious_accounts : list string;
  dormant_details : list dormant_detail
}.

Definition dormant_body (suspicious_dormant : list dormant_detail)
    (account : account) : result (list dormant_detail) :=
  if status_deleted account then OK suspicious_dormant
  else
    created ← get_account_created account;
    let starred := starred_at account in
    let account_age_days := days (dt_sub starred created) in
    let public_repos := get0 (public_repos account) in
    if (365 <? account_age_days) && (public_repos <? 3)
    then OK (suspicious_dormant ++
               [mk_dormant_detail (username account) account_age_days
                  public_repos (get0 (followers account))
                  (get0 (following account))])%list
    else OK suspicious_dormant.

Definition analyze_dormant_accounts (accounts : list account)
  : result dormant_result :=
  suspicious_dormant ← for_each dormant_body (basic_legit accounts) [];
  (* sort(key=account_age_days, reverse=True): stable, descending *)
  let suspicious_dormant :=
    sort_by (λ x, - dd_account_age_days x) suspicious_dormant in
  OK (mk_dormant_result (len suspicious_dormant)
                        (dd_username <$> suspicious_dormant)
                        suspicious_dormant).

Record activity_detail : Type := mk_activity_detail {
  ad_username : string;
  ad_public_repos : Z;
  ad_followers : Z;
  ad_following : Z
}.

Record activity_result : Type := mk_activity_result {
  activity_suspicious_count : Z;
  activity_suspicious_accounts : list string;
  activity_details : list activity_detail
}.

Definition activity_body (suspicious_low_activity : list activity_detail)
    (account : account) : list activity_detail :=
  if status_deleted account then suspicious_low_activity
  else
    let repos := get0 (public_repos account) in
    let followers := get0 (followers account) in
    let following := get0 (following account) in
    if (repos =? 0) && (followers <? 5) && (following <? 10)
    then (suspicious_low_activity ++
            [mk_activity_detail (username account) repos followers following])%list
    else suspicious_low_activity.

Definition analyze_activity_diversity (accounts : list account)
  : activity_result :=
  let suspicious_low_activity :=
    fold_left activity_body (basic_legit accounts) [] in
  mk_activity_result (len suspicious_low_activity)
                     (ad_username <$> suspicious_low_activity)
                     suspicious_low_activity.

(** The counts of the [results] dictionary of [generate_report]. *)
Record results : Type := mk_results {
  accounts_analyzed : Z;
  basic_detection_suspicious : Z;
  advanced_temporal_clustering : Z;
  advanced_dormant_accounts : Z;
  advanced_low_activity : Z;
  advanced_total : Z;
  summary_total_fake : Z;
  summary_fake_percentage : Q;
  summary_legitimate : Z
}.

(** [all_suspicious] of [generate_report] *)
Definition all_suspicious (temporal : temporal_result)
    (dormant : dormant_result) (activity : activity_result) : gset string :=
  let s : gset string := ∅ in
  let s := s ∪ list_to_set (temporal_suspicious_accounts temporal) in
  let s := s ∪ list_to_set (dormant_suspicious_accounts dormant) in
  let s := s ∪ list_to_set (activity_suspicious_accounts activity) in
  s.

Definition generate_report (accounts : list account)
    (temporal : temporal_result) (dormant : dormant_result)
    (activity : activity_result) : result results :=
  let all_suspicious := all_suspicious temporal dormant activity in
  let total := len accounts in
  let basic_fake := len (basic_fake accounts) in
  let advanced_fake := Z.of_nat (size all_suspicious) in
  let total_fake := basic_fake + advanced_fake in
  (* the date-range line reads self.accounts[0] and self.accounts[-1] *)
  _ ← index accounts 0;
  _ ← index accounts (-1);
  fake_percentage ← CorrelationAnalyzer.percent total_fake total;
  OK (mk_results total basic_fake
        (temporal_suspicious_count temporal)
        (dormant_suspicious_count dormant)
        (activity_suspicious_count activity)
        advanced_fake total_fake fake_percentage (total - total_fake)).

Definition main (accounts : list account) : result results :=
  temporal ← analyze_temporal_clustering accounts;
  dormant ← analyze_dormant_accounts accounts;
  let activity := analyze_activity_diversity accounts in
  generate_report accounts temporal dormant activity.

End AdvancedAnalyzer.

(** * Vocabulary of the statements *)

(** The test of the dormant detectors on one record: account age in whole
    days above 365 and fewer than 3 public repositories. *)
Definition dormant_cond (a : account) : bool :=
  match account_created a with
  | Some c => (365 <? days (dt_sub (starred_at a) c)) && (get0 (public_repos a) <? 3)
  | None => false
  end.

(** The record is one the dormant loop adds to its output. *)
Definition dormant_flag (a : account) : bool :=
  negb (basic_flagged a) && dormant_cond a.

(** The record does not stop the dormant loop: it is skipped as
    basic-flagged, or its [account_created] can be read. *)
Definition dormant_ready (a : account) : bool :=
  basic_flagged a || bool_decide (is_Some (account_created a)).

(** The test of the low-activity detectors on one record. *)
Definition low_activity_flag (a : account) : bool :=
  negb (basic_flagged a)
  && ((get0 (public_repos a) =? 0) && (get0 (followers a) <? 5)
      && (get0 (following a) <? 10)).

(** Usernames of the records of a list that pass a test. *)
Definition usernames_where (P : account → bool) (accounts : list account)
  : gset string :=
  list_to_set (username <$> filter (λ a, P a = true) accounts).

(** Sample records. *)
Definition utc (y m d h mi s : Z) : datetime := mk_datetime y m d h mi s 0.

Definition star (u : string) (starred : datetime) (created : option datetime)
    (repos : Z) : account :=
  mk_account u starred created (Some "active") (Some false)
             (Some repos) (Some 50) (Some 50).

(** The entry [analyze_dormant_accounts] appends for a flagged record. *)
Definition dormant_detail_of (a : account) : AdvancedAnalyzer.dormant_detail :=
  AdvancedAnalyzer.mk_dormant_detail (username a)
    (match account_created a with
     | Some c => days (dt_sub (starred_at a) c)
     | None => 0
     end)
    (get0 (public_repos a)) (get0 (followers a)) (get0 (following a)).

(** A star of 1 March 2024, noon, by an account with no creation date. *)
Definition ghost : account := star "ghost" (utc 2024 3 1 12 0 0) None 0.

(** The same star by accounts created 400 days earlier, with two and with
    three public repositories. *)
Definition sleeper2 : account :=
  star "sleeper2" (utc 2024 3 1 12 0 0) (Some (utc 2023 1 26 12 0 0)) 2.

Definition sleeper3 : account :=
  star "sleeper3" (utc 2024 3 1 12 0 0) (Some (utc 2023 1 26 12 0 0)) 3.

(** 400 days in microseconds. *)
Definition days400 : timedelta := 400 * 86400 * 1000000.

(** The order [sort_by] produces: keys never decrease. *)
Definition key_sorted {A : Type} (key : A → Z) (l : list A) : Prop :=
  Sorted (λ a b, key a ≤ key b) l.

(** *** The temporal detector in the words of the specification

    "Maintain a growing cluster starting with the first event; for each
    following event, compute the gap in minutes since the last event added
    to the current cluster; if gap <= threshold, append; otherwise close
    the current cluster and start a new cluster with the current event.
    Close and evaluate the final cluster identically after the loop."  A
    closed cluster flags every member when its size is at least 10. *)

(** The gap from [last_ts] to [ts] is at most [threshold] minutes. *)
Definition gap_within (threshold : Z) (last_ts ts : datetime) : bool :=
  to_us ts - to_us last_ts <=? threshold * 60 * 1000000.

(** The clusters closed while scanning [events], and the cluster still
    open at the end; [last_ts] is the time of the last event added to
    [current]. *)
Fixpoint spec_scan (threshold : Z) (current : list stamp) (last_ts : datetime)
    (events : list stamp) : list (list stamp) * list stamp :=
  match events with
  | [] => ([], current)
  | e :: events' =>
      if gap_within threshold last_ts (snd e)
      then spec_scan threshold (current ++ [e]) (snd e) events'
      else
        let '(closed, final) := spec_scan threshold [e] (snd e) events' in
        (current :: closed, final)
  end.

(** All clusters of a time-ordered list of events, the final one included. *)
Definition spec_clusters (threshold : Z) (events : list stamp)
  : list (list stamp) :=
  match events with
  | [] => []
  | first :: rest =>
      let '(closed, final) := spec_scan threshold [first] (snd first) rest in
      closed ++ [final]
  end.

(** A cluster qualifies when it has at least 10 members. *)
Definition qualifies (cluster : list stamp) : bool := 10 <=? len cluster.

Definition spec_qualifying (threshold : Z) (events : list stamp)
  : list (list stamp) :=
  filter (λ c, qualifies c = true) (spec_clusters threshold events).

(** The usernames of the members of the given clusters. *)
Definition cluster_users (clusters : list (list stamp)) : gset string :=
  list_to_set (fst <$> concat clusters).

(** What closing a cluster does to the set of flagged usernames. *)
Definition close_cluster (suspicious : gset string) (cluster : list stamp)
  : gset string :=
  if qualifies cluster then add_all cluster suspicious else suspicious.

(** Every event of [events] is within [threshold] minutes of the one
    before it, the first of them of [last_ts]. *)
Fixpoint chained (threshold : Z) (last_ts : datetime) (events : list stamp)
  : Prop :=
  match events with
  | [] => True
  | e :: events' =>
      gap_within threshold last_ts (snd e) = true
      ∧ chained threshold (snd e) events'
  end.

(** The events the temporal detectors look at, in input order. *)
Definition legit_stamps (accounts : list account) : list stamp :=
  (λ a, (username a, starred_at a)) <$>
  filter (λ a, basic_flagged a = false) accounts.

(** [n] stars, [step] minutes apart, from midnight of 1 January 2024, by
    users named [prefix] followed by a letter. *)
Definition letter (k : nat) : string :=
  String (Ascii.ascii_of_nat (97 + k)) "".

Definition burst (prefix : string) (step : Z) (n : nat) : list account :=
  (λ k, let m := step * Z.of_nat k in
        star (prefix ++ letter k) (utc 2024 1 1 (m / 60) (m mod 60) 0)
             (Some (utc 2023 12 1 0 0 0)) 7)
  <$> seq 0 n.

(** Eleven stars five minutes apart, then one at minute 200. *)
Definition eleven_then_one : list account :=
  burst "u" 5 11 ++ [star "late" (utc 2024 1 1 3 20 0) (Some (utc 2023 12 1 0 0 0)) 7].

(** Eleven stars, each sixty minutes after the one before. *)
Definition hourly_chain : list account := burst "h" 60 11.

(** A deleted account and an account with no activity to show. *)
Definition bot : account :=
  mk_account "bot" (utc 2024 2 1 9 0 0) (Some (utc 2024 1 31 0 0 0))
             (Some "deleted") None (Some 12) (Some 3) (Some 4).

Definition lurker : account :=
  mk_account "lurker" (utc 2024 2 2 9 0 0) (Some (utc 2024 1 31 0 0 0))
             None None None (Some 1) (Some 2).

(** Two records with one username: a deleted account, and a later star by
    an account with no repository, one follower and two following. *)
Definition shared_username : list account :=
  [mk_account "x" (utc 2024 2 1 9 0 0) (Some (utc 2024 1 31 0 0 0))
              (Some "deleted") None (Some 12) (Some 3) (Some 4);
   mk_account "x" (utc 2024 2 2 9 0 0) (Some (utc 2024 1 31 0 0 0))
              None None None (Some 1) (Some 2)].

(** A snapshot on which each of the four detectors flags somebody. *)
Definition mixed_snapshot : list account :=
  eleven_then_one ++ [sleeper2; sleeper3; bot; lurker].

Definition mixed_fake : gset string :=
  list_to_set ["ua"; "ub"; "uc"; "ud"; "ue"; "uf"; "ug"; "uh"; "ui"; "uj"; "uk";
               "sleeper2"; "bot"; "lurker"].

(** *** Buckets *)

(** How many records of the snapshot satisfy a test. *)
Definition tally (P : account → Prop) `{!∀ a, Decision (P a)}
    (accounts : list account) : Z :=
  len (filter P accounts).

(** An order without its diagonal. *)
Definition ascending {K : Type} (le : relation K) (periods : list K) : Prop :=
  StronglySorted (λ x y, le x y ∧ x ≠ y) periods.

(** What the three aligned arrays of a bucketing must be: the periods in
    which some event falls, each once and in ascending order, with the
    number of events of that period whose username is outside, and inside,
    the fake-set. *)
Definition buckets_of {K : Type} `{EqDecision K} (key : account → K)
    (le : relation K) (accounts : list account) (fake_usernames : gset string)
    (periods : list K) (real_counts fake_counts : list Z) : Prop :=
  ascending le periods
  ∧ (∀ k, k ∈ periods ↔ ∃ a, a ∈ accounts ∧ key a = k)
  ∧ real_counts
    = (λ k, tally (λ a, key a = k ∧ username a ∉ fake_usernames) accounts)
      <$> periods
  ∧ fake_counts
    = (λ k, tally (λ a, key a = k ∧ username a ∈ fake_usernames) accounts)
      <$> periods.

(** *** The weekly analysis in the words of the specification *)

(** [l[i]] for an index in range. *)
Definition at_ (l : list Z) (i : Z) : Z := nth (Z.to_nat i) l 0.

(** "For each consecutive pair (i-1, i): delta = x[i] - x[i-1]". *)
Definition delta (l : list Z) (i : Z) : Z := at_ l i - at_ l (i - 1).

(** "Inverse iff the signs are strictly opposite". *)
Definition opposite_signs (dr df : Z) : Prop :=
  (dr < 0 ∧ 0 < df) ∨ (0 < dr ∧ df < 0).

Global Instance opposite_signs_dec (dr df : Z) : Decision (opposite_signs dr df).
Proof. unfold opposite_signs. apply _. Defined.

(** "Notable-same-direction iff not inverse and |deltaReal| > 5 or
    |deltaFake| > 5". *)
Definition notable_same (dr df : Z) : Prop :=
  ¬ opposite_signs dr df ∧ (5 < Z.abs dr ∨ 5 < Z.abs df).

Global Instance notable_same_dec (dr df : Z) : Decision (notable_same dr df).
Proof. unfold notable_same. apply _. Defined.

(** The pairs of a sub-range are indexed by [1 .. length - 1]. *)
Definition spec_inverse_count (real fake : list Z) : Z :=
  len (filter (λ i, opposite_signs (delta real i) (delta fake i))
              (range 1 (len real))).

Definition spec_same_count (real fake : list Z) : Z :=
  len (filter (λ i, notable_same (delta real i) (delta fake i))
              (range 1 (len real))).

(** "inverseCount / totalPairs as a percentage; totalPairs = length - 1,
    and the percentage is 0 when totalPairs = 0". *)
Definition spec_inverse_pct (real fake : list Z) : Q :=
  let total_pairs := len real - 1 in
  if decide (total_pairs = 0) then 0%Q
  else (inject_Z (spec_inverse_count real fake) / inject_Z total_pairs * 100)%Q.

(** "movingAvg(series, i) = mean(series[i-W..i-1])" for [W = 4]. *)
Definition spec_moving_avg (l : list Z) (i : Z) : Q :=
  (at_ l (i - 4) + at_ l (i - 3) + at_ l (i - 2) + at_ l (i - 1)) # 4.

(** "deviation = series[i] - movingAvg(series, i)". *)
Definition spec_deviation (l : list Z) (i : Z) : Q :=
  (inject_Z (at_ l i) - spec_moving_avg l i)%Q.

(** "Compensatory spike iff realDeviation < -5 and fakeDeviation > +10". *)
Definition spec_spike (real fake : list Z) (i : Z) : Prop :=
  (spec_deviation real i < -5)%Q ∧ (10 < spec_deviation fake i)%Q.

Global Instance spec_spike_dec (real fake : list Z) (i : Z) :
  Decision (spec_spike real fake i).
Proof.
  unfold spec_spike.
  destruct (Qlt_le_dec (spec_deviation real i) (-5)) as [H1|H1];
  destruct (Qlt_le_dec 10 (spec_deviation fake i)) as [H2|H2].
  - left. by split.
  - right. intros [_ ?]. by apply (Qle_not_lt _ _ H2).
  - right. intros [? _]. by apply (Qle_not_lt _ _ H1).
  - right. intros [? _]. by apply (Qle_not_lt _ _ H1).
Defined.

(** The entry printed for period [i]. *)
Definition spike_at (weeks : list string) (real fake : list Z) (i : Z)
  : CorrelationAnalyzer.spike :=
  CorrelationAnalyzer.mk_spike (nth (Z.to_nat i) weeks "")
    (at_ real i) (CorrelationAnalyzer.mean (slice real (i - 4) i))
    (inject_Z (at_ real i) - CorrelationAnalyzer.mean (slice real (i - 4) i))%Q
    (at_ fake i) (CorrelationAnalyzer.mean (slice fake (i - 4) i))
    (inject_Z (at_ fake i) - CorrelationAnalyzer.mean (slice fake (i - 4) i))%Q.

(** The weeks of the 2024 slice. *)
Definition weeks_2024_of (all_weeks : list string) : list string :=
  filter (λ w, String.prefix "2024" w = true) all_weeks.

(** The values of a series at the weeks of the 2024 slice. *)
Definition sub_range_2024 (weeks : list string) (counts : list Z) : list Z :=
  snd <$> filter (λ p, String.prefix "2024" (fst p) = true) (zip weeks counts).

(** [n] stars at time [t] by users named [tag] followed by a letter. *)
Definition crowd (tag : string) (t : datetime) (n : nat) : list account :=
  (λ k, star (tag ++ letter k) t (Some (utc 2023 12 1 0 0 0)) 7) <$> seq 0 n.

(** The first Mondays of 2024, which open the ISO weeks 1 to 8. *)
Definition mondays_2024 : list (Z * Z) :=
  [(1, 1); (1, 8); (1, 15); (1, 22); (1, 29); (2, 5); (2, 12); (2, 19)].

(** A snapshot with the given numbers of real and fake stars in the
    successive weeks of 2024; the fake ones have names starting with "f". *)
Definition week_crowd (j : nat) (md : Z * Z) (rf : nat * nat) : list account :=
  let t := utc 2024 (fst md) (snd md) 12 0 0 in
  crowd ("r" ++ letter j) t (fst rf) ++ crowd ("f" ++ letter j) t (snd rf).

Definition weekly_snapshot (series : list (nat * nat)) : list account :=
  concat (imap (λ j x, week_crowd j (fst x) (snd x)) (zip mondays_2024 series)).

Definition weekly_fakes (series : list (nat * nat)) : gset string :=
  list_to_set (filter (λ u, String.prefix "f" u = true)
                      (username <$> weekly_snapshot series)).

(** The series of the examples. *)
Definition baseline_then_drop : list (nat * nat) :=
  [(10, 2); (10, 2); (10, 2); (10, 2); (3, 15)]%nat.

Definition baseline_then_same : list (nat * nat) :=
  [(10, 2); (10, 2); (10, 2); (10, 2); (10, 2)]%nat.

Definition drop_in_eight : list (nat * nat) :=
  [(10, 2); (10, 2); (10, 2); (10, 2); (3, 15); (10, 2); (10, 2); (10, 2)]%nat.

Definition flat_eight : list (nat * nat) :=
  [(10, 2); (10, 2); (10, 2); (10, 2); (10, 2); (10, 2); (10, 2); (10, 2)]%nat.

Definition three_weeks : list (nat * nat) := [(10, 2); (7, 6); (9, 3)]%nat.

Definition five_weeks : list (nat * nat) :=
  [(10, 2); (7, 6); (9, 3); (6, 5); (8, 4)]%nat.

(** *** Weeks in time order *)








(** Two stars on 1 March 2024, and one two days later. *)
Definition morning_star : account :=
  star "am" (utc 2024 3 1 8 0 0) (Some (utc 2023 12 1 0 0 0)) 7.

Definition evening_star : account :=
  star "pm" (utc 2024 3 1 20 30 0) (Some (utc 2023 12 1 0 0 0)) 7.

Definition third_day_star : account :=
  star "next" (utc 2024 3 3 9 0 0) (Some (utc 2023 12 1 0 0 0)) 7.

(** *** The summary around the spike window *)

(** The day of a star is in the window from [spike_start] to [spike_end]. *)
Definition in_window (spike_start spike_end : date) (d : date) : Prop :=
  date_le spike_start d ∧ date_le d spike_end.

(** The summary [create_timeline_graph] asks for, from the dictionaries and
    the dates it has built. *)
Definition summary_of (accounts : list account) (fake_usernames : gset string)
    (spike_start spike_end : date) : result StarTimelineVisualizer.summary_stats :=
  let '(daily_real, daily_fake) :=
    group_counts StarTimelineVisualizer.day_key accounts fake_usernames in
  StarTimelineVisualizer.create_summary_stats (sorted_keys date_le daily_real daily_fake)
    daily_real daily_fake spike_start spike_end.

(** Two stars on 1 March 2024, one on 2 March and one on 3 March. *)
Definition four_stars : list account :=
  [third_day_star; morning_star; evening_star;
   star "mid" (utc 2024 3 2 1 0 0) None 1].

(** What the lines of one period must say: [n] stars on [days] days. *)
Definition period_ok (p : StarTimelineVisualizer.period_stats) (n_real n_fake : Z) : Prop :=
  StarTimelineVisualizer.real_stars p = n_real ∧ StarTimelineVisualizer.fake_stars p = n_fake
  ∧ StarTimelineVisualizer.total_stars p = n_real + n_fake
  ∧ 1 ≤ StarTimelineVisualizer.duration p ≤ StarTimelineVisualizer.total_stars p
  ∧ (0 <= StarTimelineVisualizer.real_pct p)%Q ∧ (StarTimelineVisualizer.real_pct p <= 100)%Q
  ∧ (0 <= StarTimelineVisualizer.fake_pct p)%Q ∧ (StarTimelineVisualizer.fake_pct p <= 100)%Q
  ∧ (1 <= StarTimelineVisualizer.avg_per_day p)%Q.

(** * Properties *)

(** ** Loops and sorting *)

Lemma for_each_app {A S : Type} (body : S → A → result S) (xs ys : list A) (s : S) :
  for_each body (xs ++ ys)%list s = (s' ← for_each body xs s; for_each body ys s').
Proof.
  revert s; induction xs as [|x xs IH]; intros s; simpl; [done|].
  destruct (body s x); simpl; auto.
Qed.

(** A loop whose body never raises is a left fold. *)
Lemma for_each_pure {A S : Type} (body : S → A → result S) (f : S → A → S)
    (xs : list A) (s : S) :
  (∀ s x, body s x = OK (f s x)) → for_each body xs s = OK (fold_left f xs s).
Proof.
  intros Hb; revert s; induction xs as [|x xs IH]; intros s; simpl; [done|].
  rewrite Hb; simpl. apply IH.
Qed.

Lemma insert_by_Permutation {A : Type} (key : A → Z) (x : A) (l : list A) :
  insert_by key x l ≡ₚ x :: l.
Proof.
  induction l as [|y l IH]; simpl; [done|].
  destruct (key x <=? key y); [done|].
  rewrite IH. apply Permutation_swap.
Qed.

Lemma sort_by_Permutation {A : Type} (key : A → Z) (l : list A) :
  sort_by key l ≡ₚ l.
Proof.
  induction l as [|x l IH]; simpl; [done|].
  by rewrite insert_by_Permutation, IH.
Qed.

Lemma insert_by_sorted {A : Type} (key : A → Z) (x : A) (l : list A) :
  key_sorted key l → key_sorted key (insert_by key x l).
Proof.
  unfold key_sorted. induction 1 as [|y l Hs IH Hhd]; simpl.
  - repeat constructor.
  - destruct (Z.leb_spec (key x) (key y)).
    + constructor; [by constructor|]. by constructor.
    + constructor; [done|].
      destruct Hhd as [|z l' Hz]; simpl in *.
      * constructor; lia.
      * destruct (key x <=? key z); constructor; lia.
Qed.

Lemma sort_by_sorted {A : Type} (key : A → Z) (l : list A) :
  key_sorted key (sort_by key l).
Proof.
  induction l as [|x l IH]; simpl; [constructor|].
  by apply insert_by_sorted.
Qed.

(** ** The basic partition *)

Lemma basic_flagged_alt (a : account) :
  status_deleted a || truthy (is_suspicious a) = basic_flagged a.
Proof. unfold basic_flagged. apply orb_comm. Qed.

Lemma basic_legit_cond (a : account) :
  negb (truthy (is_suspicious a)) && negb (status_deleted a) = negb (basic_flagged a).
Proof. unfold basic_flagged. by rewrite negb_orb. Qed.

Lemma elem_of_basic_legit (accounts : list account) (a : account) :
  a ∈ AdvancedAnalyzer.basic_legit accounts ↔ a ∈ accounts ∧ basic_flagged a = false.
Proof.
  unfold AdvancedAnalyzer.basic_legit. rewrite list_elem_of_filter.
  rewrite basic_legit_cond, negb_true_iff. tauto.
Qed.

Lemma elem_of_basic_fake_list (accounts : list account) (a : account) :
  a ∈ AdvancedAnalyzer.basic_fake accounts ↔ a ∈ accounts ∧ basic_flagged a = true.
Proof.
  unfold AdvancedAnalyzer.basic_fake. rewrite list_elem_of_filter.
  unfold basic_flagged. tauto.
Qed.

Lemma fold_left_add_if (P : account → bool) (accounts : list account) (s : gset string) :
  fold_left (λ s acc, if P acc then add (username acc) s else s) accounts s
  = s ∪ list_to_set (username <$> filter (λ a, P a = true) accounts).
Proof.
  revert s; induction accounts as [|a l IH]; intros s; simpl.
  - set_solver.
  - rewrite IH. rewrite filter_cons. unfold add.
    destruct (P a) eqn:E.
    + rewrite decide_True by done. set_solver.
    + rewrite decide_False by congruence. done.
Qed.

Lemma basic_fake_spec (accounts : list account) :
  CorrelationAnalyzer.basic_fake accounts
  = list_to_set (username <$> filter (λ a, basic_flagged a = true) accounts).
Proof.
  unfold CorrelationAnalyzer.basic_fake. rewrite fold_left_add_if. set_solver.
Qed.

(** ** The dormant detector *)

Lemma dormant_body_spec (s : gset string) (a : account) :
  CorrelationAnalyzer.dormant_body s a
  = if dormant_ready a
    then OK (if dormant_flag a then add (username a) s else s)
    else Raise (KeyError "account_created").
Proof.
  unfold CorrelationAnalyzer.dormant_body.
  rewrite basic_flagged_alt.
  unfold dormant_ready, dormant_flag, dormant_cond, get_account_created.
  destruct (basic_flagged a); simpl; [done|].
  destruct (account_created a) as [c|]; simpl; [|done].
  by destruct ((365 <? _) && _).
Qed.

Lemma dormant_loop_spec (accounts : list account) (s : gset string) :
  for_each CorrelationAnalyzer.dormant_body accounts s
  = if forallb dormant_ready accounts
    then OK (s ∪ usernames_where dormant_flag accounts)
    else Raise (KeyError "account_created").
Proof.
  unfold usernames_where.
  revert s; induction accounts as [|a l IH]; intros s.
  - simpl. f_equal. set_solver.
  - cbn [for_each forallb]. rewrite dormant_body_spec, filter_cons.
    destruct (dormant_ready a); simpl; [|done].
    rewrite IH. destruct (forallb _ _); [|done]. f_equal.
    destruct (dormant_flag a).
    + rewrite decide_True by done. unfold add. set_solver.
    + rewrite decide_False by done. done.
Qed.

Lemma detect_dormant_accounts_spec (accounts : list account) :
  CorrelationAnalyzer.detect_dormant_accounts accounts
  = if forallb dormant_ready accounts
    then OK (usernames_where dormant_flag accounts)
    else Raise (KeyError "account_created").
Proof.
  unfold CorrelationAnalyzer.detect_dormant_accounts. rewrite dormant_loop_spec.
  destruct (forallb _ _); [|done]. f_equal. set_solver.
Qed.

Lemma elem_of_usernames_where (P : account → bool) (accounts : list account) (u : string) :
  u ∈ usernames_where P accounts ↔ ∃ a, a ∈ accounts ∧ username a = u ∧ P a = true.
Proof.
  unfold usernames_where. rewrite elem_of_list_to_set, list_elem_of_fmap.
  split.
  - intros (a & -> & Ha). apply list_elem_of_filter in Ha. naive_solver.
  - intros (a & Ha & <- & HP). exists a. split; [done|].
    apply list_elem_of_filter. done.
Qed.

Lemma dormant_ready_all (accounts : list account) :
  forallb dormant_ready accounts = true ↔
  ∀ a, a ∈ accounts → basic_flagged a = false → is_Some (account_created a).
Proof.
  rewrite forallb_forall. unfold dormant_ready. split.
  - intros Hall a Ha Hb. apply list_elem_of_In, Hall in Ha.
    rewrite Hb in Ha. simpl in Ha. by apply bool_decide_eq_true in Ha.
  - intros Hall a Ha. apply list_elem_of_In in Ha.
    destruct (basic_flagged a) eqn:Hb; [done|]. simpl.
    apply bool_decide_eq_true. auto.
Qed.

(** Days are whole multiples of this many microseconds. *)
Lemma days_lt_0 (td : timedelta) : td < 0 → days td < 0.
Proof. unfold days. intros. apply Z.div_lt_upper_bound; lia. Qed.

Lemma dormant_flag_not_basic (a : account) :
  dormant_flag a = true → basic_flagged a = false.
Proof. unfold dormant_flag. destruct (basic_flagged a); naive_solver. Qed.

Lemma dormant_flag_created (a : account) :
  dormant_flag a = true →
  ∃ c, account_created a = Some c ∧ 365 < days (dt_sub (starred_at a) c)
       ∧ get0 (public_repos a) < 3.
Proof.
  unfold dormant_flag, dormant_cond. intros [_ H]%andb_true_iff.
  destruct (account_created a) as [c|]; [|done].
  apply andb_true_iff in H as [H1 H2]. exists c. split; [done|]. lia.
Qed.

Lemma forallb_dormant_ready_legit (accounts : list account) :
  forallb dormant_ready (AdvancedAnalyzer.basic_legit accounts)
  = forallb dormant_ready accounts.
Proof.
  unfold AdvancedAnalyzer.basic_legit.
  induction accounts as [|a l IH]; [done|].
  rewrite filter_cons. cbn [forallb]. rewrite <-IH.
  destruct (decide _) as [Hc|Hc]; [done|].
  rewrite basic_legit_cond in Hc. unfold dormant_ready at 2.
  destruct (basic_flagged a); [done|]. by destruct Hc.
Qed.

Lemma filter_dormant_flag_legit (accounts : list account) :
  filter (λ a, dormant_flag a = true) (AdvancedAnalyzer.basic_legit accounts)
  = filter (λ a, dormant_flag a = true) accounts.
Proof.
  unfold AdvancedAnalyzer.basic_legit.
  induction accounts as [|a l IH]; [done|].
  rewrite (filter_cons _ a l), (filter_cons (λ a, dormant_flag a = true) a l).
  rewrite <-IH.
  destruct (decide (negb _ && _ = true)) as [Hc|Hc].
  - by rewrite filter_cons.
  - rewrite basic_legit_cond in Hc.
    rewrite decide_False; [done|]. intros Hf%dormant_flag_not_basic.
    rewrite Hf in Hc. by destruct Hc.
Qed.

Lemma advanced_dormant_body_spec (out : list AdvancedAnalyzer.dormant_detail) (a : account) :
  basic_flagged a = false →
  AdvancedAnalyzer.dormant_body out a
  = if dormant_ready a
    then OK (if dormant_flag a then out ++ [dormant_detail_of a] else out)%list
    else Raise (KeyError "account_created").
Proof.
  intros Hb.
  assert (Hd : status_deleted a = false).
  { unfold basic_flagged in Hb. by apply orb_false_iff in Hb as [_ ?]. }
  unfold AdvancedAnalyzer.dormant_body. rewrite Hd.
  unfold dormant_ready, dormant_flag, dormant_cond, dormant_detail_of.
  unfold get_account_created. rewrite Hb.
  destruct (account_created a) as [c|]; simpl; [|done].
  by destruct ((365 <? _) && _).
Qed.

Lemma advanced_dormant_loop (l : list account) (out : list AdvancedAnalyzer.dormant_detail) :
  (∀ a, a ∈ l → basic_flagged a = false) →
  for_each AdvancedAnalyzer.dormant_body l out
  = if forallb dormant_ready l
    then OK (out ++ (dormant_detail_of <$> filter (λ a, dormant_flag a = true) l))%list
    else Raise (KeyError "account_created").
Proof.
  revert out; induction l as [|a l IH]; intros out Hl.
  - simpl. by rewrite app_nil_r.
  - cbn [for_each forallb].
    rewrite advanced_dormant_body_spec by (apply Hl; left).
    rewrite filter_cons.
    destruct (dormant_ready a); simpl; [|done].
    rewrite IH by (intros; apply Hl; by right).
    destruct (forallb _ _); [|done]. f_equal.
    destruct (dormant_flag a).
    + rewrite decide_True by done. by rewrite <-app_assoc.
    + by rewrite decide_False by done.
Qed.

Lemma analyze_dormant_accounts_spec (accounts : list account) :
  AdvancedAnalyzer.analyze_dormant_accounts accounts
  = if forallb dormant_ready accounts
    then
      let sorted :=
        sort_by (λ x, - AdvancedAnalyzer.dd_account_age_days x)
          (dormant_detail_of <$> filter (λ a, dormant_flag a = true) accounts) in
      OK (AdvancedAnalyzer.mk_dormant_result (len sorted)
            (AdvancedAnalyzer.dd_username <$> sorted) sorted)
    else Raise (KeyError "account_created").
Proof.
  unfold AdvancedAnalyzer.analyze_dormant_accounts.
  rewrite advanced_dormant_loop by (intros a Ha; by apply elem_of_basic_legit in Ha as [_ ?]).
  rewrite forallb_dormant_ready_legit, filter_dormant_flag_legit.
  by destruct (forallb _ _).
Qed.

(** The two dormant detectors fail together and flag the same usernames. *)
Lemma analyze_dormant_accounts_agrees (accounts : list account) :
  match AdvancedAnalyzer.analyze_dormant_accounts accounts,
        CorrelationAnalyzer.detect_dormant_accounts accounts with
  | OK r, OK flagged =>
      list_to_set (AdvancedAnalyzer.dormant_suspicious_accounts r) = flagged
      ∧ flagged = usernames_where dormant_flag accounts
  | Raise e, Raise e' => e = KeyError "account_created" ∧ e' = e
  | _, _ => False
  end.
Proof.
  rewrite analyze_dormant_accounts_spec, detect_dormant_accounts_spec.
  destruct (forallb _ _); [|done]. simpl. split; [|done].
  unfold usernames_where. apply set_eq. intros u.
  rewrite !elem_of_list_to_set, sort_by_Permutation, <-list_fmap_compose.
  done.
Qed.

(** C1, as stated, fails: a record that is not basic-flagged and has no
    [account_created] is not skipped.  Both dormant detectors read the key
    with [account['account_created']] and the run stops with [KeyError]. *)
Lemma dormant_absent_created_raises :
  basic_flagged ghost = false ∧ account_created ghost = None
  ∧ CorrelationAnalyzer.detect_dormant_accounts [ghost]
    = Raise (KeyError "account_created")
  ∧ AdvancedAnalyzer.analyze_dormant_accounts [ghost]
    = Raise (KeyError "account_created")
  ∧ CorrelationAnalyzer.apply_full_detection [ghost]
    = Raise (KeyError "account_created").
Proof. repeat split; vm_compute; reflexivity. Qed.

(** C1, amended.  The dormant detector looks only at records that are not
    basic-flagged.  A record whose [account_created] is later than
    [starred_at], and any basic-flagged record (with or without
    [account_created]), leaves the loop state unchanged and raises nothing.
    A record that is not basic-flagged and has no [account_created] is not
    skipped: the detector raises [KeyError].  When every record that is
    not basic-flagged has [account_created], the detector returns, and
    every username it returns comes from a record that is not
    basic-flagged and whose [account_created] is present and not later
    than [starred_at].  [analyze_dormant_accounts] fails and succeeds on
    the same snapshots. *)
Theorem dormant_skip_and_failure (accounts : list account) :
  (∀ flagged u,
     CorrelationAnalyzer.detect_dormant_accounts accounts = OK flagged →
     u ∈ flagged →
     ∃ a c, a ∈ accounts ∧ username a = u ∧ basic_flagged a = false
            ∧ account_created a = Some c
            ∧ to_us c ≤ to_us (starred_at a))
  ∧ (∀ a c s, account_created a = Some c →
       to_us (starred_at a) < to_us c →
       CorrelationAnalyzer.dormant_body s a = OK s)
  ∧ (∀ a s, basic_flagged a = true →
       CorrelationAnalyzer.dormant_body s a = OK s)
  ∧ (∀ a, a ∈ accounts → basic_flagged a = false →
       account_created a = None →
       CorrelationAnalyzer.detect_dormant_accounts accounts
       = Raise (KeyError "account_created"))
  ∧ ((∀ a, a ∈ accounts → basic_flagged a = false →
        is_Some (account_created a)) →
     ∃ flagged, CorrelationAnalyzer.detect_dormant_accounts accounts = OK flagged)
  ∧ (∀ e, AdvancedAnalyzer.analyze_dormant_accounts accounts = Raise e
          ↔ CorrelationAnalyzer.detect_dormant_accounts accounts = Raise e).
Proof.
  repeat apply conj.
  - intros flagged u Hd Hu. rewrite detect_dormant_accounts_spec in Hd.
    destruct (forallb _ _); [|done]. injection Hd as <-.
    apply elem_of_usernames_where in Hu as (a & Ha & Hn & Hf).
    pose proof (dormant_flag_not_basic _ Hf) as Hb.
    apply dormant_flag_created in Hf as (c & Hc & Hage & _).
    exists a, c. repeat split; try done.
    destruct (Z.le_gt_cases (to_us c) (to_us (starred_at a))) as [|Hlt]; [done|].
    assert (days (dt_sub (starred_at a) c) < 0); [|lia].
    apply days_lt_0. unfold dt_sub. lia.
  - intros a c s Hc Hlate. rewrite dormant_body_spec.
    unfold dormant_ready, dormant_flag, dormant_cond. rewrite Hc.
    rewrite (bool_decide_eq_true_2 (is_Some (Some c))) by eauto.
    rewrite orb_true_r.
    assert (days (dt_sub (starred_at a) c) < 0) as Hneg.
    { apply days_lt_0. unfold dt_sub. lia. }
    destruct (Z.ltb_spec 365 (days (dt_sub (starred_at a) c))); [lia|].
    simpl. by rewrite andb_false_r.
  - intros a s Hb. rewrite dormant_body_spec.
    unfold dormant_ready, dormant_flag. by rewrite Hb.
  - intros a Ha Hb Hc. rewrite detect_dormant_accounts_spec.
    destruct (forallb dormant_ready accounts) eqn:Hall; [|done].
    rewrite dormant_ready_all in Hall. destruct (Hall a Ha Hb) as [c Hc'].
    congruence.
  - intros Hall. rewrite detect_dormant_accounts_spec.
    apply dormant_ready_all in Hall. rewrite Hall. eauto.
  - intros e. pose proof (analyze_dormant_accounts_agrees accounts) as Hag.
    destruct (AdvancedAnalyzer.analyze_dormant_accounts accounts),
             (CorrelationAnalyzer.detect_dormant_accounts accounts);
      try done. naive_solver.
Qed.

Lemma dormant_skip_and_failure_witness :
  CorrelationAnalyzer.detect_dormant_accounts [sleeper2; ghost]
  = Raise (KeyError "account_created")
  ∧ ∃ flagged,
      CorrelationAnalyzer.detect_dormant_accounts [sleeper2; sleeper3] = OK flagged.
Proof.
  split.
  - apply (proj1 (proj2 (proj2 (proj2 (dormant_skip_and_failure [sleeper2; ghost])))) ghost).
    + apply list_elem_of_In. simpl. auto.
    + reflexivity.
    + reflexivity.
  - apply (proj1 (proj2 (proj2 (proj2 (proj2 (dormant_skip_and_failure [sleeper2; sleeper3])))))).
    intros a Ha%list_elem_of_In _. simpl in Ha.
    destruct Ha as [<-|[<-|[]]]; simpl; eauto.
Defined.

(** C5.  In a snapshot on which the dormant detector returns, take a record
    that is not basic-flagged, has [account_created], and is the only
    record with its username.  Its username is in the returned set iff the
    floor of its age in days, [starred_at - account_created], is > 365 and
    its [public_repos] is < 3.  With an age of exactly 400 days it is
    flagged when [public_repos = 2] and not flagged when [public_repos = 3]. *)
Theorem dormant_flag_iff (accounts : list account) (flagged : gset string)
    (a : account) (c : datetime) :
  CorrelationAnalyzer.detect_dormant_accounts accounts = OK flagged →
  a ∈ accounts →
  basic_flagged a = false →
  account_created a = Some c →
  (∀ b, b ∈ accounts → username b = username a → b = a) →
  let age_days := days (dt_sub (starred_at a) c) in
  (86400000000 * age_days ≤ to_us (starred_at a) - to_us c
     < 86400000000 * (age_days + 1))
  ∧ (username a ∈ flagged ↔ 365 < age_days ∧ get0 (public_repos a) < 3)
  ∧ (dt_sub (starred_at a) c = days400 → public_repos a = Some 2 →
     username a ∈ flagged)
  ∧ (dt_sub (starred_at a) c = days400 → public_repos a = Some 3 →
     username a ∉ flagged).
Proof.
  intros Hd Ha Hb Hc Huniq age_days.
  rewrite detect_dormant_accounts_spec in Hd.
  destruct (forallb _ _); [|done]. injection Hd as <-.
  assert (Hiff : username a ∈ usernames_where dormant_flag accounts
                 ↔ 365 < age_days ∧ get0 (public_repos a) < 3).
  { rewrite elem_of_usernames_where. split.
    - intros (b & Hbin & Hn & Hf). apply Huniq in Hn as ->; [|done].
      apply dormant_flag_created in Hf as (c' & Hc' & ? & ?).
      rewrite Hc in Hc'. injection Hc' as <-. done.
    - intros [H1 H2]. exists a. repeat split; try done.
      unfold dormant_flag, dormant_cond. rewrite Hb, Hc. simpl.
      apply andb_true_iff. split; [apply Z.ltb_lt|apply Z.ltb_lt]; done. }
  split; [split|split; [exact Hiff|split]].
  - subst age_days. unfold days, dt_sub.
    pose proof (Z.mul_div_le (to_us (starred_at a) - to_us c) 86400000000).
    change (86400 * 1000000) with 86400000000. lia.
  - subst age_days. unfold days, dt_sub.
    pose proof (Z.mul_succ_div_gt (to_us (starred_at a) - to_us c) 86400000000).
    change (86400 * 1000000) with 86400000000. lia.
  - intros Hage Hr. apply Hiff. subst age_days. rewrite Hage, Hr. done.
  - intros Hage Hr. rewrite Hiff. subst age_days. rewrite Hage, Hr.
    simpl. lia.
Qed.

Lemma dormant_flag_iff_witness :
  CorrelationAnalyzer.detect_dormant_accounts [sleeper2; sleeper3]
  = OK {["sleeper2"]}
  ∧ ("sleeper2" ∈ ({["sleeper2"]} : gset string) ↔ 365 < 400 ∧ 2 < 3)
  ∧ "sleeper3" ∉ ({["sleeper2"]} : gset string).
Proof.
  assert (Hrun : CorrelationAnalyzer.detect_dormant_accounts [sleeper2; sleeper3]
                 = OK {["sleeper2"]}) by (vm_compute; reflexivity).
  assert (Hin2 : sleeper2 ∈ [sleeper2; sleeper3]) by (apply list_elem_of_In; simpl; auto).
  assert (Hin3 : sleeper3 ∈ [sleeper2; sleeper3]) by (apply list_elem_of_In; simpl; auto).
  assert (Huniq : ∀ x, x ∈ [sleeper2; sleeper3] → ∀ b : account,
            b ∈ [sleeper2; sleeper3] → username b = username x → b = x).
  { intros x Hx%list_elem_of_In b Hb%list_elem_of_In. simpl in Hx, Hb.
    destruct Hx as [<-|[<-|[]]], Hb as [<-|[<-|[]]]; simpl; congruence. }
  split; [exact Hrun|]. split.
  - exact (proj1 (proj2 (dormant_flag_iff [sleeper2; sleeper3] {["sleeper2"]}
              sleeper2 (utc 2023 1 26 12 0 0) Hrun Hin2 eq_refl eq_refl
              (Huniq sleeper2 Hin2)))).
  - refine (proj2 (proj2 (proj2 (dormant_flag_iff [sleeper2; sleeper3] {["sleeper2"]}
              sleeper3 (utc 2023 1 26 12 0 0) Hrun Hin3 eq_refl eq_refl
              (Huniq sleeper3 Hin3)))) _ eq_refl).
    vm_compute. reflexivity.
Defined.

(** ** The temporal detector *)

Lemma index_last {A : Type} (l : list A) (x : A) :
  last l = Some x → index l (-1) = OK x.
Proof.
  intros Hl. unfold index. rewrite last_lookup in Hl.
  assert (length l ≠ 0%nat) by (destruct l; [done|simpl; lia]).
  change (-1 <? 0) with true. cbv iota.
  replace (Z.to_nat (-1 + Z.of_nat (length l))) with (pred (length l)) by lia.
  rewrite Hl.
  destruct (Z.leb_spec 0 (-1 + Z.of_nat (length l))); [|lia].
  destruct (Z.ltb_spec (-1 + Z.of_nat (length l)) (Z.of_nat (length l))); [done|lia].
Qed.

(** The floating-point test [diff_minutes <= threshold_minutes], read on
    exact rationals, is a comparison of whole microseconds. *)
Lemma diff_minutes_le (threshold : Z) (ts last_ts : datetime) :
  Qle_bool (diff_minutes ts last_ts) (inject_Z threshold)
  = gap_within threshold last_ts ts.
Proof.
  unfold gap_within, diff_minutes, total_seconds, dt_sub.
  apply eq_true_iff_eq. rewrite Qle_bool_iff, Z.leb_le.
  unfold Qle, Qdiv, Qmult, Qinv, inject_Z. simpl. lia.
Qed.

Lemma add_all_spec (cluster : list stamp) (s : gset string) :
  add_all cluster s = s ∪ list_to_set (fst <$> cluster).
Proof.
  unfold add_all. revert s; induction cluster as [|x c IH]; intros s; simpl.
  - set_solver.
  - rewrite IH. unfold add. set_solver.
Qed.

Lemma fold_close_spec (closed : list (list stamp)) (s : gset string) :
  fold_left close_cluster closed s
  = s ∪ cluster_users (filter (λ c, qualifies c = true) closed).
Proof.
  unfold cluster_users.
  revert s; induction closed as [|c cl IH]; intros s; simpl.
  - set_solver.
  - rewrite IH, filter_cons. unfold close_cluster.
    destruct (qualifies c) eqn:Hq.
    + rewrite decide_True by done. rewrite add_all_spec. simpl.
      rewrite fmap_app. set_solver.
    + rewrite decide_False by done. done.
Qed.

Section ClusterLoops.
Variable threshold : Z.

Lemma cluster_body_spec (cur : list stamp) (s : gset string) (x lst : stamp) :
  last cur = Some lst →
  CorrelationAnalyzer.cluster_body threshold (cur, s) x
  = if gap_within threshold (snd lst) (snd x)
    then OK ((cur ++ [x])%list, s)
    else OK ([x], close_cluster s cur).
Proof.
  intros Hl. unfold CorrelationAnalyzer.cluster_body. destruct x as [u ts].
  rewrite (index_last _ _ Hl). simpl. rewrite diff_minutes_le.
  by destruct (gap_within _ _ _).
Qed.

Lemma advanced_cluster_body_spec (cur : list stamp) (cl : list (list stamp))
    (x lst : stamp) :
  last cur = Some lst →
  AdvancedAnalyzer.cluster_body threshold (cur, cl) x
  = if gap_within threshold (snd lst) (snd x)
    then OK ((cur ++ [x])%list, cl)
    else OK ([x], if qualifies cur then (cl ++ [cur])%list else cl).
Proof.
  intros Hl. unfold AdvancedAnalyzer.cluster_body. destruct x as [u ts].
  rewrite (index_last _ _ Hl). simpl. rewrite diff_minutes_le.
  by destruct (gap_within _ _ _).
Qed.

(** The loop of [detect_temporal_clustering] never raises; it ends with
    the open cluster of the scan and has flagged the closed ones. *)
Lemma cluster_loop_spec (rest cur : list stamp) (s : gset string) (lst : stamp) :
  last cur = Some lst →
  for_each (CorrelationAnalyzer.cluster_body threshold) rest (cur, s)
  = let '(closed, final) := spec_scan threshold cur (snd lst) rest in
    OK (final, fold_left close_cluster closed s).
Proof.
  revert cur s lst; induction rest as [|x rest IH]; intros cur s lst Hl.
  - done.
  - cbn [for_each spec_scan]. rewrite (cluster_body_spec _ _ _ _ Hl).
    destruct (gap_within _ _ _); simpl.
    + apply IH. by rewrite last_snoc.
    + rewrite (IH [x] _ x) by done.
      by destruct (spec_scan threshold [x] x.2 rest).
Qed.

Lemma advanced_cluster_loop_spec (rest cur : list stamp)
    (cl : list (list stamp)) (lst : stamp) :
  last cur = Some lst →
  for_each (AdvancedAnalyzer.cluster_body threshold) rest (cur, cl)
  = let '(closed, final) := spec_scan threshold cur (snd lst) rest in
    OK (final, (cl ++ filter (λ c, qualifies c = true) closed)%list).
Proof.
  revert cur cl lst; induction rest as [|x rest IH]; intros cur cl lst Hl.
  - simpl. by rewrite app_nil_r.
  - cbn [for_each spec_scan]. rewrite (advanced_cluster_body_spec _ _ _ _ Hl).
    destruct (gap_within _ _ _); simpl.
    + apply IH. by rewrite last_snoc.
    + rewrite (IH [x] _ x) by done.
      destruct (spec_scan threshold [x] x.2 rest) as [closed final].
      rewrite filter_cons. f_equal. f_equal.
      destruct (qualifies cur).
      * rewrite decide_True by done. by rewrite <-app_assoc.
      * by rewrite decide_False by done.
Qed.

Lemma find_clusters_spec (timestamps : list stamp) :
  AdvancedAnalyzer.find_clusters threshold timestamps
  = OK (spec_qualifying threshold timestamps).
Proof.
  unfold AdvancedAnalyzer.find_clusters, spec_qualifying, spec_clusters.
  destruct timestamps as [|x rest]; [done|].
  rewrite (advanced_cluster_loop_spec rest [x] [] x) by done.
  destruct (spec_scan threshold [x] x.2 rest) as [closed final]. simpl.
  rewrite filter_app, filter_cons, filter_nil.
  fold (qualifies final). destruct (qualifies final).
  - by rewrite decide_True by done.
  - rewrite decide_False by done. by rewrite app_nil_r.
Qed.

Lemma detect_temporal_clustering_with_spec (accounts : list account) :
  CorrelationAnalyzer.detect_temporal_clustering_with threshold accounts
  = OK (cluster_users
          (spec_qualifying threshold (CorrelationAnalyzer.timestamps_of accounts))).
Proof.
  unfold CorrelationAnalyzer.detect_temporal_clustering_with.
  unfold spec_qualifying, spec_clusters.
  destruct (CorrelationAnalyzer.timestamps_of accounts) as [|x rest]; [done|].
  rewrite (cluster_loop_spec rest [x] ∅ x) by done.
  destruct (spec_scan threshold [x] x.2 rest) as [closed final]. simpl.
  rewrite fold_close_spec, filter_app, filter_cons, filter_nil.
  fold (qualifies final). destruct (qualifies final).
  - rewrite decide_True by done. rewrite add_all_spec. f_equal.
    unfold cluster_users. rewrite !concat_app, !fmap_app. simpl.
    rewrite app_nil_r. set_solver.
  - rewrite decide_False by done. rewrite app_nil_r. f_equal. set_solver.
Qed.

Lemma analyze_temporal_clustering_with_spec (accounts : list account) :
  let found := spec_qualifying threshold (CorrelationAnalyzer.timestamps_of accounts) in
  AdvancedAnalyzer.analyze_temporal_clustering_with threshold accounts
  = OK (AdvancedAnalyzer.mk_temporal_result found
          (Z.of_nat (size (cluster_users found)))
          (elements (cluster_users found))).
Proof.
  intros found. unfold AdvancedAnalyzer.analyze_temporal_clustering_with.
  change (sort_by _ _) with (CorrelationAnalyzer.timestamps_of accounts).
  rewrite find_clusters_spec. simpl. fold found.
  assert (Hs : ∀ (cl : list (list stamp)) (s : gset string),
            fold_left (λ s c, add_all c s) cl s = s ∪ cluster_users cl).
  { unfold cluster_users. induction cl as [|c cl IH]; intros s; simpl.
    - set_solver.
    - rewrite IH, add_all_spec, fmap_app. set_solver. }
  rewrite Hs. by rewrite (left_id_L ∅ (∪)).
Qed.

End ClusterLoops.

(** The clusters are consecutive pieces of the event list. *)
Lemma spec_scan_concat (threshold : Z) (events cur : list stamp) (last_ts : datetime) :
  let '(closed, final) := spec_scan threshold cur last_ts events in
  (concat closed ++ final = cur ++ events)%list.
Proof.
  revert cur last_ts; induction events as [|e events IH]; intros cur last_ts; simpl.
  - by rewrite app_nil_r.
  - destruct (gap_within _ _ _).
    + specialize (IH (cur ++ [e])%list e.2).
      destruct (spec_scan _ _ _ _). by rewrite <-app_assoc in IH.
    + specialize (IH [e] e.2).
      destruct (spec_scan _ _ _ _). simpl. by rewrite <-app_assoc, IH.
Qed.

Lemma spec_clusters_concat (threshold : Z) (events : list stamp) :
  concat (spec_clusters threshold events) = events.
Proof.
  unfold spec_clusters. destruct events as [|x rest]; [done|].
  pose proof (spec_scan_concat threshold rest [x] x.2) as H.
  destruct (spec_scan _ _ _ _). rewrite concat_app. simpl.
  by rewrite app_nil_r.
Qed.

(** A chain of small gaps is never cut, whatever its total length. *)
Lemma spec_scan_chained (threshold : Z) (events cur : list stamp) (last_ts : datetime) :
  chained threshold last_ts events →
  spec_scan threshold cur last_ts events = ([], (cur ++ events)%list).
Proof.
  revert cur last_ts; induction events as [|e events IH]; intros cur last_ts; simpl.
  - by rewrite app_nil_r.
  - intros [-> Hc]. rewrite IH by done. by rewrite <-app_assoc.
Qed.

Lemma find_clusters_chained (threshold : Z) (first : stamp) (rest : list stamp) :
  chained threshold (snd first) rest →
  10 ≤ len (first :: rest) →
  AdvancedAnalyzer.find_clusters threshold (first :: rest) = OK [first :: rest].
Proof.
  intros Hc Hlen. rewrite find_clusters_spec.
  unfold spec_qualifying, spec_clusters. rewrite spec_scan_chained by done.
  simpl. rewrite filter_cons, filter_nil.
  rewrite decide_True; [done|]. unfold qualifies. by apply Z.leb_le.
Qed.

Lemma timestamps_of_Permutation (accounts : list account) :
  CorrelationAnalyzer.timestamps_of accounts ≡ₚ legit_stamps accounts.
Proof.
  unfold CorrelationAnalyzer.timestamps_of, legit_stamps.
  rewrite sort_by_Permutation.
  erewrite list_filter_iff; [done|].
  intros a. simpl. rewrite basic_legit_cond. by destruct (basic_flagged a).
Qed.

Lemma timestamps_of_sorted (accounts : list account) :
  key_sorted (λ x : stamp, to_us (snd x)) (CorrelationAnalyzer.timestamps_of accounts).
Proof. apply sort_by_sorted. Qed.

(** C4.  The temporal detector works on the events that are not
    basic-flagged, sorted ascending by [starred_at].  One step of its loop
    appends the next event to the current cluster iff the gap since the
    last event added to that cluster is at most 60 minutes; otherwise it
    closes the cluster, flagging every member iff its size is at least 10,
    and starts a new cluster with that event.  The final cluster is closed
    the same way after the loop, so the detector returns exactly the
    members of the qualifying clusters of the specification's scan, and
    [analyze_temporal_clustering] returns those clusters.  On eleven events
    at minutes 0, 5, ..., 50 followed by one at minute 200, exactly the
    first eleven usernames are flagged and the twelfth is not. *)
Theorem temporal_cluster_detector (accounts : list account) :
  let events := CorrelationAnalyzer.timestamps_of accounts in
  events ≡ₚ legit_stamps accounts
  ∧ key_sorted (λ x : stamp, to_us (snd x)) events
  ∧ (∀ (pre : list stamp) (lst x : stamp) (s : gset string),
       let current := (pre ++ [lst])%list in
       CorrelationAnalyzer.cluster_body 60 (current, s) x
       = if to_us (snd x) - to_us (snd lst) <=? 60 * 60 * 1000000
         then OK ((current ++ [x])%list, s)
         else OK ([x], if 10 <=? len current
                       then s ∪ list_to_set (fst <$> current) else s))
  ∧ CorrelationAnalyzer.detect_temporal_clustering accounts
    = OK (cluster_users (spec_qualifying 60 events))
  ∧ AdvancedAnalyzer.analyze_temporal_clustering accounts
    = OK (AdvancedAnalyzer.mk_temporal_result (spec_qualifying 60 events)
            (Z.of_nat (size (cluster_users (spec_qualifying 60 events))))
            (elements (cluster_users (spec_qualifying 60 events))))
  ∧ username <$> eleven_then_one
    = ["ua"; "ub"; "uc"; "ud"; "ue"; "uf"; "ug"; "uh"; "ui"; "uj"; "uk"; "late"]
  ∧ CorrelationAnalyzer.detect_temporal_clustering eleven_then_one
    = OK (list_to_set
            ["ua"; "ub"; "uc"; "ud"; "ue"; "uf"; "ug"; "uh"; "ui"; "uj"; "uk"])
  ∧ "late" ∉ (list_to_set
            ["ua"; "ub"; "uc"; "ud"; "ue"; "uf"; "ug"; "uh"; "ui"; "uj"; "uk"]
              : gset string).
Proof.
  intros events. split; [apply timestamps_of_Permutation|].
  split; [apply timestamps_of_sorted|].
  split.
  { intros pre lst x s current.
    rewrite (cluster_body_spec 60 current s x lst) by apply last_snoc.
    unfold gap_within, close_cluster, qualifies.
    destruct (_ <=? _); [done|]. destruct (10 <=? len current); [|done].
    by rewrite add_all_spec. }
  split; [apply detect_temporal_clustering_with_spec|].
  split; [apply (analyze_temporal_clustering_with_spec 60)|].
  split; [reflexivity|].
  split; [vm_compute; reflexivity|].
  rewrite elem_of_list_to_set. intros Hin%list_elem_of_In. simpl in Hin.
  repeat (destruct Hin as [Hin|Hin]; [discriminate Hin|]). done.
Qed.

(** C10.  There is a snapshot in which two usernames flagged as members of
    the same temporal cluster starred more than 60 minutes apart: eleven
    stars, each 60 minutes after the one before, form one cluster whose
    first and last members are 600 minutes apart.  Membership only chains
    through the gaps between neighbours: any time-ordered run of at least
    10 events whose neighbouring gaps are within the threshold is returned
    as one cluster, whatever its total span. *)
Theorem cluster_span_exceeds_threshold :
  (∃ (accounts : list account) (r : AdvancedAnalyzer.temporal_result)
     (flagged : gset string) (cluster : list stamp) (x y : stamp),
      AdvancedAnalyzer.analyze_temporal_clustering accounts = OK r
      ∧ CorrelationAnalyzer.detect_temporal_clustering accounts = OK flagged
      ∧ cluster ∈ AdvancedAnalyzer.clusters r
      ∧ x ∈ cluster ∧ y ∈ cluster
      ∧ fst x ∈ flagged ∧ fst y ∈ flagged ∧ fst x ≠ fst y
      ∧ (60 < diff_minutes (snd y) (snd x))%Q
      ∧ to_us (snd y) - to_us (snd x) = 600 * 60 * 1000000)
  ∧ (∀ (threshold : Z) (first : stamp) (rest : list stamp),
       chained threshold (snd first) rest →
       10 ≤ len (first :: rest) →
       AdvancedAnalyzer.find_clusters threshold (first :: rest)
       = OK [first :: rest]).
Proof.
  split; [|apply find_clusters_chained].
  exists hourly_chain.
  pose (events := CorrelationAnalyzer.timestamps_of hourly_chain).
  exists (AdvancedAnalyzer.mk_temporal_result (spec_qualifying 60 events)
            (Z.of_nat (size (cluster_users (spec_qualifying 60 events))))
            (elements (cluster_users (spec_qualifying 60 events)))).
  exists (cluster_users (spec_qualifying 60 events)).
  exists events, ("ha", utc 2024 1 1 0 0 0), ("hk", utc 2024 1 1 10 0 0).
  split; [apply (analyze_temporal_clustering_with_spec 60)|].
  split; [apply detect_temporal_clustering_with_spec|].
  assert (Hq : spec_qualifying 60 events = [events]) by (vm_compute; reflexivity).
  assert (He : events =
    (λ k, ("h" ++ letter k, utc 2024 1 1 (Z.of_nat k) 0 0)) <$> seq 0 11)
    by (vm_compute; reflexivity).
  simpl AdvancedAnalyzer.clusters. rewrite Hq.
  split; [apply list_elem_of_here|].
  clearbody events. subst events.
  unfold cluster_users. rewrite !elem_of_list_to_set.
  repeat split.
  - apply list_elem_of_In. simpl. auto.
  - apply list_elem_of_In. simpl. auto 20.
  - apply list_elem_of_In. simpl. auto.
  - apply list_elem_of_In. simpl. auto 20.
  - discriminate.
Qed.

Lemma cluster_span_exceeds_threshold_witness :
  AdvancedAnalyzer.find_clusters 60 (CorrelationAnalyzer.timestamps_of hourly_chain)
  = OK [CorrelationAnalyzer.timestamps_of hourly_chain].
Proof.
  change (CorrelationAnalyzer.timestamps_of hourly_chain)
    with ((λ k, ("h" ++ letter k, utc 2024 1 1 (Z.of_nat k) 0 0)) <$> seq 0 11).
  apply (proj2 cluster_span_exceeds_threshold 60).
  - simpl. repeat split; reflexivity.
  - vm_compute. discriminate.
Defined.

(** ** The low-activity detector and the candidate pool *)

Lemma detect_low_activity_spec (accounts : list account) :
  CorrelationAnalyzer.detect_low_activity accounts
  = usernames_where low_activity_flag accounts.
Proof.
  unfold CorrelationAnalyzer.detect_low_activity.
  transitivity (fold_left (λ s acc, if low_activity_flag acc
                                    then add (username acc) s else s) accounts ∅).
  - generalize (∅ : gset string).
    induction accounts as [|a l IH]; intros s; simpl; [done|].
    rewrite IH. f_equal.
    unfold CorrelationAnalyzer.low_activity_body, low_activity_flag.
    rewrite basic_flagged_alt. by destruct (basic_flagged _).
  - rewrite fold_left_add_if. unfold usernames_where. set_solver.
Qed.

(** A test that rejects basic-flagged records selects the same records
    from the snapshot and from its basic-excluded pool. *)
Lemma filter_legit (P : account → bool) (accounts : list account) :
  (∀ a, P a = true → basic_flagged a = false) →
  filter (λ a, P a = true) (AdvancedAnalyzer.basic_legit accounts)
  = filter (λ a, P a = true) accounts.
Proof.
  intros HP. unfold AdvancedAnalyzer.basic_legit.
  rewrite list_filter_filter. apply list_filter_iff. intros a.
  rewrite basic_legit_cond. split; [naive_solver|].
  intros Ha. split; [done|]. by rewrite (HP a Ha).
Qed.

Lemma basic_legit_idemp (accounts : list account) :
  AdvancedAnalyzer.basic_legit (AdvancedAnalyzer.basic_legit accounts)
  = AdvancedAnalyzer.basic_legit accounts.
Proof.
  apply (filter_legit (λ a, negb (truthy (is_suspicious a)) && negb (status_deleted a))).
  intros a. rewrite basic_legit_cond. by destruct (basic_flagged a).
Qed.

Lemma low_activity_flag_not_basic (a : account) :
  low_activity_flag a = true → basic_flagged a = false.
Proof. unfold low_activity_flag. destruct (basic_flagged a); naive_solver. Qed.

Lemma usernames_where_legit (P : account → bool) (accounts : list account) :
  (∀ a, P a = true → basic_flagged a = false) →
  usernames_where P (AdvancedAnalyzer.basic_legit accounts)
  = usernames_where P accounts.
Proof. intros HP. unfold usernames_where. by rewrite filter_legit. Qed.

Lemma timestamps_of_legit (accounts : list account) :
  CorrelationAnalyzer.timestamps_of (AdvancedAnalyzer.basic_legit accounts)
  = CorrelationAnalyzer.timestamps_of accounts.
Proof.
  unfold CorrelationAnalyzer.timestamps_of.
  change (filter _ (AdvancedAnalyzer.basic_legit accounts))
    with (AdvancedAnalyzer.basic_legit (AdvancedAnalyzer.basic_legit accounts)).
  by rewrite basic_legit_idemp.
Qed.

Lemma elem_of_concat {A : Type} (x : A) (ls : list (list A)) :
  x ∈ concat ls ↔ ∃ l, x ∈ l ∧ l ∈ ls.
Proof.
  rewrite list_elem_of_In, in_concat. split.
  - intros (l & Hl & Hx). exists l. by rewrite !list_elem_of_In.
  - intros (l & Hx & Hl). exists l. by rewrite <-!list_elem_of_In.
Qed.

(** Usernames of the basic-excluded pool. *)
Lemma temporal_from_pool (threshold : Z) (accounts : list account) (u : string) :
  u ∈ cluster_users (spec_qualifying threshold (CorrelationAnalyzer.timestamps_of accounts)) →
  ∃ a, a ∈ accounts ∧ username a = u ∧ basic_flagged a = false.
Proof.
  unfold cluster_users, spec_qualifying. rewrite elem_of_list_to_set, list_elem_of_fmap.
  intros (x & -> & Hx).
  assert (Hin : x ∈ CorrelationAnalyzer.timestamps_of accounts).
  { rewrite <-(spec_clusters_concat threshold).
    apply elem_of_concat in Hx as (c & Hxc & Hc).
    apply list_elem_of_filter in Hc as [_ Hc].
    apply elem_of_concat. eauto. }
  rewrite timestamps_of_Permutation in Hin. unfold legit_stamps in Hin.
  apply list_elem_of_fmap in Hin as (a & -> & Ha).
  apply list_elem_of_filter in Ha as [Hb Ha]. eauto.
Qed.

Lemma analyze_activity_diversity_spec (accounts : list account) :
  list_to_set (AdvancedAnalyzer.activity_suspicious_accounts
                 (AdvancedAnalyzer.analyze_activity_diversity accounts))
  = usernames_where low_activity_flag accounts.
Proof.
  unfold AdvancedAnalyzer.analyze_activity_diversity. simpl.
  rewrite <-(usernames_where_legit _ _ low_activity_flag_not_basic).
  assert (H : ∀ l out, (∀ a, a ∈ l → basic_flagged a = false) →
            AdvancedAnalyzer.ad_username <$> fold_left AdvancedAnalyzer.activity_body l out
            = ((AdvancedAnalyzer.ad_username <$> out)
               ++ (username <$> filter (λ a, low_activity_flag a = true) l))%list).
  { induction l as [|a l IH]; intros out Hl; simpl.
    - by rewrite app_nil_r.
    - assert (Hb : basic_flagged a = false) by (apply Hl; left).
      assert (Hd : status_deleted a = false).
      { unfold basic_flagged in Hb. by apply orb_false_iff in Hb as [_ ?]. }
      rewrite IH by (intros; apply Hl; by right).
      rewrite filter_cons. unfold AdvancedAnalyzer.activity_body, low_activity_flag.
      rewrite Hd, Hb. simpl.
      destruct ((_ =? 0) && _ && _).
      + rewrite decide_True by done. rewrite fmap_app. simpl.
        by rewrite <-app_assoc.
      + by rewrite decide_False by done. }
  rewrite H by (intros a Ha; by apply elem_of_basic_legit in Ha as [_ ?]).
  done.
Qed.

(** ** The ensemble *)

Lemma union_list_Permutation (l k : list (gset string)) :
  l ≡ₚ k → ⋃ l = ⋃ k.
Proof.
  intros Hp. apply set_eq. intros u. rewrite !elem_of_union_list.
  by setoid_rewrite Hp.
Qed.

Lemma percent_ok (n d : Z) (q : Q) :
  CorrelationAnalyzer.percent n d = OK q → d ≠ 0.
Proof.
  unfold CorrelationAnalyzer.percent. destruct (Z.eqb_spec d 0); [done|auto].
Qed.

(** When the combined detection returns. *)
Lemma apply_full_detection_spec (accounts : list account) :
  CorrelationAnalyzer.apply_full_detection accounts
  = if forallb dormant_ready accounts
    then if len accounts =? 0 then Raise ZeroDivisionError
         else OK (CorrelationAnalyzer.basic_fake accounts
                  ∪ cluster_users (spec_qualifying 60
                                     (CorrelationAnalyzer.timestamps_of accounts))
                  ∪ usernames_where dormant_flag accounts
                  ∪ usernames_where low_activity_flag accounts)
    else Raise (KeyError "account_created").
Proof.
  unfold CorrelationAnalyzer.apply_full_detection,
         CorrelationAnalyzer.detect_temporal_clustering.
  rewrite detect_temporal_clustering_with_spec, detect_dormant_accounts_spec.
  rewrite detect_low_activity_spec. simpl.
  destruct (forallb _ _); [|done]. simpl.
  unfold CorrelationAnalyzer.percent. by destruct (len accounts =? 0).
Qed.

(** C7.  Whenever the combined detection returns a fake-set, it is the
    union of the outputs of the four detectors, it contains the output of
    the basic detector, and the union of the four outputs taken in any
    order is the same set; [apply_advanced_detection] returns the same set.
    Each of the three other detectors gives the same output on the
    basic-excluded pool alone as on the whole snapshot, and flags only
    usernames of that pool: its input is not narrowed by what a sibling
    detector flagged. *)
Theorem ensemble_is_union (accounts : list account) (all_fake : gset string) :
  CorrelationAnalyzer.apply_full_detection accounts = OK all_fake →
  let pool := AdvancedAnalyzer.basic_legit accounts in
  let basic := CorrelationAnalyzer.basic_fake accounts in
  let low := CorrelationAnalyzer.detect_low_activity accounts in
  ∃ temporal dormant : gset string,
    CorrelationAnalyzer.detect_temporal_clustering accounts = OK temporal
    ∧ CorrelationAnalyzer.detect_dormant_accounts accounts = OK dormant
    ∧ all_fake = basic ∪ temporal ∪ dormant ∪ low
    ∧ basic ⊆ all_fake
    ∧ (∀ order, order ≡ₚ [basic; temporal; dormant; low] → ⋃ order = all_fake)
    ∧ StarTimelineVisualizer.apply_advanced_detection accounts = OK all_fake
    ∧ CorrelationAnalyzer.detect_temporal_clustering pool = OK temporal
    ∧ CorrelationAnalyzer.detect_dormant_accounts pool = OK dormant
    ∧ CorrelationAnalyzer.detect_low_activity pool = low
    ∧ temporal ∪ dormant ∪ low ⊆ list_to_set (username <$> pool).
Proof.
  intros Hrun pool basic low.
  pose proof Hrun as Hrun'. rewrite apply_full_detection_spec in Hrun'.
  destruct (forallb dormant_ready accounts) eqn:Hready; [|done].
  destruct (len accounts =? 0); [done|]. injection Hrun' as Hall.
  eexists _, _.
  split; [apply detect_temporal_clustering_with_spec|].
  split; [by rewrite detect_dormant_accounts_spec, Hready|].
  subst low. rewrite detect_low_activity_spec.
  split; [done|]. split; [set_solver|].
  split.
  { intros order Hp. rewrite (union_list_Permutation _ _ Hp). simpl.
    rewrite <-Hall. set_solver. }
  split; [exact Hrun|].
  split.
  { unfold CorrelationAnalyzer.detect_temporal_clustering.
    rewrite detect_temporal_clustering_with_spec. subst pool.
    by rewrite timestamps_of_legit. }
  split.
  { rewrite detect_dormant_accounts_spec. subst pool.
    rewrite forallb_dormant_ready_legit, Hready.
    by rewrite (usernames_where_legit _ _ dormant_flag_not_basic). }
  split.
  { subst pool. rewrite detect_low_activity_spec.
    apply (usernames_where_legit _ _ low_activity_flag_not_basic). }
  intros u Hu. rewrite elem_of_list_to_set, list_elem_of_fmap.
  assert (∃ a, a ∈ accounts ∧ username a = u ∧ basic_flagged a = false)
    as (a & Ha & Hn & Hb).
  { rewrite !elem_of_union in Hu. destruct Hu as [[Hu|Hu]|Hu].
    - by apply temporal_from_pool in Hu.
    - apply elem_of_usernames_where in Hu as (a & ? & ? & ?%dormant_flag_not_basic).
      eauto.
    - apply elem_of_usernames_where in Hu as (a & ? & ? & ?%low_activity_flag_not_basic).
      eauto. }
  exists a. split; [done|]. by apply elem_of_basic_legit.
Qed.

Lemma ensemble_is_union_witness :
  CorrelationAnalyzer.apply_full_detection mixed_snapshot = OK mixed_fake
  ∧ CorrelationAnalyzer.basic_fake mixed_snapshot ⊆ mixed_fake
  ∧ (⋃ [CorrelationAnalyzer.detect_low_activity mixed_snapshot;
        usernames_where dormant_flag mixed_snapshot;
        CorrelationAnalyzer.basic_fake mixed_snapshot;
        cluster_users (spec_qualifying 60
                         (CorrelationAnalyzer.timestamps_of mixed_snapshot))]
     = mixed_fake).
Proof.
  assert (Hrun : CorrelationAnalyzer.apply_full_detection mixed_snapshot
                 = OK mixed_fake) by (vm_compute; reflexivity).
  split; [exact Hrun|].
  destruct (ensemble_is_union mixed_snapshot mixed_fake Hrun)
    as (temporal & dormant & Ht & Hd & _ & Hsub & Hperm & _).
  split; [exact Hsub|].
  apply Hperm.
  unfold CorrelationAnalyzer.detect_temporal_clustering in Ht.
  rewrite detect_temporal_clustering_with_spec in Ht. injection Ht as <-.
  rewrite detect_dormant_accounts_spec in Hd.
  destruct (forallb dormant_ready mixed_snapshot); [|discriminate Hd].
  injection Hd as <-.
  etransitivity;
    [apply (Permutation_app_comm
              [CorrelationAnalyzer.detect_low_activity mixed_snapshot;
               usernames_where dormant_flag mixed_snapshot])|].
  simpl. do 2 apply perm_skip. apply Permutation_swap.
Defined.

(** ** The report of [run_advanced_on_collected.py] *)

(** In a snapshot with distinct usernames a username names one record. *)
Lemma username_inj (accounts : list account) (a b : account) :
  NoDup (username <$> accounts) →
  a ∈ accounts → b ∈ accounts → username a = username b → a = b.
Proof.
  induction accounts as [|c l IH]; intros Hnd Ha Hb Heq.
  - by apply elem_of_nil in Ha.
  - rewrite fmap_cons in Hnd. apply NoDup_cons in Hnd as [Hc Hnd].
    apply elem_of_cons in Ha as [->|Ha]; apply elem_of_cons in Hb as [->|Hb].
    + done.
    + destruct Hc. rewrite Heq. apply list_elem_of_fmap. eauto.
    + destruct Hc. rewrite <-Heq. apply list_elem_of_fmap. eauto.
    + by apply IH.
Qed.

Lemma index_ok_nonempty {A : Type} (l : list A) (i : Z) (x : A) :
  index l i = OK x → len l ≠ 0.
Proof.
  unfold index, len. destruct l; [|simpl; lia].
  simpl. by destruct (i <? 0), ((0 <=? _) && _).
Qed.

Lemma size_list_to_set_le (l : list string) :
  (size (list_to_set l : gset string) ≤ length l)%nat.
Proof.
  induction l as [|x l IH].
  - done.
  - rewrite list_to_set_cons, size_union_alt, size_singleton. simpl.
    assert (size (list_to_set l ∖ {[x]} : gset string)
            ≤ size (list_to_set l : gset string))%nat
      by (apply subseteq_size; set_solver).
    lia.
Qed.

Lemma all_suspicious_spec (accounts : list account)
    (temporal : AdvancedAnalyzer.temporal_result)
    (dormant : AdvancedAnalyzer.dormant_result) :
  AdvancedAnalyzer.analyze_temporal_clustering accounts = OK temporal →
  AdvancedAnalyzer.analyze_dormant_accounts accounts = OK dormant →
  AdvancedAnalyzer.all_suspicious temporal dormant
    (AdvancedAnalyzer.analyze_activity_diversity accounts)
  = cluster_users (spec_qualifying 60 (CorrelationAnalyzer.timestamps_of accounts))
    ∪ usernames_where dormant_flag accounts
    ∪ usernames_where low_activity_flag accounts.
Proof.
  intros Ht Hd. unfold AdvancedAnalyzer.all_suspicious.
  rewrite analyze_activity_diversity_spec.
  unfold AdvancedAnalyzer.analyze_temporal_clustering in Ht.
  rewrite analyze_temporal_clustering_with_spec in Ht. injection Ht as <-.
  pose proof (analyze_dormant_accounts_agrees accounts) as Hag.
  rewrite Hd, detect_dormant_accounts_spec in Hag.
  destruct (forallb _ _); [|done]. destruct Hag as [-> _].
  simpl. rewrite list_to_set_elements_L. set_solver.
Qed.

(** C9, as stated for every snapshot, fails when two records share a
    username: with a deleted record and a low-activity record both named
    ["x"], the basic set and the advanced set are both [{x}], so they are
    not disjoint; the report adds 1 and 1 to a total of 2, while the
    combined fake set, which is what [apply_full_detection] returns, has
    one element. *)
Lemma shared_username_counted_twice :
  ∃ r temporal dormant,
    AdvancedAnalyzer.main shared_username = OK r
    ∧ AdvancedAnalyzer.analyze_temporal_clustering shared_username = OK temporal
    ∧ AdvancedAnalyzer.analyze_dormant_accounts shared_username = OK dormant
    ∧ let activity := AdvancedAnalyzer.analyze_activity_diversity shared_username in
      let advanced := AdvancedAnalyzer.all_suspicious temporal dormant activity in
      let basic : gset string :=
        list_to_set (username <$> AdvancedAnalyzer.basic_fake shared_username) in
      username <$> shared_username = ["x"; "x"]
      ∧ basic = {["x"]} ∧ advanced = {["x"]}
      ∧ ¬ advanced ## basic
      ∧ AdvancedAnalyzer.basic_detection_suspicious r = 1
      ∧ AdvancedAnalyzer.advanced_total r = 1
      ∧ AdvancedAnalyzer.summary_total_fake r = 2
      ∧ size (basic ∪ advanced) = 1%nat
      ∧ AdvancedAnalyzer.summary_total_fake r ≠ Z.of_nat (size (basic ∪ advanced))
      ∧ CorrelationAnalyzer.apply_full_detection shared_username = OK {["x"]}.
Proof.
  eexists _, _, _. split; [vm_compute; reflexivity|].
  split; [vm_compute; reflexivity|]. split; [vm_compute; reflexivity|].
  cbv zeta.
  assert (Hb : (list_to_set (username <$> AdvancedAnalyzer.basic_fake shared_username)
                : gset string) = {["x"]}) by (vm_compute; reflexivity).
  split; [reflexivity|]. split; [exact Hb|].
  match goal with
  | |- ?adv = _ ∧ _ =>
      assert (Ha : adv = ({["x"]} : gset string)) by (vm_compute; reflexivity)
  end.
  split; [exact Ha|]. rewrite Ha, Hb.
  split; [intros Hd; apply (Hd "x"); by apply elem_of_singleton|].
  split; [reflexivity|]. split; [reflexivity|]. split; [reflexivity|].
  assert (Hs : size (({["x"]} : gset string) ∪ {["x"]}) = 1%nat)
    by (rewrite (idemp_L (∪)); apply size_singleton).
  split; [exact Hs|]. split; [rewrite Hs; simpl; lia|].
  vm_compute. reflexivity.
Qed.

(** C9, amended.  Whenever [main] produces its report: every username in
    the union of the temporal, dormant and low-activity sets is the
    username of a record of [basic_legit]; the advanced count is the size
    of that union; the reported total is the basic count plus the advanced
    count, and it is never less than the size of the combined fake set, the
    set [apply_full_detection] returns.  In a snapshot whose usernames are
    distinct, moreover, the advanced union is disjoint from the set of
    basic-flagged usernames, the basic count is the size of that set, and
    the reported total equals the size of the combined fake set. *)
Theorem total_fake_counts_once (accounts : list account)
    (r : AdvancedAnalyzer.results) :
  AdvancedAnalyzer.main accounts = OK r →
  ∃ temporal dormant,
    AdvancedAnalyzer.analyze_temporal_clustering accounts = OK temporal
    ∧ AdvancedAnalyzer.analyze_dormant_accounts accounts = OK dormant
    ∧ let activity := AdvancedAnalyzer.analyze_activity_diversity accounts in
      let advanced := AdvancedAnalyzer.all_suspicious temporal dormant activity in
      let basic : gset string :=
        list_to_set (username <$> AdvancedAnalyzer.basic_fake accounts) in
      (∀ u, u ∈ advanced →
         ∃ a, a ∈ AdvancedAnalyzer.basic_legit accounts ∧ username a = u)
      ∧ AdvancedAnalyzer.advanced_total r = Z.of_nat (size advanced)
      ∧ AdvancedAnalyzer.summary_total_fake r
        = AdvancedAnalyzer.basic_detection_suspicious r
          + AdvancedAnalyzer.advanced_total r
      ∧ Z.of_nat (size (basic ∪ advanced)) ≤ AdvancedAnalyzer.summary_total_fake r
      ∧ CorrelationAnalyzer.apply_full_detection accounts = OK (basic ∪ advanced)
      ∧ (NoDup (username <$> accounts) →
         advanced ## basic
         ∧ AdvancedAnalyzer.basic_detection_suspicious r = Z.of_nat (size basic)
         ∧ AdvancedAnalyzer.summary_total_fake r
           = Z.of_nat (size (basic ∪ advanced))).
Proof.
  intros Hmain. unfold AdvancedAnalyzer.main in Hmain.
  destruct (AdvancedAnalyzer.analyze_temporal_clustering accounts)
    as [temporal|] eqn:Ht; [|done].
  destruct (AdvancedAnalyzer.analyze_dormant_accounts accounts)
    as [dormant|] eqn:Hd; [|done].
  simpl in Hmain. exists temporal, dormant. split; [done|]. split; [done|].
  intros activity advanced basic.
  assert (Hadv : advanced
    = cluster_users (spec_qualifying 60 (CorrelationAnalyzer.timestamps_of accounts))
      ∪ usernames_where dormant_flag accounts
      ∪ usernames_where low_activity_flag accounts)
    by (by apply all_suspicious_spec).
  assert (Hpool : ∀ u, u ∈ advanced →
            ∃ a, a ∈ accounts ∧ username a = u ∧ basic_flagged a = false).
  { intros u. rewrite Hadv, !elem_of_union. intros [[Hu|Hu]|Hu].
    - by apply temporal_from_pool in Hu.
    - apply elem_of_usernames_where in Hu as (a & ? & ? & ?%dormant_flag_not_basic).
      eauto.
    - apply elem_of_usernames_where in Hu as (a & ? & ? & ?%low_activity_flag_not_basic).
      eauto. }
  assert (Hle : (size basic ≤ length (AdvancedAnalyzer.basic_fake accounts))%nat).
  { unfold basic. etransitivity; [apply size_list_to_set_le|].
    by rewrite length_fmap. }
  assert (Hun : (size (basic ∪ advanced) ≤ size basic + size advanced)%nat).
  { rewrite size_union_alt.
    assert (size (advanced ∖ basic) ≤ size advanced)%nat
      by (apply subseteq_size; set_solver).
    lia. }
  unfold AdvancedAnalyzer.generate_report in Hmain. fold activity advanced in Hmain.
  destruct (index accounts 0) as [first_acc|] eqn:Hi0; [|done].
  destruct (index accounts (-1)) as [last_acc|]; [|done]. simpl in Hmain.
  destruct (CorrelationAnalyzer.percent _ _) as [pct|]; [|done]. simpl in Hmain.
  injection Hmain as <-. simpl.
  split.
  { intros u (a & Ha & Hn & Hb)%Hpool. exists a. split; [|done].
    by apply elem_of_basic_legit. }
  split; [done|]. split; [done|]. split; [unfold len; lia|]. split.
  { rewrite apply_full_detection_spec.
    pose proof (analyze_dormant_accounts_spec accounts) as Hds. rewrite Hd in Hds.
    destruct (forallb dormant_ready accounts); [|done].
    apply index_ok_nonempty in Hi0. destruct (Z.eqb_spec (len accounts) 0); [done|].
    f_equal. rewrite basic_fake_spec, Hadv. unfold basic.
    unfold AdvancedAnalyzer.basic_fake, basic_flagged. set_solver. }
  intros Hnd.
  assert (Hdisj : advanced ## basic).
  { apply elem_of_disjoint. intros u Hu Hb.
    apply Hpool in Hu as (a & Ha & Hn & Hlegit).
    unfold basic in Hb. rewrite elem_of_list_to_set, list_elem_of_fmap in Hb.
    destruct Hb as (b & Hnb & Hb). apply elem_of_basic_fake_list in Hb as [Hb Hfl].
    assert (a = b) by (apply (username_inj accounts); congruence).
    congruence. }
  assert (Hsize : len (AdvancedAnalyzer.basic_fake accounts) = Z.of_nat (size basic)).
  { unfold basic. rewrite size_list_to_set; [by rewrite length_fmap|].
    eapply sublist_NoDup; [exact Hnd|].
    apply fmap_sublist, sublist_filter. }
  split; [done|]. split; [done|].
  rewrite size_union by done. lia.
Qed.

Lemma total_fake_counts_once_witness :
  NoDup (username <$> mixed_snapshot)
  ∧ (∃ r, AdvancedAnalyzer.main mixed_snapshot = OK r
          ∧ AdvancedAnalyzer.basic_detection_suspicious r = 1
          ∧ AdvancedAnalyzer.advanced_total r = 13
          ∧ AdvancedAnalyzer.summary_total_fake r = 1 + 13)
  ∧ CorrelationAnalyzer.apply_full_detection mixed_snapshot = OK mixed_fake
  ∧ size mixed_fake = 14%nat.
Proof.
  assert (Hnd : NoDup (username <$> mixed_snapshot)).
  { apply NoDup_ListNoDup. vm_compute.
    repeat (constructor; [simpl; intros H; repeat (destruct H as [H|H]; [discriminate H|]); exact H|]).
    constructor. }
  split; [exact Hnd|].
  destruct (AdvancedAnalyzer.main mixed_snapshot) as [r|] eqn:Hmain;
    [|vm_compute in Hmain; discriminate Hmain].
  destruct (total_fake_counts_once mixed_snapshot r Hmain)
    as (temporal & dormant & _ & _ & _ & _ & Hsum & _ & _ & Hdistinct).
  destruct (Hdistinct Hnd) as (_ & _ & _).
  assert (Hr : OK r = AdvancedAnalyzer.main mixed_snapshot) by (symmetry; exact Hmain).
  split.
  - exists r. split; [reflexivity|].
    vm_compute in Hr. injection Hr as ->. simpl. repeat split.
  - split; vm_compute; reflexivity.
Defined.

(** ** Time bucketing *)

Section BucketingFacts.
Context {K : Type} `{Countable K}.
Variable key : account → K.
Variable le : relation K.
Context `{!RelDecision le, !Transitive le, !Total le, !AntiSymm (=) le}.
Variable fake_usernames : gset string.

Lemma dd_get_incr (d : gmap K Z) (k k' : K) :
  dd_get (incr k d) k' = dd_get d k' + (if decide (k = k') then 1 else 0).
Proof.
  unfold incr, dd_get. destruct (decide (k = k')) as [->|Hne].
  - by rewrite lookup_insert_eq.
  - rewrite lookup_insert_ne by done. lia.
Qed.

Lemma dom_incr (d : gmap K Z) (k : K) : dom (incr k d) = {[k]} ∪ dom d.
Proof. unfold incr. apply dom_insert_L. Qed.

Lemma tally_cons (P : account → Prop) `{!∀ a, Decision (P a)}
    (a : account) (l : list account) :
  tally P (a :: l) = (if decide (P a) then 1 else 0) + tally P l.
Proof.
  unfold tally, len. rewrite filter_cons.
  destruct (decide (P a)); simpl; lia.
Qed.

Lemma tally_nonneg (P : account → Prop) `{!∀ a, Decision (P a)} (l : list account) :
  0 ≤ tally P l.
Proof. unfold tally, len. lia. Qed.

Lemma tally_pos (P : account → Prop) `{!∀ a, Decision (P a)} (l : list account) :
  0 < tally P l ↔ ∃ a, a ∈ l ∧ P a.
Proof.
  unfold tally, len. split.
  - intros Hpos. destruct (filter P l) as [|a l'] eqn:Hf; [simpl in Hpos; lia|].
    assert (Hin : a ∈ filter P l) by (rewrite Hf; left).
    apply list_elem_of_filter in Hin as [? ?]. eauto.
  - intros (a & Ha & HP).
    assert (Hin : a ∈ filter P l) by (by apply list_elem_of_filter).
    destruct (filter P l); [by apply elem_of_nil in Hin|simpl; lia].
Qed.

(** The grouping loop from any pair of dictionaries. *)
Lemma count_loop_spec (accounts : list account) (real0 fake0 : gmap K Z) :
  let '(real, fake) :=
    fold_left (count_body key fake_usernames) accounts (real0, fake0) in
  (∀ k, dd_get real k
        = dd_get real0 k
          + tally (λ a, key a = k ∧ username a ∉ fake_usernames) accounts)
  ∧ (∀ k, dd_get fake k
          = dd_get fake0 k
            + tally (λ a, key a = k ∧ username a ∈ fake_usernames) accounts)
  ∧ dom real ∪ dom fake
    = dom real0 ∪ dom fake0 ∪ list_to_set (key <$> accounts).
Proof.
  revert real0 fake0; induction accounts as [|a l IH]; intros real0 fake0.
  - simpl. split; [|split].
    + intros k. unfold tally, len. simpl. lia.
    + intros k. unfold tally, len. simpl. lia.
    + set_solver.
  - cbn [fold_left]. unfold count_body at 2.
    destruct (bool_decide (username a ∈ fake_usernames)) eqn:Hf.
    + apply bool_decide_eq_true in Hf.
      specialize (IH real0 (incr (key a) fake0)).
      destruct (fold_left _ l _) as [real fake].
      destruct IH as (Hr & Hfk & Hd). split; [|split].
      * intros k. rewrite Hr, tally_cons.
        rewrite decide_False by tauto. lia.
      * intros k. rewrite Hfk, dd_get_incr, tally_cons.
        destruct (decide (key a = k)).
        -- rewrite decide_True by tauto. lia.
        -- rewrite decide_False by tauto. lia.
      * rewrite Hd, dom_incr. set_solver.
    + apply bool_decide_eq_false in Hf.
      specialize (IH (incr (key a) real0) fake0).
      destruct (fold_left _ l _) as [real fake].
      destruct IH as (Hr & Hfk & Hd). split; [|split].
      * intros k. rewrite Hr, dd_get_incr, tally_cons.
        destruct (decide (key a = k)).
        -- rewrite decide_True by tauto. lia.
        -- rewrite decide_False by tauto. lia.
      * intros k. rewrite Hfk, tally_cons.
        rewrite decide_False by tauto. lia.
      * rewrite Hd, dom_incr. set_solver.
Qed.

Lemma sorted_keys_ascending (real fake : gmap K Z) :
  ascending le (sorted_keys le real fake).
Proof.
  unfold ascending, sorted_keys.
  assert (Hnd : NoDup (merge_sort le (elements (dom real ∪ dom fake)))).
  { rewrite merge_sort_Permutation. apply NoDup_elements. }
  pose proof (StronglySorted_merge_sort le (elements (dom real ∪ dom fake))) as Hs.
  induction Hs as [|x l Hs IH Hall]; [constructor|].
  apply NoDup_cons in Hnd as [Hx Hnd].
  constructor; [by apply IH|].
  rewrite Forall_forall in Hall |- *. intros y Hy. split; [by apply Hall|].
  intros ->. done.
Qed.

Lemma elem_of_sorted_keys (real fake : gmap K Z) (k : K) :
  k ∈ sorted_keys le real fake ↔ k ∈ dom real ∪ dom fake.
Proof.
  unfold sorted_keys. by rewrite merge_sort_Permutation, elem_of_elements.
Qed.

(** The bucketing shared by the weekly analysis and the timeline. *)
Lemma group_counts_buckets (accounts : list account) :
  let '(real, fake) := group_counts key accounts fake_usernames in
  let periods := sorted_keys le real fake in
  buckets_of key le accounts fake_usernames periods
             (counts_for real periods) (counts_for fake periods).
Proof.
  unfold group_counts.
  pose proof (count_loop_spec accounts ∅ ∅) as Hloop.
  destruct (fold_left _ accounts _) as [real fake].
  destruct Hloop as (Hr & Hf & Hd).
  split; [apply sorted_keys_ascending|]. split; [|split].
  - intros k. rewrite elem_of_sorted_keys, Hd.
    rewrite !dom_empty_L, !(left_id_L ∅ (∪)).
    rewrite elem_of_list_to_set, list_elem_of_fmap. naive_solver.
  - unfold counts_for. apply list_fmap_ext. intros _ k _.
    rewrite Hr. unfold dd_get at 1. rewrite lookup_empty. simpl. lia.
  - unfold counts_for. apply list_fmap_ext. intros _ k _.
    rewrite Hf. unfold dd_get at 1. rewrite lookup_empty. simpl. lia.
Qed.

(** Every bucket holds at least one event. *)
Lemma buckets_nonempty (accounts : list account) (periods : list K)
    (real_counts fake_counts : list Z) (i : nat) (r f : Z) :
  buckets_of key le accounts fake_usernames periods real_counts fake_counts →
  real_counts !! i = Some r → fake_counts !! i = Some f →
  0 ≤ r ∧ 0 ≤ f ∧ 1 ≤ r + f.
Proof.
  intros (_ & Hmem & -> & ->) Hr Hf.
  rewrite list_lookup_fmap in Hr, Hf.
  destruct (periods !! i) as [k|] eqn:Hk; [|done].
  simpl in Hr, Hf. injection Hr as <-. injection Hf as <-.
  assert (Hin : k ∈ periods) by (apply list_elem_of_lookup; eauto).
  apply Hmem in Hin as (a & Ha & Hka).
  pose proof (tally_nonneg (λ a, key a = k ∧ username a ∉ fake_usernames) accounts).
  pose proof (tally_nonneg (λ a, key a = k ∧ username a ∈ fake_usernames) accounts).
  split; [done|]. split; [done|].
  destruct (decide (username a ∈ fake_usernames)).
  - assert (0 < tally (λ a, key a = k ∧ username a ∈ fake_usernames) accounts)
      by (apply tally_pos; eauto). lia.
  - assert (0 < tally (λ a, key a = k ∧ username a ∉ fake_usernames) accounts)
      by (apply tally_pos; eauto). lia.
Qed.

End BucketingFacts.

(** ** The weekly analysis *)

Lemma index_in_range {A : Type} (l : list A) (i : Z) (d : A) :
  0 ≤ i < len l → index l i = OK (nth (Z.to_nat i) l d).
Proof.
  unfold index, len. intros Hi.
  destruct (Z.ltb_spec i 0); [lia|].
  destruct (Z.leb_spec 0 i); [|lia].
  destruct (Z.ltb_spec i (Z.of_nat (length l))); [|lia]. simpl.
  rewrite nth_lookup.
  destruct (lookup_lt_is_Some_2 l (Z.to_nat i)) as [x ->]; [lia|done].
Qed.

Lemma range_bounds (a b : Z) : Forall (λ i, a ≤ i < b) (range a b).
Proof.
  unfold range. apply Forall_fmap, Forall_forall. intros k Hk%elem_of_seq.
  simpl. lia.
Qed.

Lemma len_counts_for (d : gmap string Z) (periods : list string) :
  len (counts_for d periods) = len periods.
Proof. unfold counts_for, len. by rewrite length_fmap. Qed.

Lemma week_change_body_spec (real fake : list Z) (inv same i : Z) :
  len fake = len real → 1 ≤ i < len real →
  CorrelationAnalyzer.week_change_body real fake (inv, same) i
  = OK (inv + (if decide (opposite_signs (delta real i) (delta fake i)) then 1 else 0),
        same + (if decide (notable_same (delta real i) (delta fake i)) then 1 else 0)).
Proof.
  intros Hlen Hi. unfold CorrelationAnalyzer.week_change_body.
  rewrite !(index_in_range _ _ 0) by lia. simpl.
  fold (at_ real (i - 1)) (at_ real i) (at_ fake (i - 1)) (at_ fake i).
  fold (delta real i) (delta fake i).
  set (dr := delta real i). set (df := delta fake i).
  unfold notable_same, opposite_signs.
  destruct (Z.ltb_spec dr 0), (Z.ltb_spec 0 df), (Z.ltb_spec 0 dr),
           (Z.ltb_spec df 0); simpl;
    try (rewrite (decide_True (P := _ ∨ _)) by lia;
         rewrite (decide_False (P := _ ∧ _)) by lia;
         f_equal; f_equal; lia);
    rewrite (decide_False (P := _ ∨ _)) by lia;
    destruct (Z.ltb_spec 5 (Z.abs dr)), (Z.ltb_spec 5 (Z.abs df)); simpl;
    try (rewrite (decide_True (P := _ ∧ _)) by lia; f_equal; f_equal; lia);
    rewrite (decide_False (P := _ ∧ _)) by lia; f_equal; f_equal; lia.
Qed.

Lemma week_change_loop (real fake : list Z) (l : list Z) (inv same : Z) :
  len fake = len real → Forall (λ i, 1 ≤ i < len real) l →
  for_each (CorrelationAnalyzer.week_change_body real fake) l (inv, same)
  = OK (inv + len (filter (λ i, opposite_signs (delta real i) (delta fake i)) l),
        same + len (filter (λ i, notable_same (delta real i) (delta fake i)) l)).
Proof.
  intros Hlen Hl. revert inv same.
  induction Hl as [|i l Hi Hl IH]; intros inv same.
  - simpl. unfold len. simpl. f_equal. f_equal; lia.
  - cbn [for_each]. rewrite week_change_body_spec by done. simpl.
    rewrite IH, !filter_cons. unfold len.
    destruct (decide (opposite_signs _ _)), (decide (notable_same _ _));
      simpl; f_equal; f_equal; lia.
Qed.

Lemma drop_nth_cons (l : list Z) (n : nat) :
  (n < length l)%nat → drop n l = nth n l 0 :: drop (S n) l.
Proof.
  revert n; induction l as [|x l IH]; intros n Hn; simpl in *; [lia|].
  destruct n as [|n]; [done|]. simpl. apply IH. lia.
Qed.

(** The slice [l[i-4:i]] holds the four values before position [i]. *)
Lemma slice_window (l : list Z) (i : Z) :
  4 ≤ i ≤ len l →
  slice l (i - 4) i = [at_ l (i - 4); at_ l (i - 3); at_ l (i - 2); at_ l (i - 1)].
Proof.
  unfold len, slice, at_. intros Hi.
  replace (Z.to_nat i - Z.to_nat (i - 4))%nat with 4%nat by lia.
  set (n := Z.to_nat (i - 4)).
  replace (Z.to_nat (i - 3)) with (S n) by lia.
  replace (Z.to_nat (i - 2)) with (S (S n)) by lia.
  replace (Z.to_nat (i - 1)) with (S (S (S n))) by lia.
  rewrite (drop_nth_cons l n) by lia.
  rewrite (drop_nth_cons l (S n)) by lia.
  rewrite (drop_nth_cons l (S (S n))) by lia.
  rewrite (drop_nth_cons l (S (S (S n)))) by lia.
  done.
Qed.

Lemma mean_window (l : list Z) (i : Z) :
  4 ≤ i ≤ len l →
  (CorrelationAnalyzer.mean (slice l (i - 4) i) == spec_moving_avg l i)%Q.
Proof.
  intros Hi. rewrite slice_window by done.
  unfold CorrelationAnalyzer.mean, spec_moving_avg, len. simpl.
  unfold Qeq, Qdiv, Qmult, Qinv, inject_Z. simpl. lia.
Qed.

Lemma Qlt_bool_iff (x y : Q) : Qlt_bool x y = true ↔ (x < y)%Q.
Proof.
  unfold Qlt_bool. rewrite negb_true_iff, <-not_true_iff_false, Qle_bool_iff.
  split; [apply Qnot_le_lt|apply Qlt_not_le].
Qed.

Lemma spike_test_spec (real fake : list Z) (i : Z) :
  4 ≤ i ≤ len real → 4 ≤ i ≤ len fake →
  Qlt_bool (inject_Z (at_ real i) - CorrelationAnalyzer.mean (slice real (i - 4) i)) (-5)
  && Qlt_bool 10 (inject_Z (at_ fake i) - CorrelationAnalyzer.mean (slice fake (i - 4) i))
  = bool_decide (spec_spike real fake i).
Proof.
  intros Hr Hf. apply eq_true_iff_eq.
  rewrite andb_true_iff, !Qlt_bool_iff, bool_decide_eq_true.
  unfold spec_spike, spec_deviation.
  by rewrite !mean_window by done.
Qed.

Lemma moving_average_body_spec (weeks : list string) (real fake : list Z)
    (printed : list CorrelationAnalyzer.spike) (i : Z) :
  len real = len weeks → len fake = len weeks → 4 ≤ i < len weeks →
  CorrelationAnalyzer.moving_average_body 4 weeks real fake printed i
  = OK (if decide (spec_spike real fake i)
        then printed ++ [spike_at weeks real fake i] else printed)%list.
Proof.
  intros Hr Hf Hi. unfold CorrelationAnalyzer.moving_average_body.
  rewrite !(index_in_range _ _ 0) by lia. simpl.
  fold (at_ real i) (at_ fake i).
  rewrite spike_test_spec by lia.
  destruct (decide (spec_spike real fake i)).
  - rewrite bool_decide_eq_true_2 by done.
    rewrite (index_in_range _ _ "") by lia. done.
  - by rewrite bool_decide_eq_false_2 by done.
Qed.

Lemma moving_average_loop (weeks : list string) (real fake : list Z)
    (l : list Z) (printed : list CorrelationAnalyzer.spike) :
  len real = len weeks → len fake = len weeks →
  Forall (λ i, 4 ≤ i < len weeks) l →
  for_each (CorrelationAnalyzer.moving_average_body 4 weeks real fake) l printed
  = OK (printed ++ (spike_at weeks real fake <$> filter (spec_spike real fake) l))%list.
Proof.
  intros Hr Hf Hl. revert printed.
  induction Hl as [|i l Hi Hl IH]; intros printed.
  - simpl. by rewrite app_nil_r.
  - cbn [for_each]. rewrite moving_average_body_spec by done. simpl.
    rewrite IH, filter_cons.
    destruct (decide (spec_spike real fake i)); [|done].
    by rewrite <-app_assoc.
Qed.

Lemma inverse_percentage_spec (real fake : list Z) :
  1 ≤ len real →
  CorrelationAnalyzer.inverse_percentage (spec_inverse_count real fake) (len real - 1)
  = spec_inverse_pct real fake.
Proof.
  intros Hlen. unfold CorrelationAnalyzer.inverse_percentage, spec_inverse_pct.
  destruct (Z.ltb_spec 0 (len real - 1)).
  - by rewrite decide_False by lia.
  - by rewrite decide_True by lia.
Qed.

Lemma analyze_2024_spec (weeks : list string) (real fake : list Z) :
  len real = len weeks → len fake = len weeks → 1 ≤ len weeks →
  CorrelationAnalyzer.analyze_2024 weeks real fake
  = OK (CorrelationAnalyzer.pearsonr real fake,
        spec_inverse_count real fake, spec_inverse_pct real fake).
Proof.
  intros Hr Hf Hlen. unfold CorrelationAnalyzer.analyze_2024.
  rewrite week_change_loop; [|lia|rewrite Hr; apply range_bounds].
  simpl. rewrite <-Hr. fold (spec_inverse_count real fake).
  rewrite !Z.add_0_l. by rewrite inverse_percentage_spec by lia.
Qed.

(** The analysis never raises, and this is what it returns. *)
Lemma analyze_series_spec (all_weeks : list string)
    (weekly_real weekly_fake : gmap string Z) :
  let rc := counts_for weekly_real all_weeks in
  let fc := counts_for weekly_fake all_weeks in
  let w24 := weeks_2024_of all_weeks in
  let r24 := counts_for weekly_real w24 in
  let f24 := counts_for weekly_fake w24 in
  CorrelationAnalyzer.analyze_series all_weeks weekly_real weekly_fake
  = OK (CorrelationAnalyzer.mk_correlation_data all_weeks rc fc
          (if 2 <? len all_weeks
           then Some (CorrelationAnalyzer.pearsonr rc fc) else None)
          (if 4 <? len w24
           then Some (CorrelationAnalyzer.pearsonr r24 f24) else None)
          (if 4 <? len w24 then spec_inverse_count r24 f24 else 0)
          (if 4 <? len w24 then spec_inverse_pct r24 f24 else 0%Q),
        if 8 <=? len w24
        then spike_at w24 r24 f24 <$> filter (spec_spike r24 f24) (range 4 (len w24))
        else []).
Proof.
  intros rc fc w24 r24 f24. unfold CorrelationAnalyzer.analyze_series.
  fold (weeks_2024_of all_weeks). fold w24 rc fc r24 f24.
  assert (Hr : len r24 = len w24) by apply len_counts_for.
  assert (Hf : len f24 = len w24) by apply len_counts_for.
  replace (len rc) with (len all_weeks) by (symmetry; apply len_counts_for).
  destruct (Z.ltb_spec 4 (len w24)) as [H4|H4].
  - rewrite analyze_2024_spec by (done || lia). simpl.
    destruct (Z.leb_spec 8 (len w24)); [|done].
    unfold CorrelationAnalyzer.moving_average_analysis.
    rewrite moving_average_loop by (done || apply range_bounds). done.
  - simpl. destruct (Z.leb_spec 8 (len w24)); [lia|done].
Qed.

Lemma sub_range_counts (d : gmap string Z) (weeks : list string) :
  counts_for d (weeks_2024_of weeks) = sub_range_2024 weeks (counts_for d weeks).
Proof.
  unfold counts_for, weeks_2024_of, sub_range_2024.
  induction weeks as [|w l IH]; [done|].
  rewrite fmap_cons. cbn [zip zip_with]. rewrite !filter_cons. simpl.
  destruct (decide (String.prefix "2024" w = true)).
  - rewrite fmap_cons. simpl. by rewrite IH.
  - done.
Qed.

Lemma len_sub_range (d : gmap string Z) (weeks : list string) :
  len (sub_range_2024 weeks (counts_for d weeks)) = len (weeks_2024_of weeks).
Proof. rewrite <-sub_range_counts. apply len_counts_for. Qed.

(** The weekly analysis returns on every snapshot; its dictionary and the
    printed spikes are these. *)
Lemma analyze_weekly_correlation_spec (accounts : list account)
    (fake_usernames : gset string) :
  ∃ (data : CorrelationAnalyzer.correlation_data)
    (printed : list CorrelationAnalyzer.spike),
    CorrelationAnalyzer.analyze_weekly_correlation accounts fake_usernames
    = OK (data, printed)
    ∧ buckets_of CorrelationAnalyzer.week_key String.le accounts fake_usernames
        (CorrelationAnalyzer.all_weeks data)
        (CorrelationAnalyzer.real_counts data)
        (CorrelationAnalyzer.fake_counts data)
    ∧ let weeks := CorrelationAnalyzer.all_weeks data in
      let rc := CorrelationAnalyzer.real_counts data in
      let fc := CorrelationAnalyzer.fake_counts data in
      let w24 := weeks_2024_of weeks in
      let r24 := sub_range_2024 weeks rc in
      let f24 := sub_range_2024 weeks fc in
      len rc = len weeks ∧ len fc = len weeks
      ∧ len r24 = len w24 ∧ len f24 = len w24
      ∧ CorrelationAnalyzer.correlation data
        = (if 2 <? len weeks then Some (CorrelationAnalyzer.pearsonr rc fc) else None)
      ∧ CorrelationAnalyzer.correlation_2024 data
        = (if 4 <? len w24 then Some (CorrelationAnalyzer.pearsonr r24 f24) else None)
      ∧ CorrelationAnalyzer.inverse_weeks_2024 data
        = (if 4 <? len w24 then spec_inverse_count r24 f24 else 0)
      ∧ CorrelationAnalyzer.inverse_pct_2024 data
        = (if 4 <? len w24 then spec_inverse_pct r24 f24 else 0%Q)
      ∧ printed
        = (if 8 <=? len w24
           then spike_at w24 r24 f24 <$> filter (spec_spike r24 f24) (range 4 (len w24))
           else []).
Proof.
  unfold CorrelationAnalyzer.analyze_weekly_correlation.
  pose proof (group_counts_buckets CorrelationAnalyzer.week_key String.le
                fake_usernames accounts) as Hb.
  destruct (group_counts CorrelationAnalyzer.week_key accounts fake_usernames)
    as [weekly_real weekly_fake].
  rewrite analyze_series_spec. eexists _, _. split; [reflexivity|].
  cbn [CorrelationAnalyzer.all_weeks CorrelationAnalyzer.real_counts
       CorrelationAnalyzer.fake_counts CorrelationAnalyzer.correlation
       CorrelationAnalyzer.correlation_2024 CorrelationAnalyzer.inverse_weeks_2024
       CorrelationAnalyzer.inverse_pct_2024].
  split; [exact Hb|].
  rewrite <-!sub_range_counts, !len_counts_for. repeat split.
Qed.

(** *** The 2024 slice is a contiguous run of the sorted weeks *)

Lemma ascii_compare_refl (a : Ascii.ascii) : Ascii.compare a a = Eq.
Proof. unfold Ascii.compare. apply N.compare_refl. Qed.

Lemma prefix_convex (p a b c : string) :
  String.prefix p a = true → String.prefix p c = true →
  String.le a b → String.le b c → String.prefix p b = true.
Proof.
  unfold String.le, String.leb.
  revert a b c; induction p as [|x p IH]; intros a b c Ha Hc Hab Hbc.
  - by destruct b.
  - destruct a as [|xa a]; [done|]. destruct c as [|xc c]; [done|].
    simpl in Ha, Hc.
    destruct (Ascii.ascii_dec x xa) as [<-|]; [|done].
    destruct (Ascii.ascii_dec x xc) as [<-|]; [|done].
    destruct b as [|y b]; [done|]. simpl in Hab, Hbc |- *.
    destruct (Ascii.compare x y) eqn:Hxy.
    + apply Ascii.compare_eq_iff in Hxy as <-.
      rewrite ascii_compare_refl in Hbc.
      destruct (Ascii.ascii_dec x x); [|done]. by apply (IH a b c).
    + rewrite Ascii.compare_antisym, Hxy in Hbc. done.
    + done.
Qed.

Lemma filter_contiguous {A : Type} (R : relation A) (P : A → Prop)
    `{!∀ x, Decision (P x)} (l : list A) :
  (∀ a b c, P a → P c → R a b → R b c → P b) →
  StronglySorted R l →
  ∃ before after, l = (before ++ filter P l ++ after)%list
                  ∧ Forall (λ x, ¬ P x) before ∧ Forall (λ x, ¬ P x) after.
Proof.
  intros Hconvex. induction 1 as [|x l Hs IH Hall].
  - exists [], []. by repeat split.
  - destruct IH as (before & after & Hl & Hb & Ha).
    rewrite filter_cons. destruct (decide (P x)) as [Hx|Hx].
    + destruct (filter P l) as [|c fl] eqn:Hf.
      * exists [], l. repeat split; [done|].
        rewrite Hl. rewrite app_nil_l. by apply Forall_app.
      * assert (before = []) as ->.
        { destruct before as [|y before]; [done|].
          apply Forall_cons in Hb as [Hy _]. destruct Hy.
          assert (Hc : P c).
          { assert (Hcin : c ∈ filter P l) by (rewrite Hf; left).
            by apply list_elem_of_filter in Hcin as [? _]. }
          apply (Hconvex x y c Hx Hc).
          - rewrite Forall_forall in Hall. apply Hall. rewrite Hl. left.
          - rewrite Hl in Hs.
            apply (StronglySorted_app_1_elem_of R _ _ y c Hs); [left|].
            apply elem_of_app. left. left. }
        exists [], after. by rewrite Hl at 1.
    + exists (x :: before), after. repeat split; [|by constructor|done].
      simpl. by rewrite <-Hl.
Qed.

Lemma weeks_2024_contiguous (weeks : list string) :
  ascending String.le weeks →
  ∃ before after,
    weeks = (before ++ weeks_2024_of weeks ++ after)%list
    ∧ Forall (λ w, String.prefix "2024" w ≠ true) before
    ∧ Forall (λ w, String.prefix "2024" w ≠ true) after.
Proof.
  intros Hs. unfold weeks_2024_of.
  apply (filter_contiguous (λ x y, String.le x y ∧ x ≠ y)); [|done].
  intros a b c Ha Hc [Hab _] [Hbc _]. by apply (prefix_convex "2024" a b c).
Qed.

(** C2, as stated, fails on the sub-range: with three weeks of 2024 the
    overall correlation is computed (3 > 2) but the 2024 correlation is
    the undefined value, although the slice also has length 3 > 2. *)
Lemma subrange_of_three_weeks_undefined :
  ∃ data printed,
    CorrelationAnalyzer.analyze_weekly_correlation
      (weekly_snapshot three_weeks) (weekly_fakes three_weeks) = OK (data, printed)
    ∧ weeks_2024_of (CorrelationAnalyzer.all_weeks data)
      = ["2024-W01"; "2024-W02"; "2024-W03"]
    ∧ 2 < len (weeks_2024_of (CorrelationAnalyzer.all_weeks data))
    ∧ CorrelationAnalyzer.correlation data
      = Some (CorrelationAnalyzer.pearsonr [10; 7; 9] [2; 6; 3])
    ∧ CorrelationAnalyzer.correlation_2024 data = None.
Proof.
  eexists _, _. split; [vm_compute; reflexivity|].
  repeat split.
Qed.

(** C2, amended.  The weekly analysis returns on every snapshot and fake-set
    (it never raises).  The overall Pearson correlation is computed iff the
    bucketed series has more than 2 periods and is the undefined value
    [None] otherwise.  The only sub-range analysed is the 2024 slice, the
    weeks whose key starts with "2024", a contiguous run of the sorted
    weeks; its correlation is computed iff the slice has more than 4
    periods (not 2) and is [None] otherwise. *)
Theorem correlation_length_rules (accounts : list account)
    (fake_usernames : gset string) :
  ∃ data printed,
    CorrelationAnalyzer.analyze_weekly_correlation accounts fake_usernames
    = OK (data, printed)
    ∧ let weeks := CorrelationAnalyzer.all_weeks data in
      let rc := CorrelationAnalyzer.real_counts data in
      let fc := CorrelationAnalyzer.fake_counts data in
      let w24 := weeks_2024_of weeks in
      len rc = len weeks ∧ len fc = len weeks
      ∧ CorrelationAnalyzer.correlation data
        = (if 2 <? len weeks then Some (CorrelationAnalyzer.pearsonr rc fc) else None)
      ∧ (∃ before after,
           weeks = (before ++ w24 ++ after)%list
           ∧ Forall (λ w, String.prefix "2024" w ≠ true) before
           ∧ Forall (λ w, String.prefix "2024" w ≠ true) after)
      ∧ len (sub_range_2024 weeks rc) = len w24
      ∧ len (sub_range_2024 weeks fc) = len w24
      ∧ CorrelationAnalyzer.correlation_2024 data
        = (if 4 <? len w24
           then Some (CorrelationAnalyzer.pearsonr (sub_range_2024 weeks rc)
                                                   (sub_range_2024 weeks fc))
           else None).
Proof.
  destruct (analyze_weekly_correlation_spec accounts fake_usernames)
    as (data & printed & Hrun & Hb & Hrc & Hfc & Hr24 & Hf24 & Hc & Hc24 & _).
  exists data, printed. split; [exact Hrun|]. simpl.
  repeat (split; [done|]). split; [|done].
  apply weeks_2024_contiguous. by destruct Hb as [? _].
Qed.

(** ** Inverse weeks *)

(** Strictly opposite signs: the product of the deltas is negative; a zero
    delta on either side is never inverse. *)
Lemma opposite_signs_spec (dr df : Z) :
  (opposite_signs dr df ↔ Z.sgn dr * Z.sgn df = -1)
  ∧ (dr = 0 ∨ df = 0 → ¬ opposite_signs dr df).
Proof. unfold opposite_signs. split; [|lia]. destruct dr, df; simpl; lia. Qed.

(** C6, as stated, fails on its own example: with the three weeks
    real = [10, 7, 9], fake = [2, 6, 3] both pairs have opposite signs, yet
    the analysis reports 0 inverse weeks and 0 percent. *)
Lemma inverse_weeks_of_three_weeks_zero :
  ∃ data printed,
    CorrelationAnalyzer.analyze_weekly_correlation
      (weekly_snapshot three_weeks) (weekly_fakes three_weeks) = OK (data, printed)
    ∧ sub_range_2024 (CorrelationAnalyzer.all_weeks data)
                     (CorrelationAnalyzer.real_counts data) = [10; 7; 9]
    ∧ sub_range_2024 (CorrelationAnalyzer.all_weeks data)
                     (CorrelationAnalyzer.fake_counts data) = [2; 6; 3]
    ∧ spec_inverse_count [10; 7; 9] [2; 6; 3] = 2
    ∧ Qeq (spec_inverse_pct [10; 7; 9] [2; 6; 3]) 100
    ∧ CorrelationAnalyzer.inverse_weeks_2024 data = 0
    ∧ CorrelationAnalyzer.inverse_pct_2024 data = 0%Q.
Proof.
  eexists _, _. split; [vm_compute; reflexivity|].
  repeat split.
Qed.

(** C6, amended.  The week-over-week block runs only when the 2024 slice
    has more than 4 weeks.  Then, over the consecutive pairs of the slice,
    a pair is counted inverse iff its two deltas have strictly opposite
    signs (a zero delta is never inverse), the reported count is the number
    of such pairs, and the reported percentage is that count divided by
    [length - 1], times 100.  With 4 weeks or fewer, count and percentage
    are both reported as 0, which covers the case of no pair at all.  On
    real = [10, 7, 9, 6, 8], fake = [2, 6, 3, 5, 4] all four pairs are
    inverse and the percentage is 100. *)
Theorem inverse_week_counting (accounts : list account)
    (fake_usernames : gset string) :
  ∃ data printed,
    CorrelationAnalyzer.analyze_weekly_correlation accounts fake_usernames
    = OK (data, printed)
    ∧ let weeks := CorrelationAnalyzer.all_weeks data in
      let w24 := weeks_2024_of weeks in
      let r24 := sub_range_2024 weeks (CorrelationAnalyzer.real_counts data) in
      let f24 := sub_range_2024 weeks (CorrelationAnalyzer.fake_counts data) in
      len r24 = len w24 ∧ len f24 = len w24
      ∧ CorrelationAnalyzer.inverse_weeks_2024 data
        = (if 4 <? len w24 then spec_inverse_count r24 f24 else 0)
      ∧ CorrelationAnalyzer.inverse_pct_2024 data
        = (if 4 <? len w24 then spec_inverse_pct r24 f24 else 0%Q)
      ∧ (∀ dr df, opposite_signs dr df ↔ Z.sgn dr * Z.sgn df = -1)
      ∧ (∀ d, ¬ opposite_signs 0 d ∧ ¬ opposite_signs d 0)
      ∧ ∃ data5 printed5,
          CorrelationAnalyzer.analyze_weekly_correlation
            (weekly_snapshot five_weeks) (weekly_fakes five_weeks)
          = OK (data5, printed5)
          ∧ sub_range_2024 (CorrelationAnalyzer.all_weeks data5)
                           (CorrelationAnalyzer.real_counts data5) = [10; 7; 9; 6; 8]
          ∧ sub_range_2024 (CorrelationAnalyzer.all_weeks data5)
                           (CorrelationAnalyzer.fake_counts data5) = [2; 6; 3; 5; 4]
          ∧ CorrelationAnalyzer.inverse_weeks_2024 data5 = 4
          ∧ Qeq (CorrelationAnalyzer.inverse_pct_2024 data5) 100.
Proof.
  destruct (analyze_weekly_correlation_spec accounts fake_usernames)
    as (data & printed & Hrun & _ & _ & _ & Hr24 & Hf24 & _ & _ & Hinv & Hpct & _).
  exists data, printed. split; [exact Hrun|]. simpl.
  repeat (split; [done|]).
  split; [intros dr df; apply opposite_signs_spec|].
  split.
  { intros d. split; apply opposite_signs_spec; auto. }
  eexists _, _. split; [vm_compute; reflexivity|].
  repeat split.
Qed.

(** ** Moving-average spikes *)

(** C3, as stated, fails on its own example: after four weeks of
    real = 10, fake = 2, a fifth week real = 3, fake = 15 deviates by -7 and
    +13 from the four-week means, but nothing is flagged, because the
    moving-average block only runs on a slice of at least 8 weeks. *)
Lemma fifth_week_drop_not_flagged :
  ∃ data printed,
    CorrelationAnalyzer.analyze_weekly_correlation
      (weekly_snapshot baseline_then_drop) (weekly_fakes baseline_then_drop)
    = OK (data, printed)
    ∧ sub_range_2024 (CorrelationAnalyzer.all_weeks data)
                     (CorrelationAnalyzer.real_counts data) = [10; 10; 10; 10; 3]
    ∧ sub_range_2024 (CorrelationAnalyzer.all_weeks data)
                     (CorrelationAnalyzer.fake_counts data) = [2; 2; 2; 2; 15]
    ∧ Qeq (spec_deviation [10; 10; 10; 10; 3] 4) (-7)
    ∧ Qeq (spec_deviation [2; 2; 2; 2; 15] 4) 13
    ∧ spec_spike [10; 10; 10; 10; 3] [2; 2; 2; 2; 15] 4
    ∧ printed = [].
Proof.
  eexists _, _. split; [vm_compute; reflexivity|].
  repeat split.
Qed.

(** C3, amended.  The moving-average block runs only when the 2024 slice
    has at least 8 weeks; with fewer, no period is flagged.  When it runs,
    with trailing window 4, for every index i >= 4 of the slice the moving
    average is the mean of the previous 4 values, the deviation is the
    current value minus that mean, and the periods printed are, in order,
    exactly those with realDeviation < -5 and fakeDeviation > 10.  In a
    slice of 8 weeks, four weeks of real = 10, fake = 2 followed by a week
    real = 3, fake = 15 (and three more weeks of real = 10, fake = 2) flag
    exactly that fifth week; eight weeks of real = 10, fake = 2 flag none. *)
Theorem moving_average_spikes (accounts : list account)
    (fake_usernames : gset string) :
  ∃ data printed,
    CorrelationAnalyzer.analyze_weekly_correlation accounts fake_usernames
    = OK (data, printed)
    ∧ let weeks := CorrelationAnalyzer.all_weeks data in
      let w24 := weeks_2024_of weeks in
      let r24 := sub_range_2024 weeks (CorrelationAnalyzer.real_counts data) in
      let f24 := sub_range_2024 weeks (CorrelationAnalyzer.fake_counts data) in
      len r24 = len w24 ∧ len f24 = len w24
      ∧ printed
        = (if 8 <=? len w24
           then spike_at w24 r24 f24
                <$> filter (spec_spike r24 f24) (range 4 (len w24))
           else [])
      ∧ Forall (λ i,
          4 ≤ i < len w24
          ∧ Qeq (CorrelationAnalyzer.mean (slice r24 (i - 4) i)) (spec_moving_avg r24 i)
          ∧ Qeq (CorrelationAnalyzer.mean (slice f24 (i - 4) i)) (spec_moving_avg f24 i)
          ∧ Qeq (CorrelationAnalyzer.spike_real_dev (spike_at w24 r24 f24 i))
                (spec_deviation r24 i)
          ∧ Qeq (CorrelationAnalyzer.spike_fake_dev (spike_at w24 r24 f24 i))
                (spec_deviation f24 i))
          (range 4 (len w24))
      ∧ (∃ data8 sp,
          CorrelationAnalyzer.analyze_weekly_correlation
            (weekly_snapshot drop_in_eight) (weekly_fakes drop_in_eight)
          = OK (data8, [sp])
          ∧ CorrelationAnalyzer.real_counts data8 = [10; 10; 10; 10; 3; 10; 10; 10]
          ∧ CorrelationAnalyzer.fake_counts data8 = [2; 2; 2; 2; 15; 2; 2; 2]
          ∧ CorrelationAnalyzer.spike_week sp = "2024-W05"
          ∧ CorrelationAnalyzer.spike_real sp = 3
          ∧ Qeq (CorrelationAnalyzer.spike_real_ma sp) 10
          ∧ Qeq (CorrelationAnalyzer.spike_real_dev sp) (-7)
          ∧ CorrelationAnalyzer.spike_fake sp = 15
          ∧ Qeq (CorrelationAnalyzer.spike_fake_ma sp) 2
          ∧ Qeq (CorrelationAnalyzer.spike_fake_dev sp) 13)
      ∧ (∃ data8,
          CorrelationAnalyzer.analyze_weekly_correlation
            (weekly_snapshot flat_eight) (weekly_fakes flat_eight)
          = OK (data8, [])
          ∧ CorrelationAnalyzer.real_counts data8 = [10; 10; 10; 10; 10; 10; 10; 10]
          ∧ CorrelationAnalyzer.fake_counts data8 = [2; 2; 2; 2; 2; 2; 2; 2]).
Proof.
  destruct (analyze_weekly_correlation_spec accounts fake_usernames)
    as (data & printed & Hrun & _ & _ & _ & Hr24 & Hf24 & _ & _ & _ & _ & Hp).
  exists data, printed. split; [exact Hrun|]. simpl.
  split; [done|]. split; [done|]. split; [done|].
  split.
  { eapply Forall_impl; [apply range_bounds|]. intros i Hi. simpl in Hi.
    split; [done|].
    assert (Hmr := mean_window
      (sub_range_2024 (CorrelationAnalyzer.all_weeks data)
                      (CorrelationAnalyzer.real_counts data)) i).
    assert (Hmf := mean_window
      (sub_range_2024 (CorrelationAnalyzer.all_weeks data)
                      (CorrelationAnalyzer.fake_counts data)) i).
    rewrite Hr24 in Hmr. rewrite Hf24 in Hmf.
    split; [apply Hmr; lia|]. split; [apply Hmf; lia|].
    unfold spike_at, spec_deviation. simpl.
    split; [rewrite Hmr by lia|rewrite Hmf by lia]; reflexivity. }
  split.
  - eexists _, _. split; [vm_compute; reflexivity|]. repeat split.
  - eexists _. split; [vm_compute; reflexivity|]. repeat split.
Qed.

(** ** The two bucketings *)

Global Instance date_le_trans : Transitive date_le.
Proof. intros [[y1 m1] d1] [[y2 m2] d2] [[y3 m3] d3]. unfold date_le. lia. Qed.

Global Instance date_le_total : Total date_le.
Proof. intros [[y1 m1] d1] [[y2 m2] d2]. unfold date_le. lia. Qed.

Global Instance date_le_antisymm : AntiSymm (=) date_le.
Proof.
  intros [[y1 m1] d1] [[y2 m2] d2]. unfold date_le. intros H1 H2.
  assert (y1 = y2 ∧ m1 = m2 ∧ d1 = d2) as (-> & -> & ->) by lia. done.
Qed.

(** Every bucket of a bucketing holds at least one event. *)
Lemma buckets_positive {K : Type} `{Countable K} (key : account → K)
    (le : relation K) (accounts : list account) (fake_usernames : gset string)
    (periods : list K) (real_counts fake_counts : list Z) :
  buckets_of key le accounts fake_usernames periods real_counts fake_counts →
  Forall (λ rf, 0 ≤ fst rf ∧ 0 ≤ snd rf ∧ 1 ≤ fst rf + snd rf)
         (zip real_counts fake_counts).
Proof.
  intros Hb. apply Forall_lookup. intros i [r f] Hi.
  apply lookup_zip_with_Some in Hi as (r' & f' & [= <- <-] & Hr & Hf).
  simpl. by apply (buckets_nonempty key le fake_usernames accounts periods
                     real_counts fake_counts i).
Qed.

(** ** Conservation of events by a bucketing *)

(** [sum(l)] *)
Definition total (l : list Z) : Z := foldr Z.add 0 l.

Lemma total_cons (x : Z) (l : list Z) : total (x :: l) = x + total l.
Proof. reflexivity. Qed.

Lemma total_app (l k : list Z) : total (l ++ k) = total l + total k.
Proof. unfold total. induction l as [|x l IH]; simpl; lia. Qed.

Lemma ascending_NoDup {K : Type} (le : relation K) (periods : list K) :
  ascending le periods → NoDup periods.
Proof.
  unfold ascending. induction 1 as [|x l Hs IH Hall]; constructor; [|done].
  intros Hin. rewrite Forall_forall in Hall. by destruct (Hall x Hin) as [_ ?].
Qed.

Lemma total_indicator {K : Type} `{EqDecision K} (periods : list K) (k0 : K) (v : Z) :
  NoDup periods →
  total ((λ k, if decide (k0 = k) then v else 0) <$> periods)
  = if decide (k0 ∈ periods) then v else 0.
Proof.
  induction 1 as [|k l Hk Hnd IH]; [done|].
  rewrite fmap_cons. change (total (?x :: ?r)) with (x + total r).
  rewrite IH. destruct (decide (k0 = k)) as [<-|Hne].
  - rewrite decide_False by done. rewrite decide_True by left. lia.
  - destruct (decide (k0 ∈ l)).
    + rewrite decide_True by (by right). lia.
    + rewrite decide_False; [lia|]. intros [?|?]%elem_of_cons; done.
Qed.

(** Summing, over distinct periods, the events of each period that pass a
    test counts every event of the listed periods that passes it, once. *)
Lemma total_tally_by_key {K : Type} `{EqDecision K} (key : account → K)
    (P : account → Prop) `{!∀ a, Decision (P a)}
    (periods : list K) (accounts : list account) :
  NoDup periods →
  total ((λ k, tally (λ a, key a = k ∧ P a) accounts) <$> periods)
  = tally (λ a, key a ∈ periods ∧ P a) accounts.
Proof.
  intros Hnd. induction accounts as [|a l IH].
  - unfold tally, len. simpl. clear Hnd.
    induction periods as [|k ks IHk]; [done|].
    rewrite fmap_cons. change (total (?x :: ?r)) with (x + total r).
    by rewrite IHk.
  - rewrite tally_cons, <-IH.
    transitivity (total ((λ k, (if decide (key a = k)
                                then (if decide (P a) then 1 else 0) else 0)
                               + tally (λ a, key a = k ∧ P a) l) <$> periods)).
    { f_equal. apply list_fmap_ext. intros _ k _. rewrite tally_cons.
      destruct (decide (key a = k)), (decide (P a)).
      - rewrite decide_True by done. done.
      - rewrite decide_False by tauto. done.
      - rewrite decide_False by tauto. done.
      - rewrite decide_False by tauto. done. }
    assert (Hsplit : ∀ (f g : K → Z) ks,
              total ((λ k, f k + g k) <$> ks) = total (f <$> ks) + total (g <$> ks)).
    { intros f g ks. induction ks as [|k0 ks IHks]; [done|].
      rewrite !fmap_cons, !total_cons, IHks. lia. }
    rewrite Hsplit, total_indicator by done. f_equal.
    destruct (decide (key a ∈ periods)), (decide (P a)).
    + by rewrite decide_True by done.
    + by rewrite decide_False by tauto.
    + by rewrite decide_False by tauto.
    + by rewrite decide_False by tauto.
Qed.

Lemma tally_ext (P Q : account → Prop) `{!∀ a, Decision (P a), !∀ a, Decision (Q a)}
    (l : list account) :
  (∀ a, a ∈ l → P a ↔ Q a) → tally P l = tally Q l.
Proof.
  induction l as [|a l IH]; intros Hpq; [done|].
  rewrite !tally_cons, IH by (intros b Hb; apply Hpq; by right).
  assert (P a ↔ Q a) by (apply Hpq; left).
  destruct (decide (P a)), (decide (Q a)); tauto || done.
Qed.

Lemma tally_split (P : account → Prop) `{!∀ a, Decision (P a)} (l : list account) :
  tally (λ a, ¬ P a) l + tally P l = len l.
Proof.
  induction l as [|a l IH]; [done|].
  rewrite !tally_cons. unfold len in *. simpl length.
  destruct (decide (P a)), (decide (¬ P a)); try tauto; lia.
Qed.

(** A bucketing neither loses nor invents events. *)
Lemma buckets_conserve {K : Type} `{EqDecision K} (key : account → K)
    (le : relation K) (accounts : list account) (fake_usernames : gset string)
    (periods : list K) (real_counts fake_counts : list Z) :
  buckets_of key le accounts fake_usernames periods real_counts fake_counts →
  total real_counts = tally (λ a, username a ∉ fake_usernames) accounts
  ∧ total fake_counts = tally (λ a, username a ∈ fake_usernames) accounts
  ∧ total real_counts + total fake_counts = len accounts.
Proof.
  intros (Hasc & Hmem & -> & ->).
  pose proof (ascending_NoDup le periods Hasc) as Hnd.
  rewrite !total_tally_by_key by done.
  assert (Hr : tally (λ a, key a ∈ periods ∧ username a ∉ fake_usernames) accounts
               = tally (λ a, username a ∉ fake_usernames) accounts).
  { apply tally_ext. intros a Ha. split; [tauto|]. intros ?. split; [|done].
    apply Hmem. eauto. }
  assert (Hf : tally (λ a, key a ∈ periods ∧ username a ∈ fake_usernames) accounts
               = tally (λ a, username a ∈ fake_usernames) accounts).
  { apply tally_ext. intros a Ha. split; [tauto|]. intros ?. split; [|done].
    apply Hmem. eauto. }
  rewrite Hr, Hf. repeat split.
  apply (tally_split (λ a, username a ∈ fake_usernames)).
Qed.

(** ** Bucketing theorems *)

(** ** Week keys and time order *)











(** Weekly bucketing, lines 127-155 of [analyze_weekly_correlation]: the
    analysis returns on every input; its weeks are exactly the ISO-week keys
    in which some event falls, each once, in ascending order of the key;
    the two count arrays give, week by week, the events whose username is
    outside and inside the fake-set; every week listed has an event. *)
Theorem weekly_bucketing (accounts : list account) (fake_usernames : gset string) :
  ∃ data printed,
    CorrelationAnalyzer.analyze_weekly_correlation accounts fake_usernames
    = OK (data, printed)
    ∧ buckets_of CorrelationAnalyzer.week_key String.le accounts fake_usernames
        (CorrelationAnalyzer.all_weeks data)
        (CorrelationAnalyzer.real_counts data)
        (CorrelationAnalyzer.fake_counts data)
    ∧ Forall (λ rf, 0 ≤ fst rf ∧ 0 ≤ snd rf ∧ 1 ≤ fst rf + snd rf)
        (zip (CorrelationAnalyzer.real_counts data)
             (CorrelationAnalyzer.fake_counts data)).
Proof.
  destruct (analyze_weekly_correlation_spec accounts fake_usernames)
    as (data & printed & Hrun & Hb & _).
  exists data, printed. split; [done|]. split; [done|].
  by apply (buckets_positive CorrelationAnalyzer.week_key String.le accounts
              fake_usernames (CorrelationAnalyzer.all_weeks data)).
Qed.

(** Daily bucketing, lines 135-156 of [create_timeline_graph]: the same for
    calendar days, in chronological order; a day without events is not in
    the series. *)
Theorem daily_bucketing (accounts : list account) (fake_usernames : gset string) :
  ∃ dates real_counts fake_counts,
    StarTimelineVisualizer.create_timeline_graph accounts fake_usernames
    = (dates, real_counts, fake_counts)
    ∧ buckets_of StarTimelineVisualizer.day_key date_le accounts fake_usernames
        dates real_counts fake_counts
    ∧ Forall (λ rf, 0 ≤ fst rf ∧ 0 ≤ snd rf ∧ 1 ≤ fst rf + snd rf)
        (zip real_counts fake_counts).
Proof.
  unfold StarTimelineVisualizer.create_timeline_graph.
  pose proof (group_counts_buckets StarTimelineVisualizer.day_key date_le
                fake_usernames accounts) as Hb.
  destruct (group_counts StarTimelineVisualizer.day_key accounts fake_usernames)
    as [daily_real daily_fake].
  eexists _, _, _. split; [reflexivity|]. split; [exact Hb|].
  by apply (buckets_positive StarTimelineVisualizer.day_key date_le accounts
              fake_usernames (sorted_keys date_le daily_real daily_fake)).
Qed.

(** Both bucketings count every event exactly once: the real counts add up
    to the events outside the fake-set, the fake counts to those inside,
    and together to the size of the snapshot. *)
Theorem bucketing_conserves_events (accounts : list account)
    (fake_usernames : gset string) :
  (∃ data printed,
     CorrelationAnalyzer.analyze_weekly_correlation accounts fake_usernames
     = OK (data, printed)
     ∧ total (CorrelationAnalyzer.real_counts data)
       = tally (λ a, username a ∉ fake_usernames) accounts
     ∧ total (CorrelationAnalyzer.fake_counts data)
       = tally (λ a, username a ∈ fake_usernames) accounts
     ∧ total (CorrelationAnalyzer.real_counts data)
       + total (CorrelationAnalyzer.fake_counts data) = len accounts)
  ∧ (∃ dates real_counts fake_counts,
       StarTimelineVisualizer.create_timeline_graph accounts fake_usernames
       = (dates, real_counts, fake_counts)
       ∧ total real_counts = tally (λ a, username a ∉ fake_usernames) accounts
       ∧ total fake_counts = tally (λ a, username a ∈ fake_usernames) accounts
       ∧ total real_counts + total fake_counts = len accounts).
Proof.
  split.
  - destruct (analyze_weekly_correlation_spec accounts fake_usernames)
      as (data & printed & Hrun & Hb & _).
    exists data, printed. split; [done|].
    by apply (buckets_conserve CorrelationAnalyzer.week_key String.le) in Hb.
  - unfold StarTimelineVisualizer.create_timeline_graph.
    pose proof (group_counts_buckets StarTimelineVisualizer.day_key date_le
                  fake_usernames accounts) as Hb.
    destruct (group_counts StarTimelineVisualizer.day_key accounts fake_usernames)
      as [daily_real daily_fake].
    eexists _, _, _. split; [reflexivity|].
    by apply (buckets_conserve StarTimelineVisualizer.day_key date_le) in Hb.
Qed.

(** ** Further properties of the detectors and of the report *)

Lemma activity_loop_spec (l : list account)
    (out : list AdvancedAnalyzer.activity_detail) :
  (∀ a, a ∈ l → basic_flagged a = false) →
  AdvancedAnalyzer.ad_username <$> fold_left AdvancedAnalyzer.activity_body l out
  = ((AdvancedAnalyzer.ad_username <$> out)
     ++ (username <$> filter (λ a, low_activity_flag a = true) l))%list.
Proof.
  revert out; induction l as [|a l IH]; intros out Hl; simpl.
  - by rewrite app_nil_r.
  - assert (Hb : basic_flagged a = false) by (apply Hl; left).
    assert (Hd : status_deleted a = false).
    { unfold basic_flagged in Hb. by apply orb_false_iff in Hb as [_ ?]. }
    rewrite IH by (intros; apply Hl; by right).
    rewrite filter_cons. unfold AdvancedAnalyzer.activity_body, low_activity_flag.
    rewrite Hd, Hb. simpl.
    destruct ((_ =? 0) && _ && _).
    + rewrite decide_True by done. rewrite fmap_app. simpl.
      by rewrite <-app_assoc.
    + by rewrite decide_False by done.
Qed.

Lemma low_activity_flag_iff (a : account) :
  low_activity_flag a = true ↔
  basic_flagged a = false ∧ get0 (public_repos a) = 0
  ∧ get0 (followers a) < 5 ∧ get0 (following a) < 10.
Proof.
  unfold low_activity_flag.
  rewrite !andb_true_iff, negb_true_iff, Z.eqb_eq, !Z.ltb_lt. tauto.
Qed.

Lemma activity_count_spec (accounts : list account) :
  AdvancedAnalyzer.activity_suspicious_count
    (AdvancedAnalyzer.analyze_activity_diversity accounts)
  = tally (λ a, low_activity_flag a = true) accounts.
Proof.
  unfold AdvancedAnalyzer.analyze_activity_diversity. simpl.
  unfold tally, len.
  rewrite <-(length_fmap AdvancedAnalyzer.ad_username).
  rewrite activity_loop_spec
    by (intros a Ha; by apply elem_of_basic_legit in Ha as [_ ?]).
  simpl. rewrite length_fmap.
  by rewrite (filter_legit _ _ low_activity_flag_not_basic).
Qed.

(** The low-activity detector ([detect_low_activity], copied in two
    scripts, and [analyze_activity_diversity]): a username is flagged iff
    some record with that username is not basic-flagged and has, with
    missing counters read as 0, no public repository, fewer than 5
    followers and fewer than 10 following.  The three implementations flag
    the same usernames, and the count reported by
    [analyze_activity_diversity] is the number of flagged records. *)
Theorem low_activity_detector (accounts : list account) (u : string) :
  (u ∈ CorrelationAnalyzer.detect_low_activity accounts ↔
   ∃ a, a ∈ accounts ∧ username a = u ∧ basic_flagged a = false
        ∧ default 0 (public_repos a) = 0
        ∧ default 0 (followers a) < 5 ∧ default 0 (following a) < 10)
  ∧ StarTimelineVisualizer.detect_low_activity accounts
    = CorrelationAnalyzer.detect_low_activity accounts
  ∧ list_to_set (AdvancedAnalyzer.activity_suspicious_accounts
                   (AdvancedAnalyzer.analyze_activity_diversity accounts))
    = CorrelationAnalyzer.detect_low_activity accounts
  ∧ AdvancedAnalyzer.activity_suspicious_count
      (AdvancedAnalyzer.analyze_activity_diversity accounts)
    = tally (λ a, low_activity_flag a = true) accounts.
Proof.
  split; [|split; [reflexivity|split]].
  - rewrite detect_low_activity_spec, elem_of_usernames_where.
    by setoid_rewrite low_activity_flag_iff.
  - by rewrite analyze_activity_diversity_spec, detect_low_activity_spec.
  - apply activity_count_spec.
Qed.

Lemma basic_lists_Permutation (accounts : list account) :
  (AdvancedAnalyzer.basic_fake accounts ++ AdvancedAnalyzer.basic_legit accounts
     ≡ₚ accounts)%list.
Proof.
  assert (Hlegit : AdvancedAnalyzer.basic_legit accounts
                   = filter (λ a, ¬ (truthy (is_suspicious a) || status_deleted a = true))
                            accounts).
  { unfold AdvancedAnalyzer.basic_legit. apply list_filter_iff. intros a.
    rewrite basic_legit_cond. unfold basic_flagged.
    destruct (truthy _ || _); naive_solver. }
  rewrite Hlegit. apply filter_app_complement.
Qed.

Lemma basic_lists_len (accounts : list account) :
  len (AdvancedAnalyzer.basic_fake accounts)
  + len (AdvancedAnalyzer.basic_legit accounts) = len accounts.
Proof.
  unfold len. rewrite <-Nat2Z.inj_add, <-length_app.
  by rewrite basic_lists_Permutation.
Qed.

(** The partition made by [AdvancedAnalyzer.__init__]: every record is in
    exactly one of [basic_fake] and [basic_legit], both keep the input
    order, and their lengths add up to the size of the snapshot. *)
Theorem basic_partition (accounts : list account) :
  (AdvancedAnalyzer.basic_fake accounts ++ AdvancedAnalyzer.basic_legit accounts
     ≡ₚ accounts)%list
  ∧ len (AdvancedAnalyzer.basic_fake accounts)
    + len (AdvancedAnalyzer.basic_legit accounts) = len accounts
  ∧ (∀ a, a ∈ accounts ↔
          a ∈ AdvancedAnalyzer.basic_fake accounts
          ∨ a ∈ AdvancedAnalyzer.basic_legit accounts)
  ∧ (∀ a, ¬ (a ∈ AdvancedAnalyzer.basic_fake accounts
             ∧ a ∈ AdvancedAnalyzer.basic_legit accounts))
  ∧ AdvancedAnalyzer.basic_fake accounts `sublist_of` accounts
  ∧ AdvancedAnalyzer.basic_legit accounts `sublist_of` accounts.
Proof.
  split; [apply basic_lists_Permutation|].
  split; [apply basic_lists_len|].
  split.
  { intros a. rewrite elem_of_basic_fake_list, elem_of_basic_legit.
    destruct (basic_flagged a); naive_solver. }
  split.
  { intros a [[_ Hf]%elem_of_basic_fake_list [_ Hl]%elem_of_basic_legit].
    congruence. }
  split; apply sublist_filter.
Qed.

(** ** Outcomes of the entry points *)

Lemma dormant_ready_none (accounts : list account) :
  forallb dormant_ready accounts = false ↔
  ∃ a, a ∈ accounts ∧ basic_flagged a = false ∧ account_created a = None.
Proof.
  induction accounts as [|a l IH]; simpl.
  - split; [done|]. intros (a & Ha & _). by apply elem_of_nil in Ha.
  - rewrite andb_false_iff, IH. unfold dormant_ready at 1. split.
    + intros [Ha|(b & Hb & ?)].
      * exists a. split; [left|].
        destruct (basic_flagged a); [done|]. simpl in Ha.
        apply bool_decide_eq_false in Ha. split; [done|].
        destruct (account_created a); [|done]. destruct Ha. eauto.
      * exists b. split; [by right|done].
    + intros (b & [->|Hb]%elem_of_cons & Hbf & Hc).
      * left. rewrite Hbf, Hc. done.
      * right. eauto.
Qed.

Lemma index_nonempty {A : Type} (l : list A) (i : Z) :
  l ≠ [] → (i = 0 ∨ i = -1) → ∃ x, index l i = OK x.
Proof.
  intros Hne [->| ->].
  - destruct l as [|x l]; [done|]. exists x.
    apply (index_in_range (x :: l) 0 x). unfold len. simpl. lia.
  - destruct (lookup_lt_is_Some_2 l (pred (length l))) as [x Hx].
    { destruct l; [done|simpl; lia]. }
    exists x. apply index_last. by rewrite last_lookup.
Qed.

(** [main] of [run_advanced_on_collected.py]: it stops with
    [KeyError('account_created')] iff some record that is not basic-flagged
    has no [account_created]; with [IndexError] iff the snapshot is empty
    (the date-range line reads [self.accounts[0]]); it returns a report iff
    the snapshot is non-empty and every record that is not basic-flagged
    has [account_created]; it never divides by zero. *)
Theorem advanced_main_outcome (accounts : list account) :
  (AdvancedAnalyzer.main accounts = Raise (KeyError "account_created") ↔
   ∃ a, a ∈ accounts ∧ basic_flagged a = false ∧ account_created a = None)
  ∧ (AdvancedAnalyzer.main accounts = Raise IndexError ↔ accounts = [])
  ∧ ((∃ r, AdvancedAnalyzer.main accounts = OK r) ↔
     accounts ≠ []
     ∧ ∀ a, a ∈ accounts → basic_flagged a = false → is_Some (account_created a))
  ∧ AdvancedAnalyzer.main accounts ≠ Raise ZeroDivisionError.
Proof.
  assert (Hcases :
    (forallb dormant_ready accounts = false
     ∧ AdvancedAnalyzer.main accounts = Raise (KeyError "account_created"))
    ∨ (forallb dormant_ready accounts = true ∧ accounts = []
       ∧ AdvancedAnalyzer.main accounts = Raise IndexError)
    ∨ (forallb dormant_ready accounts = true ∧ accounts ≠ []
       ∧ ∃ r, AdvancedAnalyzer.main accounts = OK r)).
  { unfold AdvancedAnalyzer.main, AdvancedAnalyzer.analyze_temporal_clustering.
    rewrite analyze_temporal_clustering_with_spec, analyze_dormant_accounts_spec.
    destruct (forallb dormant_ready accounts); [|by left]. right.
    simpl. unfold AdvancedAnalyzer.generate_report.
    destruct accounts as [|a l]; [by left|]. right.
    split; [done|]. split; [done|].
    destruct (index_nonempty (a :: l) 0) as [x0 ->]; [done|by left|].
    destruct (index_nonempty (a :: l) (-1)) as [x1 ->]; [done|by right|].
    simpl. unfold CorrelationAnalyzer.percent.
    destruct (Z.eqb_spec (len (a :: l)) 0) as [He|_].
    { unfold len in He. simpl in He. lia. }
    simpl. eauto. }
  rewrite <-dormant_ready_none, <-dormant_ready_all.
  destruct Hcases as [[Hf ->]|[(Ht & -> & ->)|(Ht & Hne & r & ->)]].
  - rewrite Hf. split; [done|].
    split; [split; [done|intros ->; done]|].
    split; [split; [intros [r ?]; done|intros [_ ?]; done]|done].
  - split; [split; done|]. split; [done|].
    split; [split; [intros [r ?]; done|intros [? _]; done]|done].
  - rewrite Ht. split; [split; done|].
    split; [split; [done|intros ->; done]|].
    split; [split; eauto|done].
Qed.

Lemma usernames_where_subseteq (P : account → bool) (accounts : list account) :
  usernames_where P accounts ⊆ list_to_set (username <$> accounts).
Proof.
  intros u (a & Ha & <- & _)%elem_of_usernames_where.
  apply elem_of_list_to_set, list_elem_of_fmap. eauto.
Qed.

(** [apply_full_detection] and its copy [apply_advanced_detection]: the
    call stops with [KeyError('account_created')] iff some record that is
    not basic-flagged has no [account_created], with [ZeroDivisionError]
    iff the snapshot is empty (the percentage of the summary line), and
    returns otherwise.  A returned fake-set holds only usernames of the
    snapshot, so it has at most as many members as there are records. *)
Theorem full_detection_outcome (accounts : list account) :
  (CorrelationAnalyzer.apply_full_detection accounts
   = Raise (KeyError "account_created") ↔
   ∃ a, a ∈ accounts ∧ basic_flagged a = false ∧ account_created a = None)
  ∧ (CorrelationAnalyzer.apply_full_detection accounts = Raise ZeroDivisionError
     ↔ accounts = [])
  ∧ ((∃ all_fake, CorrelationAnalyzer.apply_full_detection accounts = OK all_fake)
     ↔ accounts ≠ []
       ∧ ∀ a, a ∈ accounts → basic_flagged a = false → is_Some (account_created a))
  ∧ (∀ all_fake,
       CorrelationAnalyzer.apply_full_detection accounts = OK all_fake →
       all_fake ⊆ list_to_set (username <$> accounts)
       ∧ (size all_fake ≤ length accounts)%nat)
  ∧ StarTimelineVisualizer.apply_advanced_detection accounts
    = CorrelationAnalyzer.apply_full_detection accounts.
Proof.
  assert (Hcopy : StarTimelineVisualizer.apply_advanced_detection accounts
                  = CorrelationAnalyzer.apply_full_detection accounts)
    by reflexivity.
  rewrite Hcopy. clear Hcopy.
  rewrite <-dormant_ready_none, <-dormant_ready_all.
  rewrite apply_full_detection_spec.
  destruct (forallb dormant_ready accounts) eqn:Hready.
  - destruct accounts as [|a l].
    + simpl. split; [split; done|]. split; [done|].
      split; [split; [intros [r ?]; done|intros [? _]; done]|].
      split; [done|reflexivity].
    + destruct (Z.eqb_spec (len (a :: l)) 0) as [He|_].
      { unfold len in He. simpl in He. lia. }
      split; [split; done|]. split; [split; done|].
      split; [split; eauto|]. split; [|reflexivity].
      intros all_fake [= <-].
      assert (Hsub : CorrelationAnalyzer.basic_fake (a :: l)
                     ∪ cluster_users (spec_qualifying 60
                         (CorrelationAnalyzer.timestamps_of (a :: l)))
                     ∪ usernames_where dormant_flag (a :: l)
                     ∪ usernames_where low_activity_flag (a :: l)
                     ⊆ list_to_set (username <$> a :: l)).
      { rewrite basic_fake_spec.
        pose proof (usernames_where_subseteq basic_flagged (a :: l)).
        pose proof (usernames_where_subseteq dormant_flag (a :: l)).
        pose proof (usernames_where_subseteq low_activity_flag (a :: l)).
        assert (cluster_users (spec_qualifying 60
                  (CorrelationAnalyzer.timestamps_of (a :: l)))
                ⊆ list_to_set (username <$> a :: l)).
        { intros u (b & Hb & <- & _)%temporal_from_pool.
          apply elem_of_list_to_set, list_elem_of_fmap. eauto. }
        unfold usernames_where in *. set_solver. }
      split; [exact Hsub|].
      etransitivity; [apply subseteq_size, Hsub|].
      etransitivity; [apply size_list_to_set_le|]. by rewrite length_fmap.
  - split; [split; done|].
    split; [split; [done|intros ->; done]|].
    split; [split; [intros [r ?]; done|intros [_ ?]; done]|].
    split; [done|reflexivity].
Qed.

Lemma full_detection_outcome_witness :
  mixed_fake ⊆ list_to_set (username <$> mixed_snapshot)
  ∧ (size mixed_fake ≤ length mixed_snapshot)%nat.
Proof.
  apply (proj1 (proj2 (proj2 (proj2 (full_detection_outcome mixed_snapshot))))).
  vm_compute. reflexivity.
Defined.

(** ** Arithmetic of the report *)

Lemma percent_bounds (n d : Z) :
  0 ≤ n ≤ d → 0 < d →
  (0 <= inject_Z n / inject_Z d * 100)%Q ∧ (inject_Z n / inject_Z d * 100 <= 100)%Q.
Proof.
  intros Hn Hd. destruct d as [|p|p]; try lia.
  unfold Qle, Qdiv, Qmult, Qinv, inject_Z. simpl.
  rewrite ?Pos.mul_1_r, ?Pos.mul_1_l. split; nia.
Qed.

Lemma size_union3_le (A B C : gset string) :
  (size (A ∪ B ∪ C) ≤ size A + size B + size C)%nat.
Proof.
  rewrite !size_union_alt.
  assert (size (C ∖ (A ∪ B)) ≤ size C)%nat by (apply subseteq_size; set_solver).
  assert (size (B ∖ A) ≤ size B)%nat by (apply subseteq_size; set_solver).
  lia.
Qed.

(** The figures of [generate_report], on any snapshot for which [main]
    returns: the total analysed is the number of records; total fake is
    the basic count plus the size of the advanced set; total fake and
    legitimate add up to the total and legitimate is never negative; the
    advanced set is no larger than the basic-excluded pool nor than the sum
    of the three detector counts; the fake percentage lies between 0 and
    100. *)
Theorem report_arithmetic (accounts : list account) (r : AdvancedAnalyzer.results) :
  AdvancedAnalyzer.main accounts = OK r →
  AdvancedAnalyzer.accounts_analyzed r = len accounts
  ∧ AdvancedAnalyzer.basic_detection_suspicious r
    = len (AdvancedAnalyzer.basic_fake accounts)
  ∧ AdvancedAnalyzer.summary_total_fake r
    = AdvancedAnalyzer.basic_detection_suspicious r + AdvancedAnalyzer.advanced_total r
  ∧ AdvancedAnalyzer.summary_total_fake r + AdvancedAnalyzer.summary_legitimate r
    = AdvancedAnalyzer.accounts_analyzed r
  ∧ 0 ≤ AdvancedAnalyzer.summary_legitimate r
  ∧ 0 ≤ AdvancedAnalyzer.advanced_total r ≤ len (AdvancedAnalyzer.basic_legit accounts)
  ∧ AdvancedAnalyzer.advanced_total r
    ≤ AdvancedAnalyzer.advanced_temporal_clustering r
      + AdvancedAnalyzer.advanced_dormant_accounts r
      + AdvancedAnalyzer.advanced_low_activity r
  ∧ (0 <= AdvancedAnalyzer.summary_fake_percentage r)%Q
  ∧ (AdvancedAnalyzer.summary_fake_percentage r <= 100)%Q.
Proof.
  intros Hmain. unfold AdvancedAnalyzer.main in Hmain.
  destruct (AdvancedAnalyzer.analyze_temporal_clustering accounts)
    as [temporal|] eqn:Ht; [|done].
  destruct (AdvancedAnalyzer.analyze_dormant_accounts accounts)
    as [dormant|] eqn:Hd; [|done].
  simpl in Hmain.
  pose proof (all_suspicious_spec accounts temporal dormant Ht Hd) as Hadv.
  set (T := cluster_users (spec_qualifying 60 (CorrelationAnalyzer.timestamps_of accounts))) in *.
  set (D := usernames_where dormant_flag accounts) in *.
  set (L := usernames_where low_activity_flag accounts) in *.
  assert (Hpool : T ∪ D ∪ L
                  ⊆ list_to_set (username <$> AdvancedAnalyzer.basic_legit accounts)).
  { intros u Hu. apply elem_of_list_to_set, list_elem_of_fmap.
    assert (∃ a, a ∈ accounts ∧ username a = u ∧ basic_flagged a = false)
      as (a & Ha & Hn & Hb).
    { rewrite !elem_of_union in Hu. destruct Hu as [[Hu|Hu]|Hu].
      - by apply temporal_from_pool in Hu.
      - apply elem_of_usernames_where in Hu
          as (a & ? & ? & ?%dormant_flag_not_basic). eauto.
      - apply elem_of_usernames_where in Hu
          as (a & ? & ? & ?%low_activity_flag_not_basic). eauto. }
    exists a. split; [done|]. by apply elem_of_basic_legit. }
  assert (Hsz : (size (T ∪ D ∪ L) ≤ length (AdvancedAnalyzer.basic_legit accounts))%nat).
  { etransitivity; [apply subseteq_size, Hpool|].
    etransitivity; [apply size_list_to_set_le|]. by rewrite length_fmap. }
  pose proof (basic_lists_len accounts) as Hlen.
  assert (HcT : AdvancedAnalyzer.temporal_suspicious_count temporal = Z.of_nat (size T)).
  { unfold AdvancedAnalyzer.analyze_temporal_clustering in Ht.
    rewrite analyze_temporal_clustering_with_spec in Ht. by injection Ht as <-. }
  assert (HcD : Z.of_nat (size D) ≤ AdvancedAnalyzer.dormant_suspicious_count dormant).
  { rewrite analyze_dormant_accounts_spec in Hd.
    destruct (forallb dormant_ready accounts); [|done]. injection Hd as <-.
    simpl. unfold len. rewrite (Permutation_length (sort_by_Permutation _ _)).
    rewrite length_fmap. subst D. unfold usernames_where.
    etransitivity; [apply inj_le, size_list_to_set_le|]. by rewrite length_fmap. }
  assert (HcL : Z.of_nat (size L)
                ≤ AdvancedAnalyzer.activity_suspicious_count
                    (AdvancedAnalyzer.analyze_activity_diversity accounts)).
  { rewrite activity_count_spec.
    subst L. unfold usernames_where, tally, len.
    etransitivity; [apply inj_le, size_list_to_set_le|]. by rewrite length_fmap. }
  pose proof (size_union3_le T D L) as Hu3.
  unfold AdvancedAnalyzer.generate_report in Hmain. rewrite Hadv in Hmain.
  clear Hadv.
  set (act := AdvancedAnalyzer.analyze_activity_diversity accounts) in *.
  clearbody act.
  destruct (index accounts 0) as [first_acc|] eqn:Hi0; [|done].
  destruct (index accounts (-1)) as [last_acc|]; [|done]. simpl in Hmain.
  apply index_ok_nonempty in Hi0.
  unfold CorrelationAnalyzer.percent in Hmain.
  destruct (Z.eqb_spec (len accounts) 0); [done|]. simpl in Hmain.
  injection Hmain as <-. simpl.
  assert (0 ≤ len (AdvancedAnalyzer.basic_fake accounts)) by (unfold len; lia).
  assert (0 < len accounts) by (unfold len in *; lia).
  repeat (split; [unfold len in *; lia|]).
  apply percent_bounds; unfold len in *; lia.
Qed.

Lemma report_arithmetic_witness :
  ∃ r, AdvancedAnalyzer.main mixed_snapshot = OK r
       ∧ AdvancedAnalyzer.summary_total_fake r + AdvancedAnalyzer.summary_legitimate r
         = AdvancedAnalyzer.accounts_analyzed r
       ∧ 0 ≤ AdvancedAnalyzer.summary_legitimate r.
Proof.
  destruct (AdvancedAnalyzer.main mixed_snapshot) as [r|] eqn:Hmain;
    [|vm_compute in Hmain; discriminate Hmain].
  exists r. split; [reflexivity|].
  destruct (report_arithmetic mixed_snapshot r Hmain)
    as (_ & _ & _ & Hsum & Hlegit & _).
  split; assumption.
Defined.

(** ** The dormant report *)

Lemma Sorted_weaken {A : Type} (R R' : relation A) (l : list A) :
  (∀ x y, R x y → R' x y) → Sorted R l → Sorted R' l.
Proof.
  intros HR. induction 1 as [|x l Hs IH Hhd]; constructor; [done|].
  destruct Hhd; constructor. auto.
Qed.

(** What [analyze_dormant_accounts] returns when it returns: one detail
    per flagged record of the pool, listed by account age in descending
    order; every detail has an age above 365 days and fewer than 3 public
    repositories; the count is the number of details and the usernames are
    read off the details in the same order. *)
Theorem dormant_report_sorted (accounts : list account)
    (r : AdvancedAnalyzer.dormant_result) :
  AdvancedAnalyzer.analyze_dormant_accounts accounts = OK r →
  AdvancedAnalyzer.dormant_suspicious_count r
  = len (AdvancedAnalyzer.dormant_details r)
  ∧ AdvancedAnalyzer.dormant_suspicious_accounts r
    = AdvancedAnalyzer.dd_username <$> AdvancedAnalyzer.dormant_details r
  ∧ AdvancedAnalyzer.dormant_details r
    ≡ₚ dormant_detail_of
       <$> filter (λ a, dormant_flag a = true) (AdvancedAnalyzer.basic_legit accounts)
  ∧ Sorted (λ x y, AdvancedAnalyzer.dd_account_age_days y
                   ≤ AdvancedAnalyzer.dd_account_age_days x)
           (AdvancedAnalyzer.dormant_details r)
  ∧ Forall (λ d, 365 < AdvancedAnalyzer.dd_account_age_days d
                 ∧ AdvancedAnalyzer.dd_public_repos d < 3)
           (AdvancedAnalyzer.dormant_details r).
Proof.
  intros Hrun. rewrite analyze_dormant_accounts_spec in Hrun.
  destruct (forallb dormant_ready accounts); [|done]. injection Hrun as <-.
  simpl. split; [done|]. split; [done|].
  rewrite (filter_legit _ _ dormant_flag_not_basic).
  split; [apply sort_by_Permutation|]. split.
  - eapply Sorted_weaken; [|apply sort_by_sorted]. simpl. intros x y. lia.
  - rewrite sort_by_Permutation. apply Forall_fmap, Forall_forall.
    intros a [Hf _]%list_elem_of_filter. simpl.
    apply dormant_flag_created in Hf as (c & -> & ? & ?). done.
Qed.

Lemma dormant_report_sorted_witness :
  ∃ r, AdvancedAnalyzer.analyze_dormant_accounts [sleeper3; sleeper2] = OK r
       ∧ AdvancedAnalyzer.dormant_suspicious_count r
         = len (AdvancedAnalyzer.dormant_details r)
       ∧ AdvancedAnalyzer.dormant_suspicious_accounts r = ["sleeper2"].
Proof.
  destruct (AdvancedAnalyzer.analyze_dormant_accounts [sleeper3; sleeper2])
    as [r|] eqn:Hrun; [|vm_compute in Hrun; discriminate Hrun].
  exists r. split; [reflexivity|].
  split; [exact (proj1 (dormant_report_sorted _ r Hrun))|].
  assert (Hr : OK r = AdvancedAnalyzer.analyze_dormant_accounts [sleeper3; sleeper2])
    by (symmetry; exact Hrun).
  vm_compute in Hr. injection Hr as ->. reflexivity.
Defined.

(** ** The shape of the temporal clusters *)

(** A cluster is a non-empty run in which every event is within
    [threshold] minutes of the one before it. *)
Definition well_chained (threshold : Z) (cluster : list stamp) : Prop :=
  match cluster with
  | [] => False
  | first :: rest => chained threshold (snd first) rest
  end.

(** The gap between the last event of [c1] and the first event of [c2] is
    more than [threshold] minutes. *)
Definition cut (threshold : Z) (c1 c2 : list stamp) : Prop :=
  match last c1, c2 with
  | Some a, b :: _ => gap_within threshold (snd a) (snd b) = false
  | _, _ => False
  end.

(** Each run is cut from the next one. *)
Fixpoint separated (threshold : Z) (runs : list (list stamp)) : Prop :=
  match runs with
  | [] => True
  | c1 :: rest =>
      match rest with [] => True | c2 :: _ => cut threshold c1 c2 end
      ∧ separated threshold rest
  end.

Lemma spec_scan_runs (threshold : Z) (events cur : list stamp) (lst : stamp) :
  last cur = Some lst →
  let '(closed, final) := spec_scan threshold cur (snd lst) events in
  ∃ tl rest,
    (closed ++ [final] = (cur ++ tl) :: rest)%list
    ∧ chained threshold (snd lst) tl
    ∧ Forall (well_chained threshold) rest
    ∧ separated threshold ((cur ++ tl)%list :: rest).
Proof.
  revert cur lst; induction events as [|e events IH]; intros cur lst Hl; simpl.
  - exists [], []. rewrite app_nil_r. simpl. by repeat split.
  - destruct (gap_within threshold lst.2 e.2) eqn:Hg.
    + specialize (IH (cur ++ [e])%list e (last_snoc _ _)).
      destruct (spec_scan _ _ _ _) as [closed final].
      destruct IH as (tl & rest & Heq & Hc & Hw & Hs).
      exists (e :: tl), rest. rewrite <-app_assoc in Heq, Hs.
      split; [exact Heq|]. split; [by split|]. split; [exact Hw|exact Hs].
    + specialize (IH [e] e eq_refl).
      destruct (spec_scan _ _ _ _) as [closed final].
      destruct IH as (tl & rest & Heq & Hc & Hw & Hs).
      exists [], ((e :: tl) :: rest). simpl in *. rewrite app_nil_r, Heq.
      split; [done|]. split; [done|]. split.
      * by constructor.
      * split; [|done]. unfold cut. by rewrite Hl.
Qed.

Lemma spec_clusters_runs (threshold : Z) (events : list stamp) :
  Forall (well_chained threshold) (spec_clusters threshold events)
  ∧ separated threshold (spec_clusters threshold events).
Proof.
  unfold spec_clusters. destruct events as [|x rest]; [by split|].
  pose proof (spec_scan_runs threshold rest [x] x eq_refl) as H.
  destruct (spec_scan _ _ _ _) as [closed final].
  destruct H as (tl & others & -> & Hc & Hw & Hs). split; [|done].
  by constructor.
Qed.

Lemma concat_filter_length {A : Type} (P : list A → Prop)
    `{!∀ c, Decision (P c)} (ls : list (list A)) :
  (length (concat (filter P ls)) ≤ length (concat ls))%nat.
Proof.
  induction ls as [|c ls IH]; [done|]. rewrite filter_cons.
  destruct (decide (P c)); simpl; rewrite !length_app; lia.
Qed.

Lemma concat_long_length {A : Type} (n : nat) (ls : list (list A)) :
  Forall (λ c, (n ≤ length c)%nat) ls →
  (n * length ls ≤ length (concat ls))%nat.
Proof.
  induction 1 as [|c ls Hc _ IH]; simpl; [lia|]. rewrite length_app. lia.
Qed.

Lemma spec_qualifying_count (threshold : Z) (events : list stamp) :
  10 * len (spec_qualifying threshold events) ≤ len events.
Proof.
  unfold spec_qualifying, len.
  pose proof (concat_filter_length (λ c, qualifies c = true)
                (spec_clusters threshold events)) as H1.
  rewrite spec_clusters_concat in H1.
  assert (H2 : Forall (λ c : list stamp, (10 ≤ length c)%nat)
                 (filter (λ c, qualifies c = true) (spec_clusters threshold events))).
  { apply Forall_forall. intros c [Hq _]%list_elem_of_filter.
    unfold qualifies, len in Hq. apply Z.leb_le in Hq. lia. }
  apply concat_long_length in H2. lia.
Qed.

Lemma len_timestamps_of (accounts : list account) :
  len (CorrelationAnalyzer.timestamps_of accounts)
  = len (AdvancedAnalyzer.basic_legit accounts).
Proof.
  unfold len, CorrelationAnalyzer.timestamps_of.
  rewrite (Permutation_length (sort_by_Permutation _ _)).
  by rewrite length_fmap.
Qed.

(** The clusters reported by [analyze_temporal_clustering]: the sorted
    events of the pool split into consecutive runs such that inside a run
    every event is at most 60 minutes after the one before it, and between
    two neighbouring runs the gap is more than 60 minutes; the reported
    clusters are exactly the runs with at least 10 events, in time order.
    Hence ten times the number of clusters never exceeds the size of the
    pool, and [detect_temporal_clustering] returns the usernames of the
    members of those clusters. *)
Theorem temporal_clusters_structure (accounts : list account) :
  let events := CorrelationAnalyzer.timestamps_of accounts in
  ∃ r runs,
    AdvancedAnalyzer.analyze_temporal_clustering accounts = OK r
    ∧ concat runs = events
    ∧ Forall (well_chained 60) runs
    ∧ separated 60 runs
    ∧ AdvancedAnalyzer.clusters r = filter (λ c, 10 ≤ len c) runs
    ∧ 10 * len (AdvancedAnalyzer.clusters r)
      ≤ len (AdvancedAnalyzer.basic_legit accounts)
    ∧ CorrelationAnalyzer.detect_temporal_clustering accounts
      = OK (list_to_set (fst <$> concat (AdvancedAnalyzer.clusters r)))
    ∧ AdvancedAnalyzer.temporal_suspicious_count r
      = Z.of_nat (size (list_to_set (C := gset string)
                          (fst <$> concat (AdvancedAnalyzer.clusters r)))).
Proof.
  intros events. eexists. exists (spec_clusters 60 events).
  split.
  { unfold AdvancedAnalyzer.analyze_temporal_clustering.
    apply analyze_temporal_clustering_with_spec. }
  simpl. fold events.
  split; [apply spec_clusters_concat|].
  split; [apply spec_clusters_runs|].
  split; [apply spec_clusters_runs|].
  split.
  { unfold spec_qualifying. apply list_filter_iff. intros c.
    unfold qualifies. by rewrite Z.leb_le. }
  split.
  { rewrite <-len_timestamps_of. apply spec_qualifying_count. }
  split; [|done].
  unfold CorrelationAnalyzer.detect_temporal_clustering.
  by rewrite detect_temporal_clustering_with_spec.
Qed.

(** With fewer than 10 events in the pool the temporal detectors find no
    cluster and flag nobody. *)
Theorem small_pool_no_cluster (accounts : list account) :
  len (AdvancedAnalyzer.basic_legit accounts) < 10 →
  AdvancedAnalyzer.analyze_temporal_clustering accounts
  = OK (AdvancedAnalyzer.mk_temporal_result [] 0 [])
  ∧ CorrelationAnalyzer.detect_temporal_clustering accounts = OK ∅
  ∧ StarTimelineVisualizer.detect_temporal_clustering accounts = OK ∅.
Proof.
  intros Hsmall.
  assert (Hq : spec_qualifying 60 (CorrelationAnalyzer.timestamps_of accounts) = []).
  { pose proof (spec_qualifying_count 60 (CorrelationAnalyzer.timestamps_of accounts)) as H.
    rewrite len_timestamps_of in H.
    destruct (spec_qualifying _ _); [done|]. unfold len in *. simpl in H. lia. }
  unfold AdvancedAnalyzer.analyze_temporal_clustering,
    StarTimelineVisualizer.detect_temporal_clustering,
    CorrelationAnalyzer.detect_temporal_clustering.
  rewrite analyze_temporal_clustering_with_spec,
    detect_temporal_clustering_with_spec, Hq.
  split; [|by split]. simpl. f_equal.
Qed.

Lemma small_pool_no_cluster_witness :
  len (AdvancedAnalyzer.basic_legit (burst "n" 5 9)) < 10
  ∧ CorrelationAnalyzer.detect_temporal_clustering (burst "n" 5 9) = OK ∅.
Proof.
  assert (H : len (AdvancedAnalyzer.basic_legit (burst "n" 5 9)) < 10)
    by (vm_compute; reflexivity).
  split; [exact H|].
  exact (proj1 (proj2 (small_pool_no_cluster _ H))).
Defined.

(** ** Bounds on the week-over-week summary *)

Lemma len_range (a b : Z) : len (range a b) = Z.max 0 (b - a).
Proof. unfold len, range. rewrite length_fmap, length_seq. lia. Qed.

Lemma filter_exclusive_length {A : Type} (P R : A → Prop)
    `{!∀ x, Decision (P x)} `{!∀ x, Decision (R x)} (l : list A) :
  (∀ x, P x → R x → False) →
  (length (filter P l) + length (filter R l) ≤ length l)%nat.
Proof.
  intros Hex. induction l as [|x l IH]; [done|]. rewrite !filter_cons.
  destruct (decide (P x)) as [HP|HP], (decide (R x)) as [HR|HR]; simpl;
    try lia.
  destruct (Hex x HP HR).
Qed.

Lemma week_counts_bounds (real fake : list Z) :
  0 ≤ spec_inverse_count real fake
  ∧ 0 ≤ spec_same_count real fake
  ∧ spec_inverse_count real fake + spec_same_count real fake
    ≤ Z.max 0 (len real - 1).
Proof.
  unfold spec_inverse_count, spec_same_count.
  pose proof (len_range 1 (len real)) as Hr.
  pose proof (filter_exclusive_length
                (λ i, opposite_signs (delta real i) (delta fake i))
                (λ i, notable_same (delta real i) (delta fake i))
                (range 1 (len real))) as H.
  assert (H' := H (λ i Ho Hn, proj1 Hn Ho)).
  set (n := len real) in *. unfold len in *. lia.
Qed.

Lemma week_counts_sym (real fake : list Z) :
  len fake = len real →
  spec_inverse_count fake real = spec_inverse_count real fake
  ∧ spec_same_count fake real = spec_same_count real fake.
Proof.
  intros Hlen. unfold spec_inverse_count, spec_same_count. rewrite Hlen.
  split; f_equal; apply list_filter_iff; intros i;
    unfold notable_same, opposite_signs; tauto.
Qed.

Lemma spec_inverse_pct_bounds (real fake : list Z) :
  (0 <= spec_inverse_pct real fake)%Q ∧ (spec_inverse_pct real fake <= 100)%Q.
Proof.
  unfold spec_inverse_pct.
  destruct (decide (len real - 1 = 0)); [by split|].
  pose proof (week_counts_bounds real fake) as (H0 & H1 & H2).
  destruct real as [|x real]; [by split|].
  assert (0 < len (x :: real)) by (unfold len; simpl; lia).
  apply percent_bounds; lia.
Qed.

(** The week-over-week loop over two series of equal length returns; its
    two counters are non-negative and count disjoint sets of pairs, so
    together they never exceed the number of consecutive pairs; exchanging
    the roles of the real and the fake series gives the same counters; and
    the percentage computed from the inverse counter lies in [0, 100]. *)
Theorem week_over_week_counts (real fake : list Z) :
  len fake = len real →
  ∃ inverse_weeks same_direction_weeks,
    for_each (CorrelationAnalyzer.week_change_body real fake)
             (range 1 (len real)) (0, 0)
    = OK (inverse_weeks, same_direction_weeks)
    ∧ 0 ≤ inverse_weeks ∧ 0 ≤ same_direction_weeks
    ∧ inverse_weeks + same_direction_weeks ≤ Z.max 0 (len real - 1)
    ∧ for_each (CorrelationAnalyzer.week_change_body fake real)
               (range 1 (len fake)) (0, 0)
      = OK (inverse_weeks, same_direction_weeks)
    ∧ (0 <= CorrelationAnalyzer.inverse_percentage inverse_weeks (len real - 1))%Q
    ∧ (CorrelationAnalyzer.inverse_percentage inverse_weeks (len real - 1) <= 100)%Q.
Proof.
  intros Hlen.
  exists (spec_inverse_count real fake), (spec_same_count real fake).
  split.
  { rewrite week_change_loop by (done || apply range_bounds).
    by rewrite !Z.add_0_l. }
  pose proof (week_counts_bounds real fake) as (H0 & H1 & H2).
  repeat (split; [done|]).
  split.
  { rewrite week_change_loop by (done || apply range_bounds).
    rewrite !Z.add_0_l.
    by destruct (week_counts_sym real fake Hlen) as [<- <-]. }
  unfold CorrelationAnalyzer.inverse_percentage.
  destruct (Z.ltb_spec 0 (len real - 1)); [|by split].
  apply percent_bounds; lia.
Qed.

Lemma week_over_week_counts_witness :
  ∃ inverse_weeks same_direction_weeks,
    for_each (CorrelationAnalyzer.week_change_body [10; 7; 20] [2; 6; 13])
             (range 1 3) (0, 0)
    = OK (inverse_weeks, same_direction_weeks)
    ∧ inverse_weeks + same_direction_weeks ≤ 2.
Proof.
  destruct (week_over_week_counts [10; 7; 20] [2; 6; 13] eq_refl)
    as (inv & same & Hrun & _ & _ & Hsum & _).
  exists inv, same. split; [exact Hrun|exact Hsum].
Defined.

(** What [analyze_weekly_correlation] reports about 2024: the number of
    inverse weeks is between 0 and the number of consecutive pairs of the
    2024 slice, the inverse percentage lies in [0, 100], both are 0 exactly
    when no 2024 correlation is reported or no pair is inverse, and the
    overall correlation is reported iff there are more than 2 weeks. *)
Theorem weekly_summary_bounds (accounts : list account)
    (fake_usernames : gset string) :
  ∃ data printed,
    CorrelationAnalyzer.analyze_weekly_correlation accounts fake_usernames
    = OK (data, printed)
    ∧ let w24 := weeks_2024_of (CorrelationAnalyzer.all_weeks data) in
      0 ≤ CorrelationAnalyzer.inverse_weeks_2024 data
      ∧ CorrelationAnalyzer.inverse_weeks_2024 data ≤ Z.max 0 (len w24 - 1)
      ∧ (0 <= CorrelationAnalyzer.inverse_pct_2024 data)%Q
      ∧ (CorrelationAnalyzer.inverse_pct_2024 data <= 100)%Q
      ∧ (CorrelationAnalyzer.inverse_weeks_2024 data = 0
         ↔ Qeq (CorrelationAnalyzer.inverse_pct_2024 data) 0)
      ∧ (CorrelationAnalyzer.correlation_2024 data = None
         ↔ len w24 ≤ 4)
      ∧ (CorrelationAnalyzer.correlation data = None
         ↔ len (CorrelationAnalyzer.all_weeks data) ≤ 2)
      ∧ len w24 ≤ len (CorrelationAnalyzer.all_weeks data).
Proof.
  destruct (analyze_weekly_correlation_spec accounts fake_usernames)
    as (data & printed & Hrun & _ & _ & _ & Hr24 & Hf24 & Hc & Hc24 & Hinv & Hpct & _).
  exists data, printed. split; [exact Hrun|]. intros w24.
  set (r24 := sub_range_2024 (CorrelationAnalyzer.all_weeks data)
                (CorrelationAnalyzer.real_counts data)) in *.
  set (f24 := sub_range_2024 (CorrelationAnalyzer.all_weeks data)
                (CorrelationAnalyzer.fake_counts data)) in *.
  fold w24 in Hr24, Hf24, Hc24, Hinv, Hpct.
  pose proof (week_counts_bounds r24 f24) as (H0 & H1 & H2).
  pose proof (spec_inverse_pct_bounds r24 f24) as [Hp0 Hp1].
  rewrite Hinv, Hpct, Hc, Hc24.
  assert (Hw : len w24 ≤ len (CorrelationAnalyzer.all_weeks data)).
  { unfold w24, weeks_2024_of, len. apply inj_le, length_filter. }
  destruct (Z.ltb_spec 4 (len w24)) as [H4|H4].
  - split; [done|]. split; [lia|]. split; [done|]. split; [done|].
    split.
    { unfold spec_inverse_pct. rewrite decide_False by lia.
      unfold Qeq, Qdiv, Qmult, Qinv, inject_Z. simpl.
      destruct (len r24 - 1) as [|p|p] eqn:Hp; [lia| |lia]. simpl. lia. }
    split; [split; [done|lia]|].
    split; [|done].
    destruct (Z.ltb_spec 2 (len (CorrelationAnalyzer.all_weeks data)));
      split; (done || lia).
  - split; [done|]. split; [lia|]. split; [done|]. split; [done|].
    split; [done|]. split; [done|]. split; [|done].
    destruct (Z.ltb_spec 2 (len (CorrelationAnalyzer.all_weeks data)));
      split; (done || lia).
Qed.

(** ** The summary around the spike window *)

Lemma sum_of_total (l : list Z) : sum_of l = total l.
Proof.
  unfold sum_of, total.
  assert (H : ∀ acc, fold_left Z.add l acc = acc + foldr Z.add 0 l).
  { induction l as [|x l IH]; intros acc; simpl; [lia|]. rewrite IH. lia. }
  rewrite H. lia.
Qed.

Lemma total_ge_len (l : list Z) : Forall (λ x, 1 ≤ x) l → len l ≤ total l.
Proof.
  induction 1 as [|x l Hx _ IH]; [done|].
  rewrite total_cons. unfold len in *. simpl length. lia.
Qed.

Lemma tally_by_fake (P : account → Prop) `{!∀ a, Decision (P a)}
    (fake_usernames : gset string) (l : list account) :
  tally (λ a, P a ∧ username a ∉ fake_usernames) l
  + tally (λ a, P a ∧ username a ∈ fake_usernames) l
  = tally P l.
Proof.
  induction l as [|a l IH]; [done|]. rewrite !tally_cons, <-IH.
  destruct (decide (P a ∧ username a ∉ fake_usernames)),
    (decide (P a ∧ username a ∈ fake_usernames)), (decide (P a));
    first [lia | exfalso; tauto].
Qed.

Section DaySums.
Context {K : Type} `{Countable K}.
Variable key : account → K.
Variable le : relation K.
Context `{!RelDecision le, !Transitive le, !Total le, !AntiSymm (=) le}.
Variable fake_usernames : gset string.
Variable P : K → Prop.
Context `{!∀ k, Decision (P k)}.

(** Summing a dictionary of the bucketing over the periods that pass a
    test counts the events whose period passes it. *)
Lemma bucket_sums (accounts : list account) :
  let '(real, fake) := group_counts key accounts fake_usernames in
  let chosen := filter P (sorted_keys le real fake) in
  sum_of (dd_get real <$> chosen)
  = tally (λ a, P (key a) ∧ username a ∉ fake_usernames) accounts
  ∧ sum_of (dd_get fake <$> chosen)
    = tally (λ a, P (key a) ∧ username a ∈ fake_usernames) accounts
  ∧ len chosen ≤ tally (λ a, P (key a)) accounts
  ∧ (len chosen = 0 ↔ tally (λ a, P (key a)) accounts = 0).
Proof.
  unfold group_counts.
  pose proof (count_loop_spec key le fake_usernames accounts ∅ ∅) as Hloop.
  destruct (fold_left _ accounts _) as [real fake].
  destruct Hloop as (Hr & Hf & Hdom).
  set (chosen := filter P (sorted_keys le real fake)).
  assert (Hmem : ∀ k, k ∈ chosen ↔ P k ∧ ∃ a, a ∈ accounts ∧ key a = k).
  { intros k. unfold chosen.
    rewrite list_elem_of_filter, elem_of_sorted_keys, Hdom.
    rewrite !dom_empty_L, !(left_id_L ∅ (∪)), elem_of_list_to_set, list_elem_of_fmap.
    naive_solver. }
  assert (Hnd : NoDup chosen).
  { apply NoDup_filter, (ascending_NoDup le), sorted_keys_ascending; apply _. }
  assert (Hsum : ∀ (Q : account → Prop) `{!∀ a, Decision (Q a)},
            total ((λ k, tally (λ a, key a = k ∧ Q a) accounts) <$> chosen)
            = tally (λ a, P (key a) ∧ Q a) accounts).
  { intros Q ?. rewrite total_tally_by_key by done. apply tally_ext.
    intros a Ha. rewrite Hmem. naive_solver. }
  split.
  { rewrite sum_of_total, <-Hsum. f_equal. apply list_fmap_ext.
    intros i k _. rewrite Hr. unfold dd_get at 1. rewrite lookup_empty. simpl. lia. }
  split.
  { rewrite sum_of_total, <-Hsum. f_equal. apply list_fmap_ext.
    intros i k _. rewrite Hf. unfold dd_get at 1. rewrite lookup_empty. simpl. lia. }
  assert (Hall : tally (λ a, P (key a)) accounts
                 = total ((λ k, tally (λ a, key a = k ∧ True) accounts) <$> chosen)).
  { rewrite Hsum. apply tally_ext. tauto. }
  assert (Hle : len chosen ≤ tally (λ a, P (key a)) accounts).
  { rewrite Hall.
    replace (len chosen)
      with (len ((λ k, tally (λ a, key a = k ∧ True) accounts) <$> chosen))
      by (unfold len; by rewrite length_fmap).
    apply total_ge_len, Forall_fmap, Forall_forall. intros k Hk. simpl.
    apply Hmem in Hk as (_ & a & Ha & Hka).
    assert (0 < tally (λ a, key a = k ∧ True) accounts) by (apply tally_pos; eauto).
    lia. }
  split; [exact Hle|]. split.
  - intros Hz. rewrite Hall. clearbody chosen. destruct chosen; [done|].
    unfold len in Hz. simpl in Hz. lia.
  - intros Hz. assert (0 ≤ len chosen) by (unfold len; lia). lia.
Qed.

End DaySums.

Lemma date_split (spike_start spike_end d : date) :
  date_le spike_start spike_end →
  (date_lt d spike_start ∧ ¬ in_window spike_start spike_end d ∧ ¬ date_lt spike_end d)
  ∨ (¬ date_lt d spike_start ∧ in_window spike_start spike_end d ∧ ¬ date_lt spike_end d)
  ∨ (¬ date_lt d spike_start ∧ ¬ in_window spike_start spike_end d ∧ date_lt spike_end d).
Proof.
  destruct spike_start as [[y1 m1] d1], spike_end as [[y2 m2] d2], d as [[y m] dd].
  unfold in_window, date_lt, date_le. lia.
Qed.

Lemma tally_three (accounts : list account) (spike_start spike_end : date) :
  date_le spike_start spike_end →
  tally (λ a, date_lt (StarTimelineVisualizer.day_key a) spike_start) accounts
  + tally (λ a, in_window spike_start spike_end (StarTimelineVisualizer.day_key a)) accounts
  + tally (λ a, date_lt spike_end (StarTimelineVisualizer.day_key a)) accounts
  = len accounts.
Proof.
  intros Hle. induction accounts as [|a l IH]; [done|].
  rewrite !tally_cons. unfold len in *. simpl length.
  pose proof (date_split spike_start spike_end (StarTimelineVisualizer.day_key a) Hle).
  destruct (decide (date_lt _ spike_start)), (decide (in_window _ _ _)),
    (decide (date_lt spike_end _)); first [lia | exfalso; tauto].
Qed.

Lemma print_period_spec (days : list date) (real fake : Z) :
  0 ≤ real → 0 ≤ fake → len days ≤ real + fake →
  (len days = 0 ↔ real + fake = 0) →
  if decide (real + fake = 0)
  then StarTimelineVisualizer.print_period days real fake = Raise ZeroDivisionError
  else ∃ p, StarTimelineVisualizer.print_period days real fake = OK p ∧ period_ok p real fake
            ∧ StarTimelineVisualizer.duration p = len days.
Proof.
  intros Hr Hf Hle Hz. unfold StarTimelineVisualizer.print_period, CorrelationAnalyzer.percent, true_div.
  destruct (decide (real + fake = 0)) as [H0|H0].
  - by rewrite H0.
  - destruct (Z.eqb_spec (real + fake) 0); [done|]. simpl.
    assert (Hd : 1 ≤ len days) by (unfold len in *; lia).
    destruct (Z.eqb_spec (len days) 0); [lia|]. simpl.
    eexists. split; [reflexivity|]. split; [|done]. unfold period_ok. simpl.
    split; [done|]. split; [done|]. split; [done|]. split; [lia|].
    destruct (real + fake) as [|t|t] eqn:Ht; [lia| |lia].
    destruct (len days) as [|nd|nd] eqn:Hn; [lia| |lia].
    unfold Qeq, Qle, Qplus, Qmult, Qdiv, Qinv, inject_Z. simpl.
    rewrite ?Pos.mul_1_r, ?Pos.mul_1_l.
    repeat split; nia.
Qed.

Lemma inject_Z_pos (n : Z) : 0 < n → (0 < inject_Z n)%Q.
Proof. intros Hn. unfold Qlt, inject_Z. simpl. lia. Qed.

Lemma Qdiv_pos (x y : Q) : (0 < x)%Q → (0 < y)%Q → (0 < x / y)%Q.
Proof.
  intros Hx Hy. apply Qlt_shift_div_l; [done|]. by rewrite Qmult_0_l.
Qed.

Lemma float_div_pos (x : Q) (t n : Z) :
  0 < t → 0 < n →
  ∃ v, float_div x (inject_Z t / inject_Z n) = OK v
       ∧ (v == x / (inject_Z t / inject_Z n))%Q.
Proof.
  intros Ht Hn. unfold float_div.
  destruct (Qeq_bool (inject_Z t / inject_Z n) 0) eqn:Hz.
  - apply Qeq_bool_eq in Hz. exfalso. revert Hz.
    destruct t as [|t|t]; [lia| |lia]. destruct n as [|n|n]; [lia| |lia].
    unfold Qeq, Qdiv, Qmult, Qinv, inject_Z. simpl. lia.
  - eexists. split; [reflexivity|]. reflexivity.
Qed.

(** The summary of the three periods around the spike window
    ([create_summary_stats] on the dictionaries and dates built by
    [create_timeline_graph]), for a window whose start is not after its
    end: every event is before, inside or after the window; the summary
    fails with ZeroDivisionError exactly when one of the three periods has
    no event; otherwise it returns, and for each period the real and fake
    counts are the numbers of events of that period outside and inside the
    fake-set, the number of days is between 1 and the number of stars, the
    two percentages lie in [0, 100] and the daily average is at least 1;
    the velocity increase is positive. *)
Theorem summary_stats_outcome (accounts : list account)
    (fake_usernames : gset string) (spike_start spike_end : date) :
  date_le spike_start spike_end →
  let day := StarTimelineVisualizer.day_key in
  let before := tally (λ a, date_lt (day a) spike_start) accounts in
  let inside := tally (λ a, in_window spike_start spike_end (day a)) accounts in
  let after := tally (λ a, date_lt spike_end (day a)) accounts in
  let real_before :=
    tally (λ a, date_lt (day a) spike_start ∧ username a ∉ fake_usernames) accounts in
  let fake_before :=
    tally (λ a, date_lt (day a) spike_start ∧ username a ∈ fake_usernames) accounts in
  let real_inside :=
    tally (λ a, in_window spike_start spike_end (day a)
                ∧ username a ∉ fake_usernames) accounts in
  let fake_inside :=
    tally (λ a, in_window spike_start spike_end (day a)
                ∧ username a ∈ fake_usernames) accounts in
  let real_after :=
    tally (λ a, date_lt spike_end (day a) ∧ username a ∉ fake_usernames) accounts in
  let fake_after :=
    tally (λ a, date_lt spike_end (day a) ∧ username a ∈ fake_usernames) accounts in
  before + inside + after = len accounts
  ∧ real_before + fake_before = before
  ∧ real_inside + fake_inside = inside
  ∧ real_after + fake_after = after
  ∧ if decide (before = 0 ∨ inside = 0 ∨ after = 0)
    then summary_of accounts fake_usernames spike_start spike_end
         = Raise ZeroDivisionError
    else ∃ s,
      summary_of accounts fake_usernames spike_start spike_end = OK s
      ∧ period_ok (StarTimelineVisualizer.pre_spike_stats s) real_before fake_before
      ∧ period_ok (StarTimelineVisualizer.spike_stats s) real_inside fake_inside
      ∧ period_ok (StarTimelineVisualizer.post_spike_stats s) real_after fake_after
      ∧ (0 < StarTimelineVisualizer.velocity_increase s)%Q.
Proof.
  intros Hwin day before inside after r1 f1 r2 f2 r3 f3.
  split; [by apply tally_three|].
  assert (Hs1 : r1 + f1 = before) by apply tally_by_fake.
  assert (Hs2 : r2 + f2 = inside)
    by apply (tally_by_fake (λ a, in_window spike_start spike_end (day a))).
  assert (Hs3 : r3 + f3 = after) by apply tally_by_fake.
  split; [done|]. split; [done|]. split; [done|].
  unfold summary_of.
  pose proof (bucket_sums day date_le fake_usernames
                (λ d, date_lt d spike_start) accounts) as H1.
  pose proof (bucket_sums day date_le fake_usernames
                (λ d, date_le spike_start d ∧ date_le d spike_end) accounts) as H2.
  pose proof (bucket_sums day date_le fake_usernames
                (λ d, date_lt spike_end d) accounts) as H3.
  fold day.
  destruct (group_counts day accounts fake_usernames) as [daily_real daily_fake].
  cbv zeta in H1, H2, H3.
  destruct H1 as (Hr1 & Hf1 & Hl1 & Hz1), H2 as (Hr2 & Hf2 & Hl2 & Hz2),
    H3 as (Hr3 & Hf3 & Hl3 & Hz3).
  unfold StarTimelineVisualizer.create_summary_stats.
  rewrite Hr1, Hf1, Hr2, Hf2, Hr3, Hf3.
  match type of Hl1 with len ?d ≤ _ => set (days1 := d) in * end.
  match type of Hl2 with len ?d ≤ _ => set (days2 := d) in * end.
  match type of Hl3 with len ?d ≤ _ => set (days3 := d) in * end.
  clear Hr1 Hf1 Hr2 Hf2 Hr3 Hf3.
  match goal with
  | |- context [StarTimelineVisualizer.print_period days1 ?t1 ?t2] =>
      assert (E1 : t1 = r1) by (apply tally_ext; tauto);
      assert (E2 : t2 = f1) by (apply tally_ext; tauto);
      rewrite E1, E2; clear E1 E2
  end.
  match goal with
  | |- context [StarTimelineVisualizer.print_period days2 ?t1 ?t2] =>
      assert (E1 : t1 = r2) by (apply tally_ext; unfold in_window; tauto);
      assert (E2 : t2 = f2) by (apply tally_ext; unfold in_window; tauto);
      rewrite E1, E2; clear E1 E2
  end.
  match goal with
  | |- context [StarTimelineVisualizer.print_period days3 ?t1 ?t2] =>
      assert (E1 : t1 = r3) by (apply tally_ext; tauto);
      assert (E2 : t2 = f3) by (apply tally_ext; tauto);
      rewrite E1, E2; clear E1 E2
  end.
  assert (Hl1' : len days1 ≤ before ∧ (len days1 = 0 ↔ before = 0)).
  { match type of Hl1 with _ ≤ ?t =>
      assert (Hb : t = before) by (apply tally_ext; tauto) end.
    rewrite Hb in Hl1, Hz1. done. }
  assert (Hl2' : len days2 ≤ inside ∧ (len days2 = 0 ↔ inside = 0)).
  { match type of Hl2 with _ ≤ ?t =>
      assert (Hb : t = inside) by (apply tally_ext; unfold in_window; tauto) end.
    rewrite Hb in Hl2, Hz2. done. }
  assert (Hl3' : len days3 ≤ after ∧ (len days3 = 0 ↔ after = 0)).
  { match type of Hl3 with _ ≤ ?t =>
      assert (Hb : t = after) by (apply tally_ext; tauto) end.
    rewrite Hb in Hl3, Hz3. done. }
  destruct Hl1' as [Hl1' Hz1'], Hl2' as [Hl2' Hz2'], Hl3' as [Hl3' Hz3'].
  assert (0 ≤ r1 ∧ 0 ≤ f1 ∧ 0 ≤ r2 ∧ 0 ≤ f2 ∧ 0 ≤ r3 ∧ 0 ≤ f3)
    as (? & ? & ? & ? & ? & ?) by (repeat split; apply tally_nonneg).
  clear Hl1 Hl2 Hl3 Hz1 Hz2 Hz3.
  clearbody r1 f1 r2 f2 r3 f3 days1 days2 days3 before inside after.
  pose proof (print_period_spec days1 r1 f1) as P1.
  pose proof (print_period_spec days2 r2 f2) as P2.
  pose proof (print_period_spec days3 r3 f3) as P3.
  rewrite Hs1 in P1. rewrite Hs2 in P2. rewrite Hs3 in P3.
  specialize (P1 ltac:(done) ltac:(done) Hl1' Hz1').
  specialize (P2 ltac:(done) ltac:(done) Hl2' Hz2').
  specialize (P3 ltac:(done) ltac:(done) Hl3' Hz3').
  destruct (decide (before = 0)) as [Hb|Hb].
  { rewrite decide_True by tauto. by rewrite P1. }
  destruct P1 as (p1 & -> & Hp1 & Hn1). simpl.
  destruct (decide (inside = 0)) as [Hi|Hi].
  { rewrite decide_True by tauto. by rewrite P2. }
  destruct P2 as (p2 & -> & Hp2 & Hn2). simpl.
  assert (Hd1 : 0 < len days1) by (unfold len in *; lia).
  assert (Hd2 : 0 < len days2) by (unfold len in *; lia).
  unfold true_div. rewrite Hs1, Hs2.
  destruct (Z.eqb_spec (len days2) 0); [lia|].
  destruct (Z.eqb_spec (len days1) 0); [lia|].
  simpl.
  destruct (float_div_pos (inject_Z inside / inject_Z (len days2)) before (len days1))
    as (v & -> & Hv); [lia|done|]. simpl.
  destruct (decide (after = 0)) as [Ha|Ha].
  { rewrite decide_True by tauto. by rewrite P3. }
  destruct P3 as (p3 & -> & Hp3 & Hn3). simpl.
  rewrite decide_False by tauto.
  eexists. split; [reflexivity|]. simpl.
  split; [done|]. split; [done|]. split; [done|].
  rewrite Hv. apply Qdiv_pos; apply Qdiv_pos; apply inject_Z_pos; lia.
Qed.

Lemma summary_stats_outcome_witness :
  date_le (2024, 3, 2) (2024, 3, 2)
  ∧ ∃ s, summary_of four_stars {["pm"]} (2024, 3, 2) (2024, 3, 2) = OK s
         ∧ StarTimelineVisualizer.total_stars (StarTimelineVisualizer.pre_spike_stats s) = 2
         ∧ StarTimelineVisualizer.real_stars (StarTimelineVisualizer.pre_spike_stats s) = 1
         ∧ StarTimelineVisualizer.fake_stars (StarTimelineVisualizer.pre_spike_stats s) = 1.
Proof.
  assert (Hwin : date_le (2024, 3, 2) (2024, 3, 2)) by (unfold date_le; lia).
  split; [exact Hwin|].
  pose proof (summary_stats_outcome four_stars {["pm"]} (2024, 3, 2) (2024, 3, 2) Hwin)
    as H.
  cbv zeta in H. destruct H as (_ & _ & _ & _ & H).
  destruct (decide _) as [Hz|_] in H;
    [vm_compute in Hz; destruct Hz as [Hz|[Hz|Hz]]; discriminate Hz|].
  destruct H as (s & Hs & (Hr & Hf & Ht & _) & _).
  exists s. split; [exact Hs|]. rewrite Ht, Hr, Hf.
  split; [|split]; vm_compute; reflexivity.
Defined.

(** ** The printed spikes *)

Lemma nth_range_drop {A : Type} (l : list A) (d : A) (a : Z) :
  0 ≤ a →
  (λ i, nth (Z.to_nat i) l d) <$> range a (len l) = drop (Z.to_nat a) l.
Proof.
  intros Ha. apply list_eq. intros i. unfold range, len.
  rewrite <-list_fmap_compose, list_lookup_fmap, lookup_drop.
  destruct (decide (i < Z.to_nat (Z.of_nat (length l) - a))%nat) as [Hi|Hi].
  - rewrite (lookup_seq_lt _ _ _ Hi). simpl.
    rewrite nth_lookup.
    replace (Z.to_nat (a + Z.of_nat i)) with (Z.to_nat a + i)%nat by lia.
    destruct (lookup_lt_is_Some_2 l (Z.to_nat a + i)) as [x ->]; [lia|done].
  - rewrite (lookup_seq_ge _ _ _) by lia. simpl.
    symmetry. apply lookup_ge_None. lia.
Qed.

Lemma sub_range_Forall (P : Z → Prop) (weeks : list string) (counts : list Z) :
  Forall P counts → Forall P (sub_range_2024 weeks counts).
Proof.
  intros Hall. unfold sub_range_2024. apply Forall_fmap, Forall_forall.
  intros [w x] [_ Hin]%list_elem_of_filter. simpl.
  apply elem_of_zip_r in Hin. by eapply Forall_forall in Hall.
Qed.

Lemma at_nonneg (l : list Z) (i : Z) : Forall (λ x, 0 ≤ x) l → 0 ≤ at_ l i.
Proof.
  intros Hall. unfold at_. rewrite nth_lookup.
  destruct (l !! Z.to_nat i) as [x|] eqn:Hx; simpl; [|done].
  by eapply Forall_lookup_1 in Hall.
Qed.

(** A flagged week of non-negative series: more than 10 fake stars, and a
    real moving average above 5. *)
Lemma spike_at_facts (weeks : list string) (real fake : list Z) (i : Z) :
  Forall (λ x, 0 ≤ x) real → Forall (λ x, 0 ≤ x) fake →
  4 ≤ i ≤ len real → 4 ≤ i ≤ len fake →
  spec_spike real fake i →
  let s := spike_at weeks real fake i in
  11 ≤ CorrelationAnalyzer.spike_fake s
  ∧ 0 ≤ CorrelationAnalyzer.spike_real s
  ∧ (5 < CorrelationAnalyzer.spike_real_ma s)%Q
  ∧ (0 <= CorrelationAnalyzer.spike_fake_ma s)%Q
  ∧ (CorrelationAnalyzer.spike_real_dev s < -5)%Q
  ∧ (10 < CorrelationAnalyzer.spike_fake_dev s)%Q.
Proof.
  intros Hr Hf Hir Hif [Hsr Hsf]. simpl.
  pose proof (at_nonneg real i Hr). pose proof (at_nonneg real (i - 1) Hr).
  pose proof (at_nonneg real (i - 2) Hr). pose proof (at_nonneg real (i - 3) Hr).
  pose proof (at_nonneg real (i - 4) Hr).
  pose proof (at_nonneg fake i Hf). pose proof (at_nonneg fake (i - 1) Hf).
  pose proof (at_nonneg fake (i - 2) Hf). pose proof (at_nonneg fake (i - 3) Hf).
  pose proof (at_nonneg fake (i - 4) Hf).
  rewrite !mean_window by done.
  unfold spec_deviation, spec_moving_avg in *.
  unfold Qlt, Qle, Qminus, Qplus, Qopp, inject_Z in *. simpl in *.
  repeat split; lia.
Qed.

(** The weeks printed by the moving-average block: they are weeks of the
    2024 slice after its first four, each at most once and in the order of
    the slice, so there are at most [length - 4] of them; every printed
    week has at least 11 fake stars, a moving average of real stars above
    5 and a non-negative moving average of fake stars, and its deviations
    are below -5 for real and above 10 for fake stars. *)
Theorem printed_spikes (accounts : list account) (fake_usernames : gset string) :
  ∃ data printed,
    CorrelationAnalyzer.analyze_weekly_correlation accounts fake_usernames
    = OK (data, printed)
    ∧ let w24 := weeks_2024_of (CorrelationAnalyzer.all_weeks data) in
      CorrelationAnalyzer.spike_week <$> printed `sublist_of` drop 4 w24
      ∧ NoDup (CorrelationAnalyzer.spike_week <$> printed)
      ∧ len printed ≤ Z.max 0 (len w24 - 4)
      ∧ Forall (λ s, 11 ≤ CorrelationAnalyzer.spike_fake s
                     ∧ 0 ≤ CorrelationAnalyzer.spike_real s
                     ∧ (5 < CorrelationAnalyzer.spike_real_ma s)%Q
                     ∧ (0 <= CorrelationAnalyzer.spike_fake_ma s)%Q
                     ∧ (CorrelationAnalyzer.spike_real_dev s < -5)%Q
                     ∧ (10 < CorrelationAnalyzer.spike_fake_dev s)%Q)
               printed.
Proof.
  destruct (analyze_weekly_correlation_spec accounts fake_usernames)
    as (data & printed & Hrun & Hb & _ & _ & Hr24 & Hf24 & _ & _ & _ & _ & Hp).
  exists data, printed. split; [exact Hrun|]. intros w24.
  set (r24 := sub_range_2024 (CorrelationAnalyzer.all_weeks data)
                (CorrelationAnalyzer.real_counts data)) in *.
  set (f24 := sub_range_2024 (CorrelationAnalyzer.all_weeks data)
                (CorrelationAnalyzer.fake_counts data)) in *.
  fold w24 in Hr24, Hf24, Hp.
  assert (Hnn : Forall (λ x, 0 ≤ x) r24 ∧ Forall (λ x, 0 ≤ x) f24).
  { destruct Hb as (_ & _ & Hr & Hf).
    split; apply sub_range_Forall; [rewrite Hr|rewrite Hf];
      apply Forall_fmap, Forall_forall; intros k _; apply tally_nonneg. }
  destruct Hnn as [Hrn Hfn].
  assert (Hnd : NoDup w24).
  { apply NoDup_filter, (ascending_NoDup String.le). by destruct Hb as [? _]. }
  assert (Hsub : CorrelationAnalyzer.spike_week <$> printed `sublist_of` drop 4 w24).
  { rewrite Hp. destruct (8 <=? len w24); [|apply sublist_nil_l].
    rewrite <-list_fmap_compose.
    change 4%nat with (Z.to_nat 4). rewrite <-(nth_range_drop w24 "" 4) by lia.
    apply fmap_sublist, sublist_filter. }
  split; [exact Hsub|]. split.
  { eapply sublist_NoDup; [|exact Hsub].
    eapply sublist_NoDup; [exact Hnd|apply sublist_drop]. }
  split.
  { apply sublist_length in Hsub. rewrite length_fmap, length_drop in Hsub.
    unfold len. lia. }
  rewrite Hp. destruct (8 <=? len w24); [|constructor].
  apply Forall_fmap, Forall_forall. intros i [Hs Hi]%list_elem_of_filter.
  pose proof (range_bounds 4 (len w24)) as Hrb.
  rewrite Forall_forall in Hrb. apply Hrb in Hi.
  apply (spike_at_facts w24 r24 f24 i); (done || lia).
Qed.
